(* ===== verification/_CoqProject ===== *)
-Q . S2P
Prelude.v
Types.v
Plots.v
Loader.v
Session.v
Classifier.v
Simulator.v
Filter.v
Views.v
Charts.v
Maintenance.v
Scheduler.v
Dashboard.v
Browser.v
