(* ===== verification/Prelude.v ===== *)
(** * A verification development of the NOC live-status dashboard

    The program is [src/noc-dashboard.js], a browser page that loads two CSV
    files (node metadata and a performance history), replays the history
    as simulated live telemetry, classifies every node, and every 180
    seconds redraws status counters, a map, key metrics, two ranked bar
    charts and maintenance alerts.  All state lives in module-level
    globals; [Math.random] and the clock drive the simulation.

    ** How the program is modelled

    JavaScript numbers are rationals [Q] (no float rounding); a division
    that may be by zero gives a [jsnum] ([JFin], [JNaN], [JInf]).  The
    globals [nodesData], [performanceData], [simulatedDataIndex] together
    with the random stream and the clock form the record [Globals]
    (Session.v), threaded through a state monad [ST] whose bind is written
    [x <- m ;; k].  [Math.random] reads the next draw of a stream
    [Rng] (draws in [0,1) is the hypothesis [rng_valid]); [Date.now] reads
    [now], which stays fixed within a callback and moves between callbacks
    with the wall clock of Browser.v.  DOM reads are record arguments ([Selection], [Controls]); DOM
    writes and the traces and layouts handed to [Plotly.newPlot] are
    returned values ([NetworkStatus], [MapPlot], [KeyMetrics] with its
    [TrendPlot]s, [BarPlot], [Alerts], [Render]).

    - Prelude.v: comparisons [<?]/[>?] on [Q] in [noc_scope],
      [[...new Set(xs)]] as [set_from], [Array.prototype.slice] as
      [js_slice], floors, [jsnum], the hint databases [noc]/[noc_rw].
    - Types.v: the CSV rows [Node.t], [Perf.t], thresholds (lines 5-15),
      the status enum [Status] and the enriched node [Enriched.t].
    - Plots.v: the pieces of the Plotly layouts (lines, shapes,
      annotations, axes, margins).
    - Loader.v: [loadCSV] (lines 58-72) as a promise over what
      [Papa.parse] reports, with cells as JavaScript values ([Cell]) and
      the truthy [node_id] filter, and [Promise.all] ([promiseAll]).
    - Session.v: [Globals], the [ST] monad, [Math_random], [Date_now], and
      a small program logic: [st_spec m Q] (Q holds of the result and the
      number of draws; frame preserved) and [st_spec_at T] (clock fixed).
    - Classifier.v: [getNodeStatus] (lines 175-193) against a relational
      specification [status_spec] of the threshold rules.
    - Simulator.v: [generateCurrentPerformanceData] and [addVariation]
      (lines 196-253): the window [baseDataOf], one simulated sample per
      node ([simulateNode], [perturb], [injectIssue]) and the +50 cursor.
    - Filter.v: [getFilteredData] (lines 141-172), [initializeFilters]
      (lines 75-97).
    - Views.v: [updateNetworkStatus], [updateNetworkMap] with its layout,
      [updateKeyMetrics], [getRandomTrendData] and [updateTrendChart]
      (lines 268-408); the [for] loop of [getRandomTrendData] is
      [trendFor], defined with Equations by well-founded recursion on
      [10 - i] over the code's integer counter, and proved equal to the
      structural countdown [trendLoop].
    - Charts.v: [updateTemperatureChart], [updateUtilizationChart] (lines
      411-630), trace and layout ([BarPlot]), with [Array.prototype.sort] as a stable insertion sort
      [sortDesc]; [sortDesc_stable] proves its output is the only list an
      ES2019 engine may return (sorted, and stable on equal keys).
    - Maintenance.v: [updateMaintenanceAlerts],
      [generateMaintenanceSchedule] (lines 633-781).
    - Scheduler.v: [startRefreshTimer], its interval callback [tick],
      [updateCountdown], [manualRefresh] (lines 100-131), in a [Section]
      parametric in the refresh action; the browser's table of active
      intervals is explicit state, events ([Fire], [ManualClick], [Start])
      form a step function and [reachable] is the inductive set of states
      the page can reach.  The class [Refresher] is the scheduler's
      interface to the dashboard (a refresh action and a property every
      refresh keeps); Dashboard.v discharges it with [page_refresher].
    - Dashboard.v: [updateDashboard] (lines 256-265) composing the views in
      the code's order, the start-up handler [startDashboard] (lines
      19-50) over the two parse results, and the page as the scheduler
      instantiated with it; the
      page's listeners (lines 43-46: apply filters, manual refresh, the two
      chart selectors) and filter edits are the events of [pageStep], and
      [running] is the inductive set of pages a successful start-up can
      reach.
    - Browser.v: the [DOMContentLoaded] handler as a whole (lines 19-55)
      with the clock display [updateCurrentTime] (lines 134-138).  The
      browser's state [Browser] holds the wall clock, [#current-time], the
      clock's interval, the next interval id and the start-up [Phase]
      (loading, failed, or the running page of Dashboard.v).  Its events
      are the promise settling ([settle], once), one second passing
      ([elapse]: the clock moves, the page sees it, every active interval
      fires once) and the user's actions ([onPage]).
      [browser_reachable] is the inductive set of states from the
      handler on.  The locale's [toLocaleDateString] and
      [toLocaleTimeString] are a parameter ([Locale]).

    ** What the theorems show

    - Classification: [getNodeStatus] refines its specification (it is
      also monotone in the metrics and respects equality of rationals).
    - Simulation: one sample per distinct node of the window, every sample
      within the noise and single-fault bounds, the cursor advances by 50
      and the draws used are counted; the window starts in the first third
      of the history, at [cursor mod (length/3)] when the length is a
      multiple of 3; for every other length [L >= 3] the cursor [L div 3]
      starts it at row [L div 3] where the spec's integer formula starts
      at row 0 (a divergence from the spec).
    - Filtering: membership, status tagging, order preservation, and the
      filter options.
    - Views: counters and percentages (NaN on an empty set, short of 100
      with unknown nodes), one map marker per node and gray exactly for
      nodes without snapshot, the means (nodes without snapshot count as
      0), the trend sparkline's shape; and on every screen each counter
      equals the number of map markers of its colour, and the alert count
      equals the nodes the maintenance panel accounts for.
    - Charts: the sort is the unique stable descending order, each chart
      shows the top 20, every plot is well formed (trace and layout sized
      to the same bars; with no bar the threshold lines collapse), a red
      bar always belongs to a critical node of the chart's snapshot (the
      example [utilizationChart_exceeds_axis] evaluates a cpu bar above
      the fixed [[0, 100]] axis).
    - Loading: [loadCSV] keeps exactly the rows with a truthy id (an id
      [0] loses its rows).
    - Maintenance: the reason shown for each critical or warning node
      ("Multiple issues detected" is unreachable), the five-warning
      truncation, and the slot ranges of the schedule.
    - Scheduler: an invariant of all reachable states (one active
      interval, countdown in [1,180]) by rule induction, one tick per
      second, a refresh every 180 seconds, the countdown text that reads
      back as the countdown, and the lagging countdown text.
    - Dashboard: one cycle advances the cursor by 150, not 50 (a code bug;
      the example [updateDashboard_inconsistent_screen] evaluates a screen
      whose counters and temperature chart disagree); a chart-selector
      change re-simulates telemetry for that chart alone; applying filters
      does not reset the countdown, so two refreshes can fall within one
      second; start-up fails exactly when a CSV load fails; and
      every running page, by rule induction over its events, keeps one
      active interval, its loaded rows and a screen.
    - Browser: from the handler on, by rule induction over all events, the
      clock's interval stays active with an id no refresh interval ever
      gets (the browser hands out ids from one counter), [#current-time]
      shows the current wall-clock time, and a loaded page reads the wall
      clock and is a running page, refreshed every 180 seconds of
      wall-clock time.  After a failed load the alert is
      final and only the clock lives on.  The clock and the page share no
      state: redrawing the clock commutes with every other event, and the
      order of the two intervals within a second does not matter.

    ** Bounds and fuel

    No definition uses fuel: every loop of the code runs over a list
    ([forEach], [map], [filter], [sort]) and is a structural [Fixpoint] or
    a list combinator; the one counted loop, [getRandomTrendData]'s
    [for (let i = 0; i < 10; i++)], is [trendFor], well-founded on the
    measure [Z.to_nat (10 - i)], and [trendFor_terminates] counts its
    iterations from any start.  Time is a sequence of events, so
    [refresh_every_180] and [browser_refresh_every_180] are stated for
    any number [k] of seconds, and
    [load_failure_clock_only] for any sequence of events.  One second
    fires every active interval once, in the order of their creation; the
    browser runs intervals of equal period at different phases, and
    [clock_independent] shows the order does not matter.
    [countdownString_roundtrip] is checked by evaluation over 0..180, which covers every value the countdown holds
    ([reachable_sched_inv] keeps it in [1, 180]; 0 is shown for the one
    refreshing tick).

    ** Not modelled

    PapaParse's own parsing and cell typing (its result is the input of
    [loadCSV]; node ids are strings in [Node.t], so a numeric id appears
    only in [loadCSV]'s generic model); the locale's date and time
    formatting, a parameter of the clock display; the effects of
    [Plotly.newPlot] and of the DOM writes beyond the payloads handed to
    them, HTML markup and [toFixed]; floating-point rounding; and time
    within a callback: the wall clock moves only between callbacks, a
    second at a time. *)

From Stdlib Require Import QArith Qabs Qround Qminmax Lqa ZArith String.
From stdpp Require Import base list decidable sets strings.

#[export] Set Warnings "-clear-no-such-hyp".

Declare Scope noc_scope.
Delimit Scope noc_scope with noc.

(** ** Comparisons of JavaScript numbers

    The dashboard compares floating-point metrics with [>] and [<].  Numbers
    are modelled as rationals [Q]; the strict comparison is a boolean test
    so that every definition of the development computes. *)

Definition Qltb (x y : Q) : bool := negb (Qle_bool y x).

Notation "x <? y" := (Qltb x y) : noc_scope.
Notation "x >? y" := (Qltb y x) : noc_scope.

Open Scope noc_scope.

Lemma Qltb_spec (x y : Q) : reflect (x < y)%Q (x <? y).
Proof.
  unfold Qltb. destruct (Qle_bool y x) eqn:E; simpl; constructor.
  - rewrite Qle_bool_iff in E. lra.
  - destruct (Qlt_le_dec x y) as [Hlt|Hle]; [exact Hlt|].
    rewrite <- Qle_bool_iff in Hle. congruence.
Qed.

Lemma Qltb_true (x y : Q) : (x <? y) = true <-> (x < y)%Q.
Proof. destruct (Qltb_spec x y); split; congruence || tauto. Qed.

Lemma Qltb_false (x y : Q) : (x <? y) = false <-> (y <= x)%Q.
Proof. destruct (Qltb_spec x y); split; intros; try lra; congruence. Qed.

(** [Qltb] respects the equality of rationals. *)
#[export] Instance Qltb_proper : Proper (Qeq ==> Qeq ==> eq) Qltb.
Proof.
  intros x x' Hx y y' Hy.
  destruct (Qltb_spec x y), (Qltb_spec x' y'); auto; exfalso; lra.
Qed.

(** Case analysis on every comparison of the goal. *)
Ltac qcases :=
  repeat match goal with
  | |- context [Qltb ?a ?b] => destruct (Qltb_spec a b)
  | H : context [Qltb ?a ?b] |- _ => destruct (Qltb_spec a b)
  end.

(** ** Arrays: the JavaScript built-ins the program calls *)

(** [[...new Set(xs)]]: the distinct elements of [xs] in the order of their
    first occurrence (a [Set] iterates in insertion order). *)
Fixpoint set_from_go `{EqDecision A} (seen : list A) (xs : list A) : list A :=
  match xs with
  | [] => []
  | x :: xs' =>
      if decide (x ∈ seen) then set_from_go seen xs'
      else x :: set_from_go (x :: seen) xs'
  end.

Definition set_from `{EqDecision A} (xs : list A) : list A := set_from_go [] xs.

(** [ToIntegerOrInfinity] on a number that may be [NaN] ([None]):
    truncation towards zero, [NaN] becomes 0. *)
Definition Qtrunc (q : Q) : Z :=
  if Qltb q 0 then (- Qfloor (- q))%Z else Qfloor q.

Definition to_integer (v : option Q) : Z :=
  match v with None => 0%Z | Some q => Qtrunc q end.

(** A relative index of [Array.prototype.slice], clamped into [[0, len]]. *)
Definition rel_index (len : nat) (k : Z) : nat :=
  if (k <? 0)%Z then Z.to_nat (Z.max (Z.of_nat len + k) 0)
  else Z.to_nat (Z.min k (Z.of_nat len)).

(** [xs.slice(s, e)]. *)
Definition js_slice {A} (xs : list A) (s e : option Q) : list A :=
  let from := rel_index (length xs) (to_integer s) in
  let to := rel_index (length xs) (to_integer e) in
  take (to - from) (drop from xs).

(** ** Generic lemmas shared by the components *)

Create HintDb noc discriminated.
Create Rewrite HintDb noc_rw.

Lemma set_from_go_elem `{EqDecision A} (seen xs : list A) (x : A) :
  x ∈ set_from_go seen xs <-> x ∈ xs /\ x ∉ seen.
Proof.
  revert seen. induction xs as [|y xs IH]; intros seen; simpl.
  - set_solver.
  - case_decide.
    + rewrite IH, elem_of_cons. destruct (decide (x = y)); subst; tauto.
    + rewrite !elem_of_cons, IH, elem_of_cons.
      destruct (decide (x = y)); subst; tauto.
Qed.

Lemma set_from_elem `{EqDecision A} (xs : list A) (x : A) :
  x ∈ set_from xs <-> x ∈ xs.
Proof. unfold set_from. rewrite set_from_go_elem. set_solver. Qed.

Lemma set_from_go_NoDup `{EqDecision A} (seen xs : list A) :
  NoDup (set_from_go seen xs).
Proof.
  revert seen. induction xs as [|y xs IH]; intros seen; simpl.
  - constructor.
  - case_decide; [apply IH|].
    constructor; [|apply IH].
    rewrite set_from_go_elem. set_solver.
Qed.

Lemma set_from_NoDup `{EqDecision A} (xs : list A) : NoDup (set_from xs).
Proof. apply set_from_go_NoDup. Qed.

Lemma set_from_length `{EqDecision A} (xs : list A) :
  length (set_from xs) <= length xs.
Proof.
  unfold set_from. generalize (@nil A).
  induction xs as [|y xs IH]; intros seen; simpl; [lia|].
  case_decide; simpl; [specialize (IH seen) | specialize (IH (y :: seen))]; lia.
Qed.

Lemma rel_index_le (len : nat) (k : Z) : rel_index len k <= len.
Proof. unfold rel_index. destruct (Z.ltb_spec k 0); lia. Qed.

Lemma js_slice_length {A} (xs : list A) s e :
  length (js_slice xs s e) =
  rel_index (length xs) (to_integer e) - rel_index (length xs) (to_integer s).
Proof.
  unfold js_slice. rewrite length_take, length_drop.
  pose proof (rel_index_le (length xs) (to_integer e)). lia.
Qed.

#[export] Hint Resolve set_from_NoDup rel_index_le : noc.
#[export] Hint Rewrite @set_from_elem @js_slice_length : noc_rw.
#[export] Hint Rewrite @list_elem_of_filter @list_elem_of_fmap : noc_rw.

(** ** Integer parts of rationals *)

Lemma Qfloor_unique (q : Q) (z : Z) :
  (inject_Z z <= q)%Q -> (q < inject_Z z + 1)%Q -> Qfloor q = z.
Proof.
  intros H1 H2. pose proof (Qfloor_le q). pose proof (Qlt_floor q).
  rewrite inject_Z_plus in *. change (inject_Z 1) with 1%Q in *.
  set (f := Qfloor q) in *. clearbody f.
  assert (z < f + 1)%Z by (rewrite Zlt_Qlt, inject_Z_plus; change (inject_Z 1) with 1%Q; lra).
  assert (f < z + 1)%Z by (rewrite Zlt_Qlt, inject_Z_plus; change (inject_Z 1) with 1%Q; lra).
  lia.
Qed.

Lemma Qfloor_nonneg (q : Q) : (0 <= q)%Q -> (0 <= Qfloor q)%Z.
Proof.
  intros Hq. pose proof (Qlt_floor q) as H. rewrite inject_Z_plus in H.
  change (inject_Z 1) with 1%Q in H. set (f := Qfloor q) in *. clearbody f.
  assert (-1 < f)%Z by (rewrite Zlt_Qlt; change (inject_Z (-1)) with (-1)%Q; lra). lia.
Qed.

Lemma Qtrunc_nonneg (q : Q) : (0 <= q)%Q -> Qtrunc q = Qfloor q.
Proof. intros Hq. unfold Qtrunc. destruct (Qltb_spec q 0); [lra|reflexivity]. Qed.

Lemma Qfloor_plus_Z (q : Q) (k : Z) : Qfloor (q + inject_Z k) = (Qfloor q + k)%Z.
Proof.
  apply Qfloor_unique; rewrite inject_Z_plus;
    pose proof (Qfloor_le q); pose proof (Qlt_floor q);
    rewrite ?inject_Z_plus in *; change (inject_Z 1) with 1%Q in *; lra.
Qed.

Lemma Qfloor_inject_Z (z : Z) : Qfloor (inject_Z z) = z.
Proof. apply Qfloor_unique; lra. Qed.

(** [xs.slice(s, s + k)] for a start [s] inside the array: [k] elements
    from [floor s] on (fewer at the end of the array). *)
Lemma js_slice_from {A} (xs : list A) (s : Q) (k : Z) :
  (0 <= s)%Q -> (Qfloor s < Z.of_nat (length xs))%Z -> (0 <= k)%Z ->
  js_slice xs (Some s) (Some (s + inject_Z k)%Q) =
  take (Z.to_nat k) (drop (Z.to_nat (Qfloor s)) xs).
Proof.
  intros Hs Hlt Hk. pose proof (Qfloor_nonneg s Hs) as Hf0.
  unfold js_slice, to_integer.
  assert (Hsk : (0 <= s + inject_Z k)%Q).
  { rewrite Zle_Qle in Hk. change (inject_Z 0) with 0%Q in Hk. lra. }
  rewrite (Qtrunc_nonneg _ Hs), (Qtrunc_nonneg _ Hsk), Qfloor_plus_Z.
  unfold rel_index.
  destruct (Z.ltb_spec (Qfloor s) 0); [lia|].
  destruct (Z.ltb_spec (Qfloor s + k) 0); [lia|].
  set (f := Qfloor s) in *.
  destruct (Z.le_gt_cases (f + k) (Z.of_nat (length xs))).
  - rewrite Z.min_l, Z.min_l by lia. f_equal. lia.
  - rewrite Z.min_r, Z.min_l by lia.
    rewrite (take_ge (drop _ xs) (Z.to_nat k)) by (rewrite length_drop; lia).
    apply take_ge. rewrite length_drop. lia.
Qed.

Lemma sublist_map {A B} (f : A -> B) (l1 l2 : list A) :
  l1 `sublist_of` l2 -> map f l1 `sublist_of` map f l2.
Proof. induction 1; simpl; constructor; assumption. Qed.

(** ** Random noise [value + (Math.random() * 2 - 1) * maxVariation] *)

Open Scope Q_scope.

(** A draw [r] in [[0, 1)] moves [v] by at most [|m|]. *)
Lemma variation_within (v m r : Q) :
  0 <= r < 1 -> Qabs (v + (r * 2 - 1) * m - v) <= Qabs m.
Proof.
  intros Hr.
  assert (E : v + (r * 2 - 1) * m - v == (r * 2 - 1) * m) by ring.
  rewrite E, Qabs_Qmult.
  rewrite <- (Qmult_1_l (Qabs m)) at 2.
  apply Qmult_le_compat_r; [|apply Qabs_nonneg].
  apply Qabs_Qle_condition. lra.
Qed.

Lemma variation_within_pos (v m r : Q) :
  0 <= m -> 0 <= r < 1 -> Qabs (v + (r * 2 - 1) * m - v) <= m.
Proof.
  intros Hm Hr. rewrite <- (Qabs_pos m) at 2 by exact Hm. apply variation_within, Hr.
Qed.

Close Scope Q_scope.

(** ** JavaScript numbers where division by zero matters

    A finite value, [NaN], or an infinity of a sign. *)
Inductive jsnum := JFin (q : Q) | JNaN | JInf (positive : bool).

(** [a / b]. *)
Definition js_div (a b : Q) : jsnum :=
  if Qeq_bool b 0 then
    (if Qeq_bool a 0 then JNaN else JInf (Qltb 0 a))
  else JFin (a / b).

(** [x * k] for a positive constant [k]. *)
Definition js_scale (x : jsnum) (k : Q) : jsnum :=
  match x with JFin q => JFin (q * k) | other => other end.

(** [Math.floor(Math.random() * k)] lies in [[0, k)]. *)
Lemma Qfloor_scaled_draw (r : Q) (k : Z) :
  (0 <= r < 1)%Q -> (0 < k)%Z -> (0 <= Qfloor (r * inject_Z k) < k)%Z.
Proof.
  intros Hr Hk. pose proof (Qfloor_le (r * inject_Z k)) as Hle.
  pose proof (Qlt_floor (r * inject_Z k)) as Hlt.
  rewrite inject_Z_plus in Hlt. change (inject_Z 1) with 1%Q in Hlt.
  assert (Hk' : (0 < inject_Z k)%Q) by (change 0%Q with (inject_Z 0); rewrite <- Zlt_Qlt; exact Hk).
  assert (H0 : (0 <= r * inject_Z k)%Q) by (apply Qmult_le_0_compat; lra).
  assert (H1 : (r * inject_Z k < inject_Z k)%Q).
  { rewrite <- (Qmult_1_l (inject_Z k)) at 2. apply Qmult_lt_compat_r; lra. }
  set (z := Qfloor (r * inject_Z k)) in *. clearbody z.
  assert (-1 < z)%Z by (rewrite Zlt_Qlt; change (inject_Z (-1)) with (-1)%Q; lra).
  assert (z < k)%Z by (rewrite Zlt_Qlt; lra).
  lia.
Qed.
