(* ===== verification/Types.v ===== *)
(** * Types: the data model of the dashboard

    The two CSV datasets (node metadata and performance samples, §3 of the
    spec) as records, the tri-state health [Status] with the strings the
    code compares, the enriched node built by [getFilteredData], and the
    constant threshold tables of [src/noc-dashboard.js] lines 5-15. *)

From Stdlib Require Import QArith ZArith String.
From stdpp Require Import base list decidable strings.
From S2P Require Import Prelude.

Open Scope Q_scope.

(** A row of [network_nodes_metadata.csv]. *)
Module Node.
Record t := mk {
    node_id : string;
    node_name : string;
    node_type : string;
    region : string;
    latitude : Q;
    longitude : Q
  }.
End Node.

(** A row of [network_performance_data.csv]; [timestamp] is a [Date] in
    milliseconds since the epoch. *)
Module Perf.
Record t := mk {
    node_id : string;
    timestamp : Z;
    temperature_celsius : Q;
    cpu_utilization_percent : Q;
    memory_utilization_percent : Q;
    throughput_utilization_percent : Q;
    download_bandwidth_mbps : Q;
    upload_bandwidth_mbps : Q;
    availability_percent : Q
  }.
End Perf.

(** A [{warning, critical}] pair of cutoffs. *)
Module Thresholds.
Record t := mk { warning : Q; critical : Q }.
End Thresholds.

(** [refreshInterval = 180] (line 5). *)
Definition refreshInterval : Z := 180%Z.

(** [temperatureThresholds] (lines 8-11) and [cpuThresholds] (lines 12-15). *)
Definition temperatureThresholds : Thresholds.t := Thresholds.mk 40 50.
Definition cpuThresholds : Thresholds.t := Thresholds.mk 70 90.

(** The status strings returned by [getNodeStatus]. *)
Inductive Status := Healthy | Warning | Critical | Unknown.

#[export] Instance Status_eq_dec : EqDecision Status.
Proof. solve_decision. Defined.

Definition status_name (s : Status) : string :=
  match s with
  | Healthy => "healthy"
  | Warning => "warning"
  | Critical => "critical"
  | Unknown => "unknown"
  end.

(** [{...node, status, performance: nodePerf}] (line 163). *)
Module Enriched.
Record t := mk {
    node : Node.t;
    status : Status;
    performance : option Perf.t
  }.
End Enriched.

(** The metric of a node's snapshot, [0] when it has none
    ([node.performance ? node.performance.f : 0]). *)
Definition metric_or_zero (f : Perf.t -> Q) (n : Enriched.t) : Q :=
  match Enriched.performance n with Some p => f p | None => 0 end.

(** Equality of samples up to the equality of rationals on every metric. *)
Definition perf_equiv (p q : Perf.t) : Prop :=
  Perf.node_id p = Perf.node_id q /\ Perf.timestamp p = Perf.timestamp q /\
  Perf.temperature_celsius p == Perf.temperature_celsius q /\
  Perf.cpu_utilization_percent p == Perf.cpu_utilization_percent q /\
  Perf.memory_utilization_percent p == Perf.memory_utilization_percent q /\
  Perf.throughput_utilization_percent p == Perf.throughput_utilization_percent q /\
  Perf.download_bandwidth_mbps p == Perf.download_bandwidth_mbps q /\
  Perf.upload_bandwidth_mbps p == Perf.upload_bandwidth_mbps q /\
  Perf.availability_percent p == Perf.availability_percent q.

#[export] Instance perf_equiv_equivalence : Equivalence perf_equiv.
Proof.
  split.
  - intros p. repeat split; reflexivity.
  - intros p q H. unfold perf_equiv in *. intuition (symmetry; assumption).
  - intros p q r H1 H2. unfold perf_equiv in *.
    intuition (etransitivity; eassumption).
Qed.

Lemma status_name_inj (s1 s2 : Status) : status_name s1 = status_name s2 -> s1 = s2.
Proof. destruct s1, s2; simpl; congruence. Qed.

(** Reduces the projections of [Perf.t] and [Node.t] records built with
    [mk], and nothing else (plain [simpl] would unfold the rationals). *)
Ltac perf_simpl :=
  cbn [Perf.node_id Perf.timestamp Perf.temperature_celsius
       Perf.cpu_utilization_percent Perf.memory_utilization_percent
       Perf.throughput_utilization_percent Perf.download_bandwidth_mbps
       Perf.upload_bandwidth_mbps Perf.availability_percent
       Node.node_id Node.node_name Node.node_type Node.region
       Enriched.node Enriched.status Enriched.performance] in *.
