(* ===== verification/Plots.v ===== *)
(** * Plots: the pieces of the Plotly payloads

    Every chart of the dashboard is drawn by
    [Plotly.newPlot(element, [trace], layout)], where the trace and the
    layout are JavaScript object literals.  This file holds the parts the
    layouts share: lines, shapes, annotations, axes and margins, each a
    record whose fields are the keys the code writes ([option] where one
    chart sets a key that another leaves out).  The traces and layouts of
    each chart are in the file of that chart. *)

From Stdlib Require Import QArith String.
From S2P Require Import Prelude.

(** [line: {color, width, dash}]. *)
Record Line := mkLine { line_color : string; line_width : Q; line_dash : option string }.

(** [{type: 'line', x0, x1, y0, y1, line}]. *)
Record Shape := mkShape {
  shape_x0 : Q; shape_x1 : Q; shape_y0 : Q; shape_y1 : Q; shape_line : Line
}.

(** [{x, y, xref: 'x', yref: 'y', text, showarrow: false, bgcolor,
    font: {color}, xanchor, yanchor}]. *)
Record Annotation := mkAnnotation {
  ann_x : Q; ann_y : Q; ann_text : string; ann_bgcolor : string;
  ann_font_color : string; ann_xanchor : string; ann_yanchor : string
}.

(** The keys of [xaxis] and [yaxis] the charts set. *)
Record Axis := mkAxis {
  axis_title : option string; axis_tickangle : option Q;
  axis_range : option (Q * Q); axis_visible : option bool
}.

(** [margin: {l, r, t, b}]. *)
Record Margin := mkMargin { margin_l : Q; margin_r : Q; margin_t : Q; margin_b : Q }.
