(* ===== verification/Loader.v ===== *)
(** * Loader: [loadCSV] and the [Promise.all] of the start-up

    [loadCSV(filename)] (lines 58-72) wraps [Papa.parse] with
    [header: true] and [dynamicTyping: true] in a promise: [complete]
    resolves with the parsed rows that have a truthy [node_id], [error]
    rejects.  The start-up joins the two loads with [Promise.all]
    (lines 21-24).  PapaParse itself is a library: its result is the
    input [ParseResult] here.  With [dynamicTyping] a cell reaches the
    code as a string, a number, a boolean or [null] ([Cell]), and the
    row filter is JavaScript's truthiness of that value. *)

From Stdlib Require Import QArith String.
From stdpp Require Import base list decidable strings.
From S2P Require Import Prelude.

Open Scope Q_scope.

(** A cell as PapaParse delivers it with [dynamicTyping: true]. *)
Inductive Cell :=
  | CStr (s : string)
  | CNum (q : Q)
  | CBool (b : bool)
  | CNull.

(** [ToBoolean] on these values: [''], [0], [false] and [null] are
    falsy. *)
Definition truthy (c : Cell) : bool :=
  match c with
  | CStr s => negb (String.eqb s "")
  | CNum q => negb (Qeq_bool q 0)
  | CBool b => b
  | CNull => false
  end.

(** What [Papa.parse] calls back with: [complete] with [results.data], or
    [error]. *)
Inductive ParseResult (R : Type) :=
  | ParseComplete (rows : list R)
  | ParseError (err : string).
Arguments ParseComplete {R} rows.
Arguments ParseError {R} err.

(** A settled promise. *)
Inductive Promise (A : Type) :=
  | Resolved (v : A)
  | Rejected (err : string).
Arguments Resolved {A} v.
Arguments Rejected {A} err.

(** [loadCSV]: [resolve(results.data.filter(row => row.node_id))] on
    [complete], [reject(error)] on [error].  [node_id] reads the cell of a
    row. *)
Definition loadCSV {R} (node_id : R -> Cell) (res : ParseResult R) : Promise (list R) :=
  match res with
  | ParseComplete rows => Resolved (filter (fun row => truthy (node_id row) = true) rows)
  | ParseError err => Rejected err
  end.

(** [Promise.all([p, q])]: both values when both resolve; otherwise it
    rejects.  When both reject, which error it carries depends on which
    load fails first; the start-up only logs it, so the first is taken. *)
Definition promiseAll {A B} (p : Promise A) (q : Promise B) : Promise (A * B) :=
  match p, q with
  | Resolved a, Resolved b => Resolved (a, b)
  | Rejected e, _ => Rejected e
  | _, Rejected e => Rejected e
  end.

(** The falsy values of ECMAScript's [ToBoolean] table, as a relation. *)
Inductive falsy : Cell -> Prop :=
  | falsy_empty : falsy (CStr "")
  | falsy_zero q : q == 0 -> falsy (CNum q)
  | falsy_false : falsy (CBool false)
  | falsy_null : falsy CNull.

(** ** Lemmas *)

Lemma truthy_false (c : Cell) : truthy c = false <-> falsy c.
Proof.
  split.
  - destruct c as [s|q|b|]; cbn; intros H.
    + apply negb_false_iff, String.eqb_eq in H as ->. constructor.
    + apply negb_false_iff, Qeq_bool_iff in H. constructor. exact H.
    + subst. constructor.
    + constructor.
  - intros []; cbn; try reflexivity.
    + apply negb_false_iff, Qeq_bool_iff. assumption.
Qed.

Lemma truthy_true (c : Cell) : truthy c = true <-> ~ falsy c.
Proof.
  rewrite <- truthy_false. destruct (truthy c); split; congruence || tauto.
Qed.

Lemma truthy_str (s : string) : truthy (CStr s) = true <-> s <> ""%string.
Proof. cbn. rewrite negb_true_iff, String.eqb_neq. reflexivity. Qed.

(** ** Properties *)

(** C34: [loadCSV] rejects with the parser's error, and otherwise resolves
    with exactly the parsed rows whose [node_id] is truthy, in their
    order.  A row whose id cell is [''], [0], [false] or [null] is
    dropped: with [dynamicTyping] an id written ["0"] arrives as the
    number [0], and every row of that node is discarded. *)
Theorem loadCSV_rows {R} (node_id : R -> Cell) (res : ParseResult R) :
  (forall err, res = ParseError err -> loadCSV node_id res = Rejected err) /\
  (forall rows, res = ParseComplete rows ->
     exists kept, loadCSV node_id res = Resolved kept /\ kept `sublist_of` rows /\
       forall row, row ∈ kept <-> row ∈ rows /\ ~ falsy (node_id row)).
Proof.
  split; intros x ->; [reflexivity|]. eexists. split; [reflexivity|].
  split; [apply sublist_filter|]. intros row.
  rewrite list_elem_of_filter, truthy_true. tauto.
Qed.

(** A row of node ["0"], read as the number [0], next to a row of node
    ["N1"]: only the second is kept. *)
Lemma loadCSV_rows_witness :
  let rows := [(CNum 0, 1%nat); (CStr "N1", 2%nat)] in
  ParseComplete rows = ParseComplete rows /\
  loadCSV fst (ParseComplete rows) = Resolved [(CStr "N1", 2%nat)] /\
  (CNum 0, 1%nat) ∉ [(CStr "N1", 2%nat)].
Proof.
  intros rows. split; [reflexivity|].
  destruct (proj2 (loadCSV_rows fst (ParseComplete rows)) rows eq_refl) as (kept & Hk & _ & Hm).
  split; [vm_compute; reflexivity|].
  assert (E : kept = [(CStr "N1", 2%nat)]) by (vm_compute in Hk; congruence). subst kept.
  intros Hin. apply (Hm (CNum 0, 1%nat)) in Hin as [_ Hf]. apply Hf, falsy_zero. reflexivity.
Defined.
