(* ===== verification/Session.v ===== *)
(** * Session: the program's mutable globals and its effects

    [src/noc-dashboard.js] keeps its state in top-level [let] bindings
    (lines 1-16) and draws randomness from [Math.random] and the clock
    from [new Date()] / [Date.now()].  This file gathers the data globals
    in a record [Globals] (the scheduler's globals [countdownTimer] and
    [refreshIntervalId] live in [Scheduler]) and threads it through a
    state monad [ST].  [Math.random] is an explicit stream of draws with a
    read position, so a run is a function of its seed. *)

From Stdlib Require Import QArith ZArith String Lqa.
From stdpp Require Import base list decidable strings.
From S2P Require Import Prelude Types.

Open Scope Q_scope.

(** The stream behind [Math.random]: draw number [n] is [draws n]. *)
Record Rng := mkRng { draws : nat -> Q; pos : nat }.

(** [Math.random] returns a number in [[0, 1)]. *)
Definition rng_valid (r : Rng) : Prop := forall n, 0 <= draws r n < 1.

(** The data globals: [nodesData], [performanceData] (lines 2-3),
    [simulatedDataIndex] (line 16), the random source and the clock. *)
Record Globals := mkGlobals {
  nodesData : list Node.t;
  performanceData : list Perf.t;
  simulatedDataIndex : Z;
  rand : Rng;
  now : Z
}.

Definition set_simulatedDataIndex (i : Z) (g : Globals) : Globals :=
  mkGlobals (nodesData g) (performanceData g) i (rand g) (now g).

Definition set_rand (r : Rng) (g : Globals) : Globals :=
  mkGlobals (nodesData g) (performanceData g) (simulatedDataIndex g) r (now g).

(** The wall clock moving on between two callbacks. *)
Definition set_now (t : Z) (g : Globals) : Globals :=
  mkGlobals (nodesData g) (performanceData g) (simulatedDataIndex g) (rand g) t.

(** ** The state monad *)

Definition ST (A : Type) : Type := Globals -> A * Globals.

Definition st_ret {A} (x : A) : ST A := fun g => (x, g).

Definition st_bind {A B} (m : ST A) (k : A -> ST B) : ST B :=
  fun g => let '(x, g') := m g in k x g'.

Notation "x <- m ;; k" := (st_bind m (fun x => k))
  (at level 100, m at next level, right associativity) : noc_scope.

Definition st_get : ST Globals := fun g => (g, g).

Definition st_put (g : Globals) : ST unit := fun _ => (tt, g).

(** [Math.random()]. *)
Definition Math_random : ST Q :=
  fun g => (draws (rand g) (pos (rand g)),
            set_rand (mkRng (draws (rand g)) (S (pos (rand g)))) g).

(** [Date.now()]; the clock does not move within one callback: it moves
    between callbacks ([set_now]). *)
Definition Date_now : ST Z := fun g => (now g, g).

(** [xs.forEach(x => out.push(f(x)))], [xs.map(f)] with an effectful [f]. *)
Fixpoint st_map {A B} (f : A -> ST B) (xs : list A) : ST (list B) :=
  match xs with
  | [] => st_ret []
  | x :: xs' => y <- f x ;; ys <- st_map f xs' ;; st_ret (y :: ys)
  end.

(** ** Frame conditions

    [rng_only m]: [m] changes nothing but the read position of the random
    stream, which it only advances. *)
Definition frame (g g' : Globals) : Prop :=
  nodesData g' = nodesData g /\ performanceData g' = performanceData g /\
  simulatedDataIndex g' = simulatedDataIndex g /\ now g' = now g /\
  draws (rand g') = draws (rand g) /\ (pos (rand g) <= pos (rand g'))%nat.

Definition rng_only {A} (m : ST A) : Prop := forall g, frame g (snd (m g)).

Lemma frame_refl g : frame g g.
Proof. repeat split; lia. Qed.

Lemma rng_only_ext {A} (m1 m2 : ST A) : (forall g, m1 g = m2 g) -> rng_only m2 -> rng_only m1.
Proof. intros E Hm g. rewrite E. apply Hm. Qed.

Lemma frame_trans g1 g2 g3 : frame g1 g2 -> frame g2 g3 -> frame g1 g3.
Proof. unfold frame. intros; intuition (congruence || lia). Qed.

Lemma rng_only_ret {A} (x : A) : rng_only (st_ret x).
Proof. intros g. apply frame_refl. Qed.

Lemma rng_only_bind {A B} (m : ST A) (k : A -> ST B) :
  rng_only m -> (forall x, rng_only (k x)) -> rng_only (st_bind m k).
Proof.
  intros Hm Hk g. unfold st_bind. specialize (Hm g).
  destruct (m g) as [x g'] eqn:E. simpl in Hm.
  eapply frame_trans; [exact Hm|apply Hk].
Qed.

Lemma rng_only_Math_random : rng_only Math_random.
Proof. intros g. unfold frame; simpl. repeat split; lia. Qed.

Lemma rng_only_Date_now : rng_only Date_now.
Proof. intros g. apply frame_refl. Qed.

Lemma rng_only_st_map {A B} (f : A -> ST B) (xs : list A) :
  (forall x, rng_only (f x)) -> rng_only (st_map f xs).
Proof.
  intros Hf. induction xs as [|x xs IH]; simpl.
  - apply rng_only_ret.
  - apply rng_only_bind; [apply Hf|]. intros y.
    apply rng_only_bind; [exact IH|]. intros ys. apply rng_only_ret.
Qed.

Lemma frame_rng_valid g g' : frame g g' -> rng_valid (rand g) -> rng_valid (rand g').
Proof. intros (_ & _ & _ & _ & Hd & _) Hv n. unfold rng_valid in *. rewrite Hd. apply Hv. Qed.

Lemma Math_random_range g :
  rng_valid (rand g) -> 0 <= fst (Math_random g) < 1.
Proof. intros Hv. apply Hv. Qed.

Create HintDb noc_frame discriminated.
#[export] Hint Resolve rng_only_ret rng_only_bind rng_only_Math_random
  rng_only_Date_now rng_only_st_map : noc_frame.

(** Closes a goal [rng_only m] by following the structure of [m]. *)
Ltac solve_rng_only :=
  repeat (intros; lazymatch goal with
          | |- rng_only (st_bind _ _) => apply rng_only_bind
          | |- rng_only (match ?x with _ => _ end) => destruct x
          | |- rng_only (if ?b then _ else _) => destruct b
          | |- rng_only _ => auto with noc_frame
          end).

(** ** A program logic for [ST]

    [st_spec m Q]: from any state whose random stream is valid, [m] only
    advances the stream ([frame]) and its result [x] together with the
    number [n] of draws it consumed satisfy [Q x n]. *)
Definition draws_used (g g' : Globals) : nat := pos (rand g') - pos (rand g).

Definition st_spec {A} (m : ST A) (Q : A -> nat -> Prop) : Prop :=
  forall g, rng_valid (rand g) ->
    frame g (snd (m g)) /\ Q (fst (m g)) (draws_used g (snd (m g))).

(** Both judgements look at a computation one state at a time, so
    computations that agree on every state are interchangeable. *)
Lemma st_spec_ext {A} (m1 m2 : ST A) (Q : A -> nat -> Prop) :
  (forall g, m1 g = m2 g) -> st_spec m2 Q -> st_spec m1 Q.
Proof. intros E Hm g Hv. rewrite E. apply Hm, Hv. Qed.

Lemma st_spec_ret {A} (x : A) (Q : A -> nat -> Prop) : Q x 0%nat -> st_spec (st_ret x) Q.
Proof.
  intros HQ g _. split; [apply frame_refl|]. unfold draws_used; simpl.
  rewrite Nat.sub_diag. exact HQ.
Qed.

Lemma st_spec_bind {A B} (m : ST A) (k : A -> ST B) Q R :
  st_spec m Q ->
  (forall x n, Q x n -> st_spec (k x) (fun y n' => R y (n + n')%nat)) ->
  st_spec (st_bind m k) R.
Proof.
  intros Hm Hk g Hv. unfold st_bind.
  destruct (Hm g Hv) as [Hf HQ]. destruct (m g) as [x g1] eqn:E; simpl in *.
  destruct (Hk x _ HQ g1 (frame_rng_valid _ _ Hf Hv)) as [Hf' HR].
  split; [eapply frame_trans; eauto|].
  destruct Hf as (_&_&_&_&_&Hp). destruct Hf' as (_&_&_&_&_&Hp').
  unfold draws_used in *.
  replace (pos (rand (snd (k x g1))) - pos (rand g))%nat
    with (pos (rand g1) - pos (rand g) + (pos (rand (snd (k x g1))) - pos (rand g1)))%nat
    by lia.
  exact HR.
Qed.

Lemma st_spec_weaken {A} (m : ST A) (Q Q' : A -> nat -> Prop) :
  st_spec m Q -> (forall x n, Q x n -> Q' x n) -> st_spec m Q'.
Proof. intros Hm HQ g Hv. destruct (Hm g Hv). auto. Qed.

Lemma st_spec_Math_random : st_spec Math_random (fun r n => 0 <= r < 1 /\ n = 1%nat).
Proof.
  intros g Hv. split; [apply rng_only_Math_random|].
  split; [apply Hv|]. unfold draws_used; simpl. lia.
Qed.

Lemma st_spec_Date_now : st_spec Date_now (fun _ n => n = 0%nat).
Proof.
  intros g _. split; [apply frame_refl|]. unfold draws_used; simpl. lia.
Qed.

#[export] Hint Resolve st_spec_ret st_spec_Math_random st_spec_Date_now : noc_frame.

(** [st_spec_at T m Q]: [st_spec] for the runs that start at clock [T]; the
    clock does not move, so [Date.now()] returns [T]. *)
Definition st_spec_at {A} (T : Z) (m : ST A) (Q : A -> nat -> Prop) : Prop :=
  forall g, now g = T -> rng_valid (rand g) ->
    frame g (snd (m g)) /\ Q (fst (m g)) (draws_used g (snd (m g))).

Lemma st_spec_at_lift {A} (T : Z) (m : ST A) Q : st_spec m Q -> st_spec_at T m Q.
Proof. intros Hm g _ Hv. apply Hm, Hv. Qed.

Lemma st_spec_at_bind {A B} (T : Z) (m : ST A) (k : A -> ST B) Q R :
  st_spec_at T m Q ->
  (forall x n, Q x n -> st_spec_at T (k x) (fun y n' => R y (n + n')%nat)) ->
  st_spec_at T (st_bind m k) R.
Proof.
  intros Hm Hk g HT Hv. unfold st_bind.
  destruct (Hm g HT Hv) as [Hf HQ]. destruct (m g) as [x g1] eqn:E; simpl in *.
  assert (HT1 : now g1 = T) by (destruct Hf as (_&_&_&Hn&_); congruence).
  destruct (Hk x _ HQ g1 HT1 (frame_rng_valid _ _ Hf Hv)) as [Hf' HR].
  split; [eapply frame_trans; eauto|].
  destruct Hf as (_&_&_&_&_&Hp). destruct Hf' as (_&_&_&_&_&Hp').
  unfold draws_used in *.
  replace (pos (rand (snd (k x g1))) - pos (rand g))%nat
    with (pos (rand g1) - pos (rand g) + (pos (rand (snd (k x g1))) - pos (rand g1)))%nat
    by lia.
  exact HR.
Qed.

Lemma st_spec_at_ret {A} (T : Z) (x : A) (Q : A -> nat -> Prop) :
  Q x 0%nat -> st_spec_at T (st_ret x) Q.
Proof. intros HQ. apply st_spec_at_lift, st_spec_ret, HQ. Qed.

Lemma st_spec_at_weaken {A} (T : Z) (m : ST A) (Q Q' : A -> nat -> Prop) :
  st_spec_at T m Q -> (forall x n, Q x n -> Q' x n) -> st_spec_at T m Q'.
Proof. intros Hm HQ g HT Hv. destruct (Hm g HT Hv). auto. Qed.

Lemma st_spec_at_Date_now (T : Z) : st_spec_at T Date_now (fun t n => t = T /\ n = 0%nat).
Proof.
  intros g HT _. split; [apply frame_refl|]. unfold draws_used; simpl. split; [exact HT|lia].
Qed.

(** [xs.forEach] / [xs.map] with an effectful body. *)
Lemma st_spec_at_map {A B} (T : Z) (f : A -> ST B) (R : A -> B -> Prop) (lo hi : nat)
    (xs : list A) :
  (forall x, x ∈ xs -> st_spec_at T (f x) (fun y n => R x y /\ (lo <= n <= hi)%nat)) ->
  st_spec_at T (st_map f xs)
    (fun ys n => Forall2 R xs ys /\ (lo * length xs <= n <= hi * length xs)%nat).
Proof.
  induction xs as [|x xs IH]; intros Hf; simpl.
  - apply st_spec_at_ret. split; [constructor|lia].
  - eapply st_spec_at_bind; [apply Hf; left|]. intros y n [HR Hn].
    eapply st_spec_at_bind; [apply IH; intros; apply Hf; right; assumption|].
    intros ys n' [HF Hn']. apply st_spec_at_ret. split; [constructor; assumption|lia].
Qed.
