(* ===== verification/Classifier.v ===== *)
(** * Classifier: the health status of a node

    [getNodeStatus] (lines 175-193) maps a node and its current sample, if
    any, to [healthy], [warning], [critical] or [unknown].  The file states
    the rule of §4.2 of the spec as an inductive relation [status_spec]
    and proves that the code computes exactly that relation, that it is
    monotone in the metrics and that it respects the equality of
    rationals. *)

From Stdlib Require Import QArith ZArith String Lqa.
From stdpp Require Import base list decidable strings.
From S2P Require Import Prelude Types.

Open Scope Q_scope.
Open Scope noc_scope.

(** [perf.temperature_celsius > temperatureThresholds.critical || ...]. *)
Definition critical_condition (perf : Perf.t) : bool :=
  (Perf.temperature_celsius perf >? Thresholds.critical temperatureThresholds)
  || (Perf.cpu_utilization_percent perf >? Thresholds.critical cpuThresholds)
  || (Perf.availability_percent perf <? 95).

Definition warning_condition (perf : Perf.t) : bool :=
  (Perf.temperature_celsius perf >? Thresholds.warning temperatureThresholds)
  || (Perf.cpu_utilization_percent perf >? Thresholds.warning cpuThresholds)
  || (Perf.availability_percent perf <? 98).

Definition getNodeStatus (node : Node.t) (perf : option Perf.t) : Status :=
  match perf with
  | None => Unknown
  | Some p =>
      if critical_condition p then Critical
      else if warning_condition p then Warning
      else Healthy
  end.

(** ** The rule of the spec (§4.2), first match wins *)

Definition is_critical (p : Perf.t) : Prop :=
  Perf.temperature_celsius p > 50 \/ Perf.cpu_utilization_percent p > 90 \/
  Perf.availability_percent p < 95.

Definition is_warning (p : Perf.t) : Prop :=
  Perf.temperature_celsius p > 40 \/ Perf.cpu_utilization_percent p > 70 \/
  Perf.availability_percent p < 98.

Inductive status_spec : option Perf.t -> Status -> Prop :=
  | spec_unknown : status_spec None Unknown
  | spec_critical p : is_critical p -> status_spec (Some p) Critical
  | spec_warning p : ~ is_critical p -> is_warning p -> status_spec (Some p) Warning
  | spec_healthy p : ~ is_critical p -> ~ is_warning p -> status_spec (Some p) Healthy.

(** Severity order of the statuses; [unknown] is ranked with [healthy]. *)
Definition severity (s : Status) : nat :=
  match s with Critical => 2 | Warning => 1 | Healthy | Unknown => 0 end.

(** ** Lemmas *)

Lemma critical_condition_spec p : critical_condition p = true <-> is_critical p.
Proof.
  unfold critical_condition, is_critical; simpl.
  rewrite !orb_true_iff, !Qltb_true. lra.
Qed.

Lemma warning_condition_spec p : warning_condition p = true <-> is_warning p.
Proof.
  unfold warning_condition, is_warning; simpl.
  rewrite !orb_true_iff, !Qltb_true. lra.
Qed.

Lemma not_true_false (b : bool) (P : Prop) : (b = true <-> P) -> b = false <-> ~ P.
Proof. destruct b; intuition congruence. Qed.

Lemma status_spec_functional perf s1 s2 :
  status_spec perf s1 -> status_spec perf s2 -> s1 = s2.
Proof. intros H1 H2. inversion H1; inversion H2; subst; congruence || tauto. Qed.

Lemma getNodeStatus_sound node perf : status_spec perf (getNodeStatus node perf).
Proof.
  destruct perf as [p|]; simpl; [|constructor].
  destruct (critical_condition p) eqn:Ec.
  - apply spec_critical, critical_condition_spec, Ec.
  - apply (not_true_false _ _ (critical_condition_spec p)) in Ec.
    destruct (warning_condition p) eqn:Ew.
    + apply spec_warning; [exact Ec|apply warning_condition_spec, Ew].
    + apply (not_true_false _ _ (warning_condition_spec p)) in Ew.
      apply spec_healthy; assumption.
Qed.

Lemma is_critical_is_warning p : is_critical p -> is_warning p.
Proof. unfold is_critical, is_warning. lra. Qed.

(** [p'] is at least as bad as [p] on every metric the rule reads. *)
Definition dominates (p' p : Perf.t) : Prop :=
  Perf.temperature_celsius p <= Perf.temperature_celsius p' /\
  Perf.cpu_utilization_percent p <= Perf.cpu_utilization_percent p' /\
  Perf.availability_percent p' <= Perf.availability_percent p.

Lemma dominates_critical p p' : dominates p' p -> is_critical p -> is_critical p'.
Proof. unfold dominates, is_critical. lra. Qed.

Lemma dominates_warning p p' : dominates p' p -> is_warning p -> is_warning p'.
Proof. unfold dominates, is_warning. lra. Qed.

#[export] Hint Resolve getNodeStatus_sound is_critical_is_warning : noc.

(** ** Properties *)

(** C1: [getNodeStatus] computes exactly the rule of the spec: [unknown]
    without a sample; otherwise [critical] when temperature > 50 or
    cpu > 90 or availability < 95, else [warning] when temperature > 40 or
    cpu > 70 or availability < 98, else [healthy]. *)
Theorem getNodeStatus_refines_spec node perf s :
  getNodeStatus node perf = s <-> status_spec perf s.
Proof.
  split.
  - intros <-. apply getNodeStatus_sound.
  - intros Hs. eapply status_spec_functional; [apply getNodeStatus_sound|exact Hs].
Qed.

(** The status is monotone in the metrics: a sample that is at least
    as hot, at least as loaded and at most as available never gets a less
    severe status. *)
Lemma getNodeStatus_monotone node p p' :
  dominates p' p ->
  (severity (getNodeStatus node (Some p)) <= severity (getNodeStatus node (Some p')))%nat.
Proof.
  intros Hd. simpl.
  destruct (critical_condition p') eqn:C'; [destruct (critical_condition p), (warning_condition p); simpl; lia|].
  destruct (critical_condition p) eqn:C.
  - apply critical_condition_spec, (dominates_critical _ _ Hd) in C.
    apply critical_condition_spec in C. congruence.
  - destruct (warning_condition p') eqn:W', (warning_condition p) eqn:W; simpl; try lia.
    apply warning_condition_spec, (dominates_warning _ _ Hd) in W.
    apply warning_condition_spec in W. congruence.
Qed.

(** The status is a function of the metrics up to the equality of
    rationals: [getNodeStatus] is a morphism for [perf_equiv], so
    samples can be rewritten with [perf_equiv] under it. *)
#[export] Instance getNodeStatus_proper node :
  Proper (option_Forall2 perf_equiv ==> eq) (getNodeStatus node).
Proof.
  intros o o' Ho. inversion Ho as [p p' Hp|]; subst; simpl; [|reflexivity].
  destruct Hp as (_ & _ & Ht & Hc & _ & _ & _ & _ & Ha).
  assert (critical_condition p = critical_condition p') as ->
    by (unfold critical_condition; now rewrite Ht, Hc, Ha).
  assert (warning_condition p = warning_condition p') as ->
    by (unfold warning_condition; now rewrite Ht, Hc, Ha).
  reflexivity.
Qed.

(** The example of §8 of the spec: temperature 52, cpu 40, availability 99
    is [critical]. *)
Definition sample_52_40_99 : Perf.t :=
  Perf.mk "N1" 0 52 40 50 50 100 100 99.

