(* ===== verification/Simulator.v ===== *)
(** * Simulator: the synthetic "live" telemetry

    [generateCurrentPerformanceData] (lines 196-247) and [addVariation]
    (lines 250-253).  Each call reads a window of 50 historical rows
    starting at [simulatedDataIndex % (performanceData.length / 3)],
    advances [simulatedDataIndex] by 50, keeps the first row of every node
    id of the window, perturbs five metrics with [Math.random] noise and,
    with probability 0.05, injects one fault spike. *)

From Stdlib Require Import QArith Qabs Qround Qminmax ZArith String Lqa Lia.
From stdpp Require Import base list decidable strings.
From S2P Require Import Prelude Types Session.

Open Scope Q_scope.
Open Scope noc_scope.

(** ** Record updates of a sample ([newRow.f = v]) *)

Definition with_timestamp (ts : Z) (p : Perf.t) : Perf.t :=
  Perf.mk (Perf.node_id p) ts (Perf.temperature_celsius p)
    (Perf.cpu_utilization_percent p) (Perf.memory_utilization_percent p)
    (Perf.throughput_utilization_percent p) (Perf.download_bandwidth_mbps p)
    (Perf.upload_bandwidth_mbps p) (Perf.availability_percent p).

Definition with_temperature (v : Q) (p : Perf.t) : Perf.t :=
  Perf.mk (Perf.node_id p) (Perf.timestamp p) v
    (Perf.cpu_utilization_percent p) (Perf.memory_utilization_percent p)
    (Perf.throughput_utilization_percent p) (Perf.download_bandwidth_mbps p)
    (Perf.upload_bandwidth_mbps p) (Perf.availability_percent p).

Definition with_cpu (v : Q) (p : Perf.t) : Perf.t :=
  Perf.mk (Perf.node_id p) (Perf.timestamp p) (Perf.temperature_celsius p)
    v (Perf.memory_utilization_percent p)
    (Perf.throughput_utilization_percent p) (Perf.download_bandwidth_mbps p)
    (Perf.upload_bandwidth_mbps p) (Perf.availability_percent p).

Definition with_availability (v : Q) (p : Perf.t) : Perf.t :=
  Perf.mk (Perf.node_id p) (Perf.timestamp p) (Perf.temperature_celsius p)
    (Perf.cpu_utilization_percent p) (Perf.memory_utilization_percent p)
    (Perf.throughput_utilization_percent p) (Perf.download_bandwidth_mbps p)
    (Perf.upload_bandwidth_mbps p) v.

(** ** The code *)

(** [addVariation(value, maxVariation)]. *)
Definition addVariation (value maxVariation : Q) : ST Q :=
  r <- Math_random ;;
  st_ret (value + (r * 2 - 1) * maxVariation).

(** Lines 216-220: the five perturbations, in the order of the code. *)
Definition perturb (newRow : Perf.t) : ST Perf.t :=
  t <- addVariation (Perf.temperature_celsius newRow) 5 ;;
  c <- addVariation (Perf.cpu_utilization_percent newRow) 10 ;;
  m <- addVariation (Perf.memory_utilization_percent newRow) 5 ;;
  d <- addVariation (Perf.download_bandwidth_mbps newRow)
                    (Perf.download_bandwidth_mbps newRow * 0.1) ;;
  u <- addVariation (Perf.upload_bandwidth_mbps newRow)
                    (Perf.upload_bandwidth_mbps newRow * 0.1) ;;
  st_ret (Perf.mk (Perf.node_id newRow) (Perf.timestamp newRow) t c m
            (Perf.throughput_utilization_percent newRow) d u
            (Perf.availability_percent newRow)).

(** Lines 223-241: [if (Math.random() < 0.05)] one of three faults; the
    [switch] compares [issue] with [0], [1], [2] in turn and falls through
    with no case matched. *)
Definition injectIssue (newRow : Perf.t) : ST Perf.t :=
  r <- Math_random ;;
  if r <? 0.05 then
    r' <- Math_random ;;
    let issue := Qfloor (r' * 3) in
    if (issue =? 0)%Z then
      s <- Math_random ;;
      st_ret (with_temperature (Perf.temperature_celsius newRow + s * 20) newRow)
    else if (issue =? 1)%Z then
      s <- Math_random ;;
      st_ret (with_cpu (Qmin (Perf.cpu_utilization_percent newRow + s * 30) 100) newRow)
    else if (issue =? 2)%Z then
      s <- Math_random ;;
      st_ret (with_availability (Perf.availability_percent newRow - s * 5) newRow)
    else st_ret newRow
  else st_ret newRow.

(** [baseData.find(row => row.node_id === nodeId)]. *)
Definition findRow (baseData : list Perf.t) (nodeId : string) : option Perf.t :=
  List.find (fun row => bool_decide (Perf.node_id row = nodeId)) baseData.

(** The body of [uniqueNodeIds.forEach] (lines 207-244); [None] is the
    early [return] of line 210, [Some] the pushed row. *)
Definition simulateNode (baseData : list Perf.t) (nodeId : string) : ST (option Perf.t) :=
  match findRow baseData nodeId with
  | None => st_ret None
  | Some sampleRow =>
      ts <- Date_now ;;
      r1 <- perturb (with_timestamp ts sampleRow) ;;
      r2 <- injectIssue r1 ;;
      st_ret (Some r2)
  end.

(** [xs.forEach(x => { ...; if (!v) return; out.push(v) })]. *)
Fixpoint forEachPush {A B} (f : A -> ST (option B)) (xs : list A) : ST (list B) :=
  match xs with
  | [] => st_ret []
  | x :: xs' =>
      o <- f x ;;
      rest <- forEachPush f xs' ;;
      st_ret (match o with Some y => y :: rest | None => rest end)
  end.

(** JavaScript's [%] on numbers: [NaN] ([None]) for a zero divisor, else
    the remainder of the division truncated towards zero. *)
Definition js_mod (n d : Q) : option Q :=
  if Qeq_bool d 0 then None else Some (n - d * inject_Z (Qtrunc (n / d))).

(** [simulatedDataIndex % (performanceData.length / 3)] (line 198). *)
Definition baseIndexOf (idx : Z) (len : nat) : option Q :=
  js_mod (inject_Z idx) (inject_Z (Z.of_nat len) / 3).

(** [performanceData.slice(baseIndex, baseIndex + 50)] (line 201). *)
Definition baseDataOf (data : list Perf.t) (idx : Z) : list Perf.t :=
  let baseIndex := baseIndexOf idx (length data) in
  js_slice data baseIndex (option_map (fun b => b + 50) baseIndex).

Definition generateCurrentPerformanceData : ST (list Perf.t) :=
  g <- st_get ;;
  let baseData := baseDataOf (performanceData g) (simulatedDataIndex g) in
  _ <- st_put (set_simulatedDataIndex (simulatedDataIndex g + 50) g) ;;
  let uniqueNodeIds := set_from (map Perf.node_id baseData) in
  forEachPush (simulateNode baseData) uniqueNodeIds.

(** ** Lemmas *)

(** [Math.floor(Math.random() * 3)] is 0, 1 or 2. *)
Lemma floor_times_3 (r : Q) : 0 <= r < 1 -> (0 <= Qfloor (r * 3) <= 2)%Z.
Proof.
  intros Hr. pose proof (Qfloor_le (r * 3)) as Hle. pose proof (Qlt_floor (r * 3)) as Hlt.
  rewrite inject_Z_plus in Hlt. change (inject_Z 1) with 1 in Hlt.
  set (z := Qfloor (r * 3)) in *. clearbody z.
  assert (-1 < z)%Z by (rewrite Zlt_Qlt; change (inject_Z (-1)) with (-1); lra).
  assert (z < 3)%Z by (rewrite Zlt_Qlt; change (inject_Z 3) with 3; lra).
  lia.
Qed.

Lemma st_spec_addVariation (v m : Q) :
  st_spec (addVariation v m)
    (fun x n => (exists r, 0 <= r < 1 /\ x = v + (r * 2 - 1) * m) /\ n = 1%nat).
Proof.
  unfold addVariation. eapply st_spec_bind; [apply st_spec_Math_random|].
  intros r n [Hr ->]. apply st_spec_ret. split; [eauto|lia].
Qed.

(** The outcome of [injectIssue]: no fault, or exactly one of the three. *)
Definition fault_outcome (row y : Perf.t) : Prop :=
  y = row \/
  exists s, 0 <= s < 1 /\
    (y = with_temperature (Perf.temperature_celsius row + s * 20) row \/
     y = with_cpu (Qmin (Perf.cpu_utilization_percent row + s * 30) 100) row \/
     y = with_availability (Perf.availability_percent row - s * 5) row).

Lemma st_spec_injectIssue (row : Perf.t) :
  st_spec (injectIssue row) (fun y n => fault_outcome row y /\ (n = 1 \/ n = 3)%nat).
Proof.
  unfold injectIssue. eapply st_spec_bind; [apply st_spec_Math_random|].
  intros r n [Hr ->]. destruct (r <? 0.05).
  - eapply st_spec_bind; [apply st_spec_Math_random|]. intros r' n' [Hr' ->].
    pose proof (floor_times_3 r' Hr') as Hf.
    destruct (Z.eqb_spec (Qfloor (r' * 3)) 0); [|destruct (Z.eqb_spec (Qfloor (r' * 3)) 1);
      [|destruct (Z.eqb_spec (Qfloor (r' * 3)) 2); [|lia]]];
      (eapply st_spec_bind; [apply st_spec_Math_random|]; intros s n'' [Hs ->];
       apply st_spec_ret; split; [right; exists s; tauto|lia]).
  - apply st_spec_ret. split; [left; reflexivity|lia].
Qed.

(** One step of a sequence of [ST] calls: use [lemma] for the first call. *)
Ltac st_next lemma := eapply st_spec_bind; [apply lemma|].

(** The five perturbations of lines 216-220: identity fields kept, each
    perturbed metric within its maximal variation. *)
Definition noise_bounds (row y : Perf.t) : Prop :=
  Perf.node_id y = Perf.node_id row /\
  Perf.timestamp y = Perf.timestamp row /\
  Perf.throughput_utilization_percent y = Perf.throughput_utilization_percent row /\
  Perf.availability_percent y = Perf.availability_percent row /\
  Qabs (Perf.temperature_celsius y - Perf.temperature_celsius row) <= 5 /\
  Qabs (Perf.cpu_utilization_percent y - Perf.cpu_utilization_percent row) <= 10 /\
  Qabs (Perf.memory_utilization_percent y - Perf.memory_utilization_percent row) <= 5 /\
  Qabs (Perf.download_bandwidth_mbps y - Perf.download_bandwidth_mbps row)
    <= Qabs (Perf.download_bandwidth_mbps row * 0.1) /\
  Qabs (Perf.upload_bandwidth_mbps y - Perf.upload_bandwidth_mbps row)
    <= Qabs (Perf.upload_bandwidth_mbps row * 0.1).

Lemma st_spec_perturb (row : Perf.t) :
  st_spec (perturb row) (fun y n => noise_bounds row y /\ n = 5%nat).
Proof.
  unfold perturb.
  st_next st_spec_addVariation. intros t n1 [[r1 [H1 ->]] ->].
  st_next st_spec_addVariation. intros c n2 [[r2 [H2 ->]] ->].
  st_next st_spec_addVariation. intros m n3 [[r3 [H3 ->]] ->].
  st_next st_spec_addVariation. intros d n4 [[r4 [H4 ->]] ->].
  st_next st_spec_addVariation. intros u n5 [[r5 [H5 ->]] ->].
  apply st_spec_ret. split; [|lia].
  repeat split; perf_simpl;
    first [reflexivity | apply variation_within; assumption
          | apply variation_within_pos; [lra|assumption]].
Qed.

(** What the spec (§4.1 steps 4-5) allows for the snapshot [y] of a
    historical row [src]: identity kept; memory within 5, bandwidths within
    10%; temperature within 5 plus a spike of less than 20; cpu within 10
    plus a spike of less than 30 that is clamped to 100; availability
    lowered by less than 5; and at most one of temperature, cpu and
    availability outside its noise range. *)
Definition row_bounds (src y : Perf.t) : Prop :=
  Perf.node_id y = Perf.node_id src /\
  Perf.throughput_utilization_percent y = Perf.throughput_utilization_percent src /\
  Qabs (Perf.memory_utilization_percent y - Perf.memory_utilization_percent src) <= 5 /\
  Qabs (Perf.download_bandwidth_mbps y - Perf.download_bandwidth_mbps src)
    <= Qabs (Perf.download_bandwidth_mbps src * 0.1) /\
  Qabs (Perf.upload_bandwidth_mbps y - Perf.upload_bandwidth_mbps src)
    <= Qabs (Perf.upload_bandwidth_mbps src * 0.1) /\
  Perf.temperature_celsius src - 5 <= Perf.temperature_celsius y
    <= Perf.temperature_celsius src + 25 /\
  Qmin (Perf.cpu_utilization_percent src - 10) 100 <= Perf.cpu_utilization_percent y
    <= Perf.cpu_utilization_percent src + 40 /\
  (Perf.cpu_utilization_percent src + 10 < Perf.cpu_utilization_percent y ->
   Perf.cpu_utilization_percent y <= 100) /\
  Perf.availability_percent src - 5 < Perf.availability_percent y
    <= Perf.availability_percent src /\
  ((Qabs (Perf.temperature_celsius y - Perf.temperature_celsius src) <= 5 /\
    Qabs (Perf.cpu_utilization_percent y - Perf.cpu_utilization_percent src) <= 10) \/
   (Qabs (Perf.temperature_celsius y - Perf.temperature_celsius src) <= 5 /\
    Perf.availability_percent y == Perf.availability_percent src) \/
   (Qabs (Perf.cpu_utilization_percent y - Perf.cpu_utilization_percent src) <= 10 /\
    Perf.availability_percent y == Perf.availability_percent src)).

(** Turns every [Qabs x <= y] of the context into two inequalities. *)
Ltac qabs_split :=
  repeat match goal with
  | H : Qabs _ <= _ |- _ => apply Qabs_Qle_condition in H; destruct H
  end.

Lemma noise_fault_bounds (src mid y : Perf.t) :
  noise_bounds src mid -> fault_outcome mid y -> row_bounds src y.
Proof.
  intros (Hid & _ & Hth & Ha & Ht & Hc & Hm & Hd & Hu) Hf.
  pose proof Ht as Ht'. pose proof Hc as Hc'.
  apply Qabs_Qle_condition in Ht', Hc'.
  unfold row_bounds.
  destruct Hf as [->|(s & Hs & [->|[->| ->]])];
    unfold with_temperature, with_cpu, with_availability; perf_simpl; rewrite ?Ha;
    repeat split; try assumption; try lra;
    repeat match goal with |- context [Qmin ?a ?b] =>
      destruct (Q.min_spec a b) as [[? ->]|[? ->]] end; lra.
Qed.

(** [find] succeeds on an id of the window and returns a row of that id. *)
Lemma findRow_some (baseData : list Perf.t) (nodeId : string) :
  nodeId ∈ map Perf.node_id baseData ->
  exists src, findRow baseData nodeId = Some src /\ Perf.node_id src = nodeId /\
              src ∈ baseData.
Proof.
  intros Hin. unfold findRow.
  destruct (List.find _ baseData) as [src|] eqn:E.
  - apply List.find_some in E as [Hsrc Hid]. apply bool_decide_eq_true in Hid.
    exists src. split; [reflexivity|]. split; [exact Hid|]. apply list_elem_of_In, Hsrc.
  - apply list_elem_of_fmap in Hin as (row & -> & Hrow).
    apply list_elem_of_In in Hrow.
    pose proof (List.find_none _ _ E row Hrow) as Hf.
    rewrite bool_decide_eq_false in Hf. congruence.
Qed.

Lemma st_spec_simulateNode (baseData : list Perf.t) (nodeId : string) (src : Perf.t) :
  findRow baseData nodeId = Some src ->
  st_spec (simulateNode baseData nodeId)
    (fun o n => exists y, o = Some y /\ row_bounds src y /\ (6 <= n <= 8)%nat).
Proof.
  intros Hf. unfold simulateNode. rewrite Hf.
  st_next st_spec_Date_now. intros ts n0 ->.
  st_next st_spec_perturb. intros r1 n1 [Hn ->].
  st_next st_spec_injectIssue. intros r2 n2 [Hfault Hn2].
  apply st_spec_ret. exists r2. split; [reflexivity|]. split; [|lia].
  exact (noise_fault_bounds (with_timestamp ts src) r1 r2 Hn Hfault).
Qed.

(** The [forEach]/[push] loop: every element pushes one result related to it,
    and the draws add up. *)
Lemma st_spec_forEachPush {A B} (f : A -> ST (option B)) (R : A -> B -> Prop)
    (lo hi : nat) (xs : list A) :
  (forall x, x ∈ xs ->
     st_spec (f x) (fun o n => exists y, o = Some y /\ R x y /\ (lo <= n <= hi)%nat)) ->
  st_spec (forEachPush f xs)
    (fun ys n => Forall2 R xs ys /\ (lo * length xs <= n <= hi * length xs)%nat).
Proof.
  induction xs as [|x xs IH]; intros Hf; simpl.
  - apply st_spec_ret. split; [constructor|lia].
  - st_next Hf; [left|]. intros o n (y & -> & HR & Hn).
    eapply st_spec_bind; [apply IH; intros; apply Hf; right; assumption|].
    intros ys n' [HF Hn']. apply st_spec_ret. split; [constructor; assumption|lia].
Qed.

(** Everything a call of [generateCurrentPerformanceData] does. *)
Lemma generateCurrentPerformanceData_spec (g : Globals) :
  rng_valid (rand g) ->
  let baseData := baseDataOf (performanceData g) (simulatedDataIndex g) in
  let out := fst (generateCurrentPerformanceData g) in
  let g' := snd (generateCurrentPerformanceData g) in
  Forall2 (fun nodeId y => exists src, findRow baseData nodeId = Some src /\
                                       Perf.node_id src = nodeId /\ row_bounds src y)
          (set_from (map Perf.node_id baseData)) out /\
  simulatedDataIndex g' = (simulatedDataIndex g + 50)%Z /\
  nodesData g' = nodesData g /\ performanceData g' = performanceData g /\
  now g' = now g /\ draws (rand g') = draws (rand g) /\
  (6 * length out <= draws_used g g' <= 8 * length out)%nat.
Proof.
  intros Hv baseData out g'. subst out g'.
  unfold generateCurrentPerformanceData, st_bind, st_get, st_put; cbv zeta.
  set (g1 := set_simulatedDataIndex (simulatedDataIndex g + 50) g).
  fold baseData.
  assert (Hspec : st_spec (forEachPush (simulateNode baseData) (set_from (map Perf.node_id baseData)))
     (fun ys n => Forall2 (fun nodeId y => exists src, findRow baseData nodeId = Some src /\
                              Perf.node_id src = nodeId /\ row_bounds src y)
                  (set_from (map Perf.node_id baseData)) ys /\
        (6 * length (set_from (map Perf.node_id baseData)) <= n
         <= 8 * length (set_from (map Perf.node_id baseData)))%nat)).
  { apply st_spec_forEachPush. intros nodeId Hin.
    apply set_from_elem, findRow_some in Hin as (src & Hf & Hid & _).
    eapply st_spec_weaken; [apply (st_spec_simulateNode _ _ _ Hf)|].
    intros o n (y & -> & Hb & Hn). exists y. split; [reflexivity|]. split; [|exact Hn].
    exists src. auto. }
  destruct (Hspec g1 Hv) as [Hfr [HF Hn]].
  destruct Hfr as (Hnd & Hpd & Hidx & Hnow & Hdr & _).
  pose proof (Forall2_length _ _ _ HF) as Hlen.
  unfold draws_used in *. subst g1. simpl in *.
  repeat split; try congruence; lia.
Qed.

(** [n % d] for [n >= 0] and [d > 0] is the remainder [n - d * floor(n/d)],
    in [[0, d)]. *)
Lemma js_mod_nonneg (n d : Q) :
  0 <= n -> 0 < d ->
  js_mod n d = Some (n - d * inject_Z (Qfloor (n / d))) /\
  0 <= n - d * inject_Z (Qfloor (n / d)) < d.
Proof.
  intros Hn Hd. unfold js_mod.
  destruct (Qeq_bool d 0) eqn:E; [apply Qeq_bool_iff in E; lra|].
  assert (Hq : 0 <= n / d) by (apply Qle_shift_div_l; lra).
  rewrite (Qtrunc_nonneg _ Hq). split; [reflexivity|].
  pose proof (Qfloor_le (n / d)) as H1. pose proof (Qlt_floor (n / d)) as H2.
  rewrite inject_Z_plus in H2. change (inject_Z 1) with 1 in H2.
  set (f := inject_Z (Qfloor (n / d))) in *.
  assert (Hm : d * (n / d) == n) by (apply Qmult_div_r; lra).
  pose proof (Qmult_le_compat_r _ _ d H1 (Qlt_le_weak _ _ Hd)) as H3.
  pose proof (Qmult_lt_compat_r _ _ d Hd H2) as H4.
  split; lra.
Qed.

(** The window of line 201 starts at [floor(idx % (len / 3))]. *)
Lemma baseDataOf_start (data : list Perf.t) (idx : Z) :
  (0 <= idx)%Z -> (0 < length data)%nat ->
  let r := inject_Z idx - inject_Z (Z.of_nat (length data)) / 3 *
             inject_Z (Qfloor (inject_Z idx / (inject_Z (Z.of_nat (length data)) / 3))) in
  0 <= r /\ 3 * r < inject_Z (Z.of_nat (length data)) /\
  baseDataOf data idx = take 50 (drop (Z.to_nat (Qfloor r)) data).
Proof.
  intros Hidx Hlen r.
  assert (Hlen' : 0 < inject_Z (Z.of_nat (length data))).
  { change 0 with (inject_Z 0). rewrite <- Zlt_Qlt. lia. }
  assert (Hd : 0 < inject_Z (Z.of_nat (length data)) / 3) by (apply Qlt_shift_div_l; lra).
  assert (Hn : 0 <= inject_Z idx) by (change 0 with (inject_Z 0); rewrite <- Zle_Qle; lia).
  destruct (js_mod_nonneg _ _ Hn Hd) as [Hm [Hr0 Hr1]]. fold r in Hm, Hr0, Hr1.
  assert (Hm3 : inject_Z (Z.of_nat (length data)) / 3 * 3 == inject_Z (Z.of_nat (length data)))
    by (apply Qdiv_mult_l; discriminate).
  pose proof (Qmult_lt_compat_r _ _ 3 ltac:(reflexivity) Hr1) as H3.
  split; [exact Hr0|]. split; [lra|].
  unfold baseDataOf, baseIndexOf. rewrite Hm. cbn [option_map].
  change 50 with (inject_Z 50). apply js_slice_from; [exact Hr0| |lia].
  pose proof (Qfloor_le r) as Hf.
  rewrite Zlt_Qlt. lra.
Qed.

Lemma third_of_multiple (k : Z) : inject_Z (3 * k) / 3 == inject_Z k.
Proof. rewrite inject_Z_mult. field. Qed.

Lemma Qfloor_div_Z (a b : Z) : (0 < b)%Z -> Qfloor (inject_Z a / inject_Z b) = (a / b)%Z.
Proof.
  intros Hb. assert (Hb' : 0 < inject_Z b) by (change 0 with (inject_Z 0); rewrite <- Zlt_Qlt; exact Hb).
  pose proof (Z.div_mod a b ltac:(lia)). pose proof (Z.mod_pos_bound a b Hb).
  apply Qfloor_unique.
  - apply Qle_shift_div_l; [exact Hb'|]. rewrite <- inject_Z_mult, <- Zle_Qle. nia.
  - apply Qlt_shift_div_r; [exact Hb'|]. change 1 with (inject_Z 1).
    rewrite <- inject_Z_plus, <- inject_Z_mult, <- Zlt_Qlt. nia.
Qed.

Lemma Forall2_ids_map (ids : list string) (out : list Perf.t) (P : string -> Perf.t -> Prop) :
  Forall2 (fun nodeId y => exists src, P nodeId src /\ Perf.node_id src = nodeId /\ row_bounds src y)
    ids out ->
  map Perf.node_id out = ids.
Proof.
  induction 1 as [|nodeId y ids out (src & _ & Hid & Hb) _ IH]; [reflexivity|].
  simpl. rewrite IH. f_equal. destruct Hb as [Hy _]. congruence.
Qed.

(** ** Properties *)

(** C2: one snapshot per node: the node ids of the rows
    [generateCurrentPerformanceData] returns are exactly the distinct node
    ids of the historical window, in the order of their first occurrence,
    so no node gets two snapshots. *)
Theorem generateCurrentPerformanceData_one_per_node (g : Globals) :
  rng_valid (rand g) ->
  map Perf.node_id (fst (generateCurrentPerformanceData g)) =
    set_from (map Perf.node_id (baseDataOf (performanceData g) (simulatedDataIndex g))) /\
  NoDup (map Perf.node_id (fst (generateCurrentPerformanceData g))).
Proof.
  intros Hv. destruct (generateCurrentPerformanceData_spec g Hv) as [HF _].
  rewrite (Forall2_ids_map _ _ _ HF). split; [reflexivity|auto with noc].
Qed.

(** C3: each snapshot is derived from the first historical row of its node
    in the window, within the perturbation and fault bounds of the spec
    (§4.1 steps 3-5, [row_bounds]). *)
Theorem generateCurrentPerformanceData_bounds (g : Globals) :
  rng_valid (rand g) ->
  Forall (fun y => exists src,
            findRow (baseDataOf (performanceData g) (simulatedDataIndex g)) (Perf.node_id y)
              = Some src /\ row_bounds src y)
         (fst (generateCurrentPerformanceData g)).
Proof.
  intros Hv. destruct (generateCurrentPerformanceData_spec g Hv) as [HF _].
  induction HF as [|nodeId y ids out (src & Hf & Hid & Hb) _ IH]; constructor; [|exact IH].
  exists src. destruct Hb as [Hy Hb]. rewrite Hy, Hid. split; [exact Hf|split; assumption].
Qed.

(** C4: a call advances [simulatedDataIndex] by exactly 50, leaves the
    loaded datasets unchanged and consumes between 6 and 8 random draws
    per snapshot (five perturbations, the fault test, and the fault kind
    and size when a fault is injected). *)
Theorem generateCurrentPerformanceData_state (g : Globals) :
  rng_valid (rand g) ->
  let '(out, g') := generateCurrentPerformanceData g in
  simulatedDataIndex g' = (simulatedDataIndex g + 50)%Z /\
  nodesData g' = nodesData g /\ performanceData g' = performanceData g /\
  (6 * length out <= draws_used g g' <= 8 * length out)%nat.
Proof.
  intros Hv. pose proof (generateCurrentPerformanceData_spec g Hv) as (_ & Hi & Hn & Hp & _ & _ & Hd).
  destruct (generateCurrentPerformanceData g) as [out g'] eqn:E. simpl in *. auto.
Qed.

(** C19: the window of a non-empty history is the (at most) 50 rows from a
    start [s] with [3 * s < length]: the start always lies in the first
    third of the history. *)
Theorem baseDataOf_window (data : list Perf.t) (idx : Z) :
  (0 <= idx)%Z -> (0 < length data)%nat ->
  exists s : nat, (3 * s < length data)%nat /\ baseDataOf data idx = take 50 (drop s data).
Proof.
  intros Hidx Hlen. pose proof (baseDataOf_start data idx Hidx Hlen) as (Hr0 & Hr3 & Heq).
  eexists. split; [|exact Heq].
  pose proof (Qfloor_le (inject_Z idx - inject_Z (Z.of_nat (length data)) / 3 *
    inject_Z (Qfloor (inject_Z idx / (inject_Z (Z.of_nat (length data)) / 3))))) as Hf.
  pose proof (Qfloor_nonneg _ Hr0) as Hf0.
  match type of Hf with inject_Z ?z <= _ =>
    assert (H3 : (3 * z < Z.of_nat (length data))%Z) by
      (rewrite Zlt_Qlt, inject_Z_mult; change (inject_Z 3) with 3; lra) end.
  lia.
Qed.

(** C20: when the history length is a multiple of 3, the code's window
    starts at [cursor mod (length / 3)], the integer formula of the spec. *)
Theorem baseDataOf_divisible (data : list Perf.t) (idx k : Z) :
  (0 <= idx)%Z -> (0 < k)%Z -> Z.of_nat (length data) = (3 * k)%Z ->
  baseDataOf data idx = take 50 (drop (Z.to_nat (idx mod k)) data).
Proof.
  intros Hidx Hk Hlen.
  pose proof (baseDataOf_start data idx Hidx ltac:(lia)) as (_ & _ & Heq).
  rewrite Heq, Hlen. do 3 f_equal.
  assert (Hq : Qfloor (inject_Z idx / (inject_Z (3 * k) / 3)) = (idx / k)%Z).
  { rewrite <- (Qfloor_div_Z idx k Hk). apply Qfloor_comp.
    rewrite third_of_multiple. reflexivity. }
  rewrite Hq.
  rewrite <- (Qfloor_inject_Z (idx mod k)). apply Qfloor_comp.
  rewrite Z.mod_eq by lia. rewrite third_of_multiple.
  unfold Z.sub. rewrite inject_Z_plus, inject_Z_opp, inject_Z_mult. ring.
Qed.

(** A history of 100 rows of one node, the [k]-th stamped [k]. *)
Definition history_100 : list Perf.t :=
  map (fun k => Perf.mk "N001" (Z.of_nat k) 30 50 50 50 100 100 99) (seq 0 100).

(** C21: the start is not the integer formula of the spec (§4.1 step 1)
    when the length [L] is not a multiple of 3.  For every cursor in the
    first third of the history ([3 * idx < L]) the code's window starts at
    row [idx] itself ([idx % (L / 3) = idx]).  When [L >= 3] is not a
    multiple of 3, the spec's divisor [k = L div 3] is such a cursor: there
    the code starts at row [k > 0], while the spec's [k mod k] starts at
    row 0. *)
Theorem baseDataOf_fractional_start (data : list Perf.t) :
  (forall idx, (0 <= idx)%Z -> (3 * idx < Z.of_nat (length data))%Z ->
     baseDataOf data idx = take 50 (drop (Z.to_nat idx) data)) /\
  ((3 <= length data)%nat -> (Z.of_nat (length data) mod 3 <> 0)%Z ->
   let k := (Z.of_nat (length data) / 3)%Z in
   (3 * k < Z.of_nat (length data))%Z /\ (k mod k = 0)%Z /\ (0 < k)%Z).
Proof.
  split.
  - intros idx Hidx H3.
    pose proof (baseDataOf_start data idx Hidx ltac:(lia)) as (_ & _ & ->). do 3 f_equal.
    set (L := inject_Z (Z.of_nat (length data))).
    assert (H3' : inject_Z 3 * inject_Z idx < L)
      by (rewrite <- inject_Z_mult; unfold L; rewrite <- Zlt_Qlt; exact H3).
    change (inject_Z 3) with 3 in H3'.
    assert (Hidx' : 0 <= inject_Z idx)
      by (change 0 with (inject_Z 0); rewrite <- Zle_Qle; exact Hidx).
    assert (HL : 0 < L / 3) by (apply Qlt_shift_div_l; [reflexivity|]; lra).
    assert (Hf : Qfloor (inject_Z idx / (L / 3)) = 0%Z).
    { apply Qfloor_unique; change (inject_Z 0) with 0.
      - apply Qle_shift_div_l; [exact HL|]. rewrite Qmult_0_l.
        exact Hidx'.
      - apply Qlt_shift_div_r; [exact HL|].
        assert (HL3 : L / 3 * 3 == L) by (field; discriminate). lra. }
    rewrite Hf. rewrite <- (Qfloor_inject_Z idx) at 2. apply Qfloor_comp.
    change (inject_Z 0) with 0. ring.
  - intros Hlen Hm k. subst k.
    pose proof (Z.div_mod (Z.of_nat (length data)) 3 ltac:(lia)).
    pose proof (Z.mod_pos_bound (Z.of_nat (length data)) 3 ltac:(lia)).
    split; [lia|]. split; [apply Z.mod_same|]; [|apply Z.div_str_pos]; lia.
Qed.

(** Witnesses. *)
Lemma baseDataOf_fractional_start_witness :
  (0 <= 33)%Z /\ (3 * 33 < Z.of_nat (length history_100))%Z /\
  baseDataOf history_100 33 = take 50 (drop 33 history_100) /\
  (33 mod (Z.of_nat (length history_100) / 3) = 0)%Z.
Proof.
  assert (Hl : length history_100 = 100%nat) by reflexivity.
  split; [lia|]. split; [rewrite Hl; lia|]. split.
  - exact (proj1 (baseDataOf_fractional_start history_100) 33%Z ltac:(lia) ltac:(rewrite Hl; lia)).
  - destruct (proj2 (baseDataOf_fractional_start history_100) ltac:(rewrite Hl; lia)
      ltac:(rewrite Hl; discriminate)) as (_ & Hk & _).
    rewrite Hl in Hk |- *. exact Hk.
Defined.

Lemma baseDataOf_window_witness :
  (0 <= 50)%Z /\ (0 < length history_100)%nat /\
  exists s : nat, (3 * s < length history_100)%nat /\
                  baseDataOf history_100 50 = take 50 (drop s history_100).
Proof.
  split; [lia|]. split; [vm_compute; lia|].
  apply baseDataOf_window; [lia|vm_compute; lia].
Defined.

Lemma baseDataOf_divisible_witness :
  baseDataOf (take 99 history_100) 50 = take 50 (drop (Z.to_nat (50 mod 33)) (take 99 history_100)).
Proof. apply (baseDataOf_divisible (take 99 history_100) 50 33); [lia|lia|vm_compute; reflexivity]. Defined.

(** A session over [history_100] whose [Math.random] always returns 1/2. *)
Definition demo_globals : Globals :=
  mkGlobals [] history_100 50 (mkRng (fun _ => 1 # 2) 0) 1000.

Lemma demo_globals_valid : rng_valid (rand demo_globals).
Proof. intros n. cbn. lra. Qed.

Lemma generateCurrentPerformanceData_one_per_node_witness :
  rng_valid (rand demo_globals) /\
  map Perf.node_id (fst (generateCurrentPerformanceData demo_globals)) =
    set_from (map Perf.node_id (baseDataOf (performanceData demo_globals)
                                           (simulatedDataIndex demo_globals))) /\
  NoDup (map Perf.node_id (fst (generateCurrentPerformanceData demo_globals))).
Proof.
  split; [exact demo_globals_valid|].
  apply generateCurrentPerformanceData_one_per_node, demo_globals_valid.
Defined.

Lemma generateCurrentPerformanceData_bounds_witness :
  rng_valid (rand demo_globals) /\
  Forall (fun y => exists src,
            findRow (baseDataOf (performanceData demo_globals) (simulatedDataIndex demo_globals))
              (Perf.node_id y) = Some src /\ row_bounds src y)
         (fst (generateCurrentPerformanceData demo_globals)).
Proof.
  split; [exact demo_globals_valid|].
  apply generateCurrentPerformanceData_bounds, demo_globals_valid.
Defined.

Lemma generateCurrentPerformanceData_state_witness :
  rng_valid (rand demo_globals) /\
  let '(out, g') := generateCurrentPerformanceData demo_globals in
  simulatedDataIndex g' = (simulatedDataIndex demo_globals + 50)%Z /\
  nodesData g' = nodesData demo_globals /\ performanceData g' = performanceData demo_globals /\
  (6 * length out <= draws_used demo_globals g' <= 8 * length out)%nat.
Proof.
  split; [exact demo_globals_valid|].
  apply generateCurrentPerformanceData_state, demo_globals_valid.
Defined.

