(* ===== verification/Filter.v ===== *)
(** * Filter: the filter engine

    [initializeFilters] (lines 75-97) builds the region and node-type
    options from the loaded nodes; [getFilteredData] (lines 141-172) keeps
    the nodes of the selected region and node type, simulates a fresh
    snapshot, tags every node with its status and its snapshot, and keeps
    the nodes of the selected status.  The selector values are read from
    the DOM in the code; here they are the record [Selection]. *)

From Stdlib Require Import QArith ZArith String Lqa Lia.
From stdpp Require Import base list decidable sets strings.
From S2P Require Import Prelude Types Session Classifier Simulator.

Open Scope noc_scope.

(** The values of [#region-filter], [#nodetype-filter], [#status-filter]. *)
Record Selection := mkSelection {
  selectedRegion : string;
  selectedNodeType : string;
  selectedStatus : string
}.

(** [if (selected !== 'all') xs = xs.filter(x => key(x) === selected)]. *)
Definition filterSelected {A} (selected : string) (key : A -> string) (xs : list A) : list A :=
  if bool_decide (selected = "all"%string) then xs
  else filter (fun x => key x = selected) xs.

(** [currentPerformance.find(p => p.node_id === node.node_id)]. *)
Definition nodePerfOf (currentPerformance : list Perf.t) (node : Node.t) : option Perf.t :=
  List.find (fun p => bool_decide (Perf.node_id p = Node.node_id node)) currentPerformance.

(** Lines 160-164: [{...node, status, performance: nodePerf}]. *)
Definition enrich (currentPerformance : list Perf.t) (node : Node.t) : Enriched.t :=
  let nodePerf := nodePerfOf currentPerformance node in
  Enriched.mk node (getNodeStatus node nodePerf) nodePerf.

Definition getFilteredData (sel : Selection) : ST (list Enriched.t * list Perf.t) :=
  g <- st_get ;;
  let filteredNodes := filterSelected (selectedRegion sel) Node.region (nodesData g) in
  let filteredNodes := filterSelected (selectedNodeType sel) Node.node_type filteredNodes in
  currentPerformance <- generateCurrentPerformanceData ;;
  let enriched := map (enrich currentPerformance) filteredNodes in
  let filtered := filterSelected (selectedStatus sel)
                    (fun n => status_name (Enriched.status n)) enriched in
  st_ret (filtered, currentPerformance).

(** [initializeFilters]: the distinct non-empty values of a column, in the
    order of first occurrence ([if (!region) return] skips empty ones). *)
Definition filterOptions (column : Node.t -> string) (nodes : list Node.t) : list string :=
  filter (fun v => v <> ""%string) (set_from (map column nodes)).

Definition initializeFilters (nodes : list Node.t) : list string * list string :=
  (filterOptions Node.region nodes, filterOptions Node.node_type nodes).

(** ** Lemmas *)

(** A selector matches a value: ['all'] matches everything. *)
Definition selects (selected value : string) : Prop :=
  selected = "all"%string \/ value = selected.

#[export] Instance selects_dec selected value : Decision (selects selected value).
Proof. unfold selects. solve_decision. Defined.

Lemma filterSelected_elem {A} (selected : string) (key : A -> string) (xs : list A) (x : A) :
  x ∈ filterSelected selected key xs <-> x ∈ xs /\ selects selected (key x).
Proof.
  unfold filterSelected, selects. case_bool_decide.
  - tauto.
  - autorewrite with noc_rw. tauto.
Qed.

Lemma filterSelected_sublist {A} (selected : string) (key : A -> string) (xs : list A) :
  filterSelected selected key xs `sublist_of` xs.
Proof.
  unfold filterSelected. case_bool_decide; [reflexivity|apply sublist_filter].
Qed.

Lemma getFilteredData_unfold (sel : Selection) (g : Globals) :
  getFilteredData sel g =
  (let perf := fst (generateCurrentPerformanceData g) in
   (filterSelected (selectedStatus sel) (fun n => status_name (Enriched.status n))
      (map (enrich perf)
         (filterSelected (selectedNodeType sel) Node.node_type
            (filterSelected (selectedRegion sel) Node.region (nodesData g)))), perf),
   snd (generateCurrentPerformanceData g)).
Proof.
  unfold getFilteredData, st_bind, st_get, st_ret; cbv zeta.
  destruct (generateCurrentPerformanceData g). reflexivity.
Qed.

#[export] Hint Rewrite @filterSelected_elem : noc_rw.

(** Every node [getFilteredData] returns is a loaded node enriched from the
    cycle's snapshot. *)
Lemma getFilteredData_enriched (sel : Selection) (g : Globals) (n : Enriched.t) :
  n ∈ fst (fst (getFilteredData sel g)) ->
  exists node, node ∈ nodesData g /\ n = enrich (fst (generateCurrentPerformanceData g)) node.
Proof.
  rewrite getFilteredData_unfold. cbn [fst]. intros Hn.
  apply filterSelected_elem in Hn as [Hn _]. apply list_elem_of_fmap in Hn as (node & -> & Hin).
  apply filterSelected_elem in Hin as [Hin _]. apply filterSelected_elem in Hin as [Hin _].
  eauto.
Qed.

Lemma getFilteredData_perf (sel : Selection) (g : Globals) :
  snd (fst (getFilteredData sel g)) = fst (generateCurrentPerformanceData g).
Proof. rewrite getFilteredData_unfold. reflexivity. Qed.

Lemma nodePerfOf_some (perf : list Perf.t) (node : Node.t) (p : Perf.t) :
  nodePerfOf perf node = Some p -> p ∈ perf /\ Perf.node_id p = Node.node_id node.
Proof.
  unfold nodePerfOf. intros E. apply List.find_some in E as [Hin Hid].
  apply bool_decide_eq_true in Hid. split; [apply list_elem_of_In, Hin|exact Hid].
Qed.

Lemma nodePerfOf_none (perf : list Perf.t) (node : Node.t) :
  nodePerfOf perf node = None <-> Node.node_id node ∉ map Perf.node_id perf.
Proof.
  unfold nodePerfOf. split.
  - intros E Hin. apply list_elem_of_fmap in Hin as (p & Hid & Hp).
    apply list_elem_of_In in Hp. pose proof (List.find_none _ _ E p Hp) as Hf.
    rewrite bool_decide_eq_false in Hf. congruence.
  - intros Hnot. destruct (List.find _ perf) as [p|] eqn:E; [|reflexivity].
    exfalso. apply Hnot. apply List.find_some in E as [Hin Hid].
    apply bool_decide_eq_true in Hid. apply list_elem_of_fmap.
    exists p. split; [congruence|apply list_elem_of_In, Hin].
Qed.

Lemma getNodeStatus_unknown (node : Node.t) (perf : option Perf.t) :
  getNodeStatus node perf = Unknown <-> perf = None.
Proof.
  destruct perf as [p|]; simpl; [|tauto].
  destruct (critical_condition p), (warning_condition p); split; congruence.
Qed.

(** The nodes returned are a subsequence of the loaded nodes. *)
Lemma getFilteredData_sublist (sel : Selection) (g : Globals) :
  map Enriched.node (fst (fst (getFilteredData sel g))) `sublist_of` nodesData g.
Proof.
  rewrite getFilteredData_unfold. cbn [fst].
  etransitivity; [apply sublist_map, filterSelected_sublist|].
  rewrite map_map, map_id.
  etransitivity; apply filterSelected_sublist.
Qed.

(** ** Properties *)

(** C5: [getFilteredData] returns exactly the loaded nodes of the
    selected region and node type, each tagged from the fresh snapshot,
    whose status matches the status selector (['all'] matches everything),
    together with the whole snapshot of the cycle (the snapshots are not
    filtered); the nodes keep the order in which they were loaded. *)
Theorem getFilteredData_members (sel : Selection) (g : Globals) (n : Enriched.t) :
  let '((nodes, perf), _) := getFilteredData sel g in
  perf = fst (generateCurrentPerformanceData g) /\
  map Enriched.node nodes `sublist_of` nodesData g /\
  (n ∈ nodes <->
   exists node, node ∈ nodesData g /\
     selects (selectedRegion sel) (Node.region node) /\
     selects (selectedNodeType sel) (Node.node_type node) /\
     n = enrich perf node /\
     selects (selectedStatus sel) (status_name (Enriched.status n))).
Proof.
  pose proof (getFilteredData_sublist sel g) as Hsub.
  rewrite getFilteredData_unfold in *. split; [reflexivity|]. split; [exact Hsub|].
  rewrite filterSelected_elem, list_elem_of_fmap. setoid_rewrite filterSelected_elem.
  split.
  - intros ((node & -> & Hin & Ht) & Hs). apply filterSelected_elem in Hin as [Hin Hr].
    exists node. repeat split; assumption.
  - intros (node & Hin & Hr & Ht & -> & Hs). split; [|exact Hs].
    exists node. split; [reflexivity|]. split; [|exact Ht].
    apply filterSelected_elem. split; assumption.
Qed.

(** C6: every node [getFilteredData] returns carries the status
    [getNodeStatus] gives its snapshot; the snapshot is one of the cycle
    with the node's id; and the status is [unknown] exactly when the
    node's id has no snapshot in the cycle. *)
Theorem getFilteredData_status (sel : Selection) (g : Globals) :
  let '((nodes, perf), _) := getFilteredData sel g in
  Forall (fun n =>
    Enriched.status n = getNodeStatus (Enriched.node n) (Enriched.performance n) /\
    (forall p, Enriched.performance n = Some p ->
       p ∈ perf /\ Perf.node_id p = Node.node_id (Enriched.node n)) /\
    (Enriched.status n = Unknown <-> Node.node_id (Enriched.node n) ∉ map Perf.node_id perf))
    nodes.
Proof.
  rewrite getFilteredData_unfold. apply Forall_forall. intros n Hn.
  apply filterSelected_elem in Hn as [Hn _]. apply list_elem_of_fmap in Hn as (node & -> & _).
  cbn. split; [reflexivity|]. split.
  - intros p. apply nodePerfOf_some.
  - rewrite getNodeStatus_unknown. apply nodePerfOf_none.
Qed.


(** C40: [initializeFilters] offers every non-empty region (node type) of
    the loaded nodes exactly once, and nothing else. *)
Theorem initializeFilters_options (nodes : list Node.t) :
  let '(regions, types) := initializeFilters nodes in
  NoDup regions /\ NoDup types /\
  (forall v, v ∈ regions <-> v <> ""%string /\ exists node, node ∈ nodes /\ Node.region node = v) /\
  (forall v, v ∈ types <-> v <> ""%string /\ exists node, node ∈ nodes /\ Node.node_type node = v).
Proof.
  unfold initializeFilters, filterOptions.
  split; [apply NoDup_filter; auto with noc|].
  split; [apply NoDup_filter; auto with noc|].
  split; intros v; autorewrite with noc_rw;
    split; intros [Hne (node & Hv & Hin)]; split; eauto.
Qed.
