(* ===== verification/Views.v ===== *)
(** * Views: status counters, key metrics, trend sparklines, map markers

    [updateNetworkStatus] (lines 268-297), [updateNetworkMap] (lines
    300-343, the marker trace and the map layout), [updateKeyMetrics]
    (lines 346-368), [getRandomTrendData] (lines 371-385, its [for] loop
    as [trendFor] with Equations) and [updateTrendChart] (lines 388-408).
    Each returns the payload the code writes into the DOM or hands to
    Plotly. *)

From Stdlib Require Import QArith Qabs ZArith String Lqa Lia.
From stdpp Require Import base list decidable strings.
From Equations Require Import Equations.
From S2P Require Import Prelude Types Plots Session Classifier Simulator Filter.

Open Scope Q_scope.
Open Scope noc_scope.

(** [nodes.filter(node => node.status === s).length]. *)
Definition countStatus (s : Status) (nodes : list Enriched.t) : nat :=
  length (filter (fun n => Enriched.status n = s) nodes).

(** What [updateNetworkStatus] writes: the three badges, the widths of the
    three progress bars ([count / total * 100], [NaN] when [total = 0]) and
    the alert count. *)
Record NetworkStatus := mkNetworkStatus {
  healthyCounts : nat;
  warningCounts : nat;
  criticalCounts : nat;
  healthyPercent : jsnum;
  warningPercent : jsnum;
  criticalPercent : jsnum;
  totalAlerts : nat
}.

Definition percentOf (count total : nat) : jsnum :=
  js_scale (js_div (inject_Z (Z.of_nat count)) (inject_Z (Z.of_nat total))) 100.

Definition updateNetworkStatus (nodes : list Enriched.t) : NetworkStatus :=
  let h := countStatus Healthy nodes in
  let w := countStatus Warning nodes in
  let c := countStatus Critical nodes in
  let total := length nodes in
  mkNetworkStatus h w c (percentOf h total) (percentOf w total) (percentOf c total) (w + c).

(** [updateNetworkMap]: the marker colour of a status and the trace data. *)
Definition markerColor (s : Status) : string :=
  match s with
  | Critical => "red" | Warning => "orange" | Healthy => "green" | Unknown => "gray"
  end.

(** [mapData] of lines 301-320: [type: 'scattergeo'], [mode: 'markers'],
    one marker per node with its hover text and status colour, of size 12
    with an outline of width 1. *)
Record MapData := mkMapData {
  lon : list Q; lat : list Q; markerText : list string; markerColors : list string;
  mapType : string; mapMode : string; markerSize : Q; markerLineWidth : Q
}.

(** The hover text of line 305: [`${node_name}<br>Type: ${node_type}<br>Region: ${region}`]. *)
Definition markerLabel (node : Node.t) : string :=
  Node.node_name node ++ "<br>Type: " ++ Node.node_type node ++ "<br>Region: " ++ Node.region node.

(** The map [layout] of lines 323-339. *)
Record MapLayout := mkMapLayout {
  geo_scope : string; geo_projection : string; geo_showland : bool; geo_landcolor : string;
  geo_countrycolor : string; geo_subunitwidth : Q; geo_countrywidth : Q;
  geo_subunitcolor : string; map_margin : Margin; map_autosize : bool
}.

Definition mapLayout : MapLayout :=
  mkMapLayout "usa" "albers usa" true "rgb(217, 217, 217)" "rgb(255, 255, 255)" 1 1
              "rgb(255,255,255)" (mkMargin 0 0 0 0) true.

Record MapPlot := mkMapPlot { map_trace : MapData; map_layout : MapLayout }.

(** [Plotly.newPlot('network-map', [mapData], layout)]. *)
Definition updateNetworkMap (nodes : list Enriched.t) : MapPlot :=
  mkMapPlot
    (mkMapData (map (fun n => Node.longitude (Enriched.node n)) nodes)
               (map (fun n => Node.latitude (Enriched.node n)) nodes)
               (map (fun n => markerLabel (Enriched.node n)) nodes)
               (map (fun n => markerColor (Enriched.status n)) nodes)
               "scattergeo" "markers" 12 1)
    mapLayout.

(** [nodes.reduce((sum, node) => sum + (node.performance ? f : 0), 0) / nodes.length]. *)
Definition sumMetric (f : Perf.t -> Q) (nodes : list Enriched.t) : Q :=
  fold_left (fun sum n => sum + metric_or_zero f n) nodes 0.

Definition average (f : Perf.t -> Q) (nodes : list Enriched.t) : Q :=
  sumMetric f nodes / inject_Z (Z.of_nat (length nodes)).

(** The loop of [getRandomTrendData] (lines 376-379),
    [for (let i = 0; i < 10; i++) { value = ...; data.unshift(value) }],
    on the code's integer counter.  It terminates because [10 - i]
    decreases at each iteration. *)
Equations? trendFor (maxVariation : Q) (i : Z) (value : Q) (data : list Q) : ST (list Q)
  by wf (Z.to_nat (10 - i)) lt :=
trendFor maxVariation i value data with Z_lt_dec i 10 => {
  | left _ =>
      r <- Math_random ;;
      let value' := value + (r * 2 - 1) * (maxVariation / 2) in
      trendFor maxVariation (i + 1)%Z value' (value' :: data)
  | right _ => st_ret data }.
Proof. lia. Qed.

(** The same loop counted down on [nat]: the reference the proofs use. *)
Fixpoint trendLoop (maxVariation : Q) (i : nat) (value : Q) (data : list Q) : ST (list Q) :=
  match i with
  | O => st_ret data
  | S i' =>
      r <- Math_random ;;
      let value' := value + (r * 2 - 1) * (maxVariation / 2) in
      trendLoop maxVariation i' value' (value' :: data)
  end.

(** [getRandomTrendData(currentValue, maxVariation)]: ten steps of a random
    walk, each [unshift]ed, then the current value pushed last. *)
Definition getRandomTrendData (currentValue maxVariation : Q) : ST (list Q) :=
  data <- trendFor maxVariation 0 currentValue [] ;;
  st_ret (data ++ [currentValue]).

(** [updateTrendChart(elementId, data)] (lines 388-408): a blue line over
    the points, on a bare transparent layout. *)
Record TrendTrace := mkTrendTrace { trend_y : list Q; trend_mode : string; trend_line : Line }.

Record TrendLayout := mkTrendLayout {
  trend_margin : Margin; trend_xaxis : Axis; trend_yaxis : Axis; trend_showlegend : bool;
  trend_plot_bgcolor : string; trend_paper_bgcolor : string
}.

Record TrendPlot := mkTrendPlot {
  trend_element : string; trend_trace : TrendTrace; trend_layout : TrendLayout
}.

Definition trendLayout : TrendLayout :=
  mkTrendLayout (mkMargin 0 0 0 0) (mkAxis None None None (Some false))
                (mkAxis None None None (Some false)) false "rgba(0,0,0,0)" "rgba(0,0,0,0)".

Definition updateTrendChart (elementId : string) (data : list Q) : TrendPlot :=
  mkTrendPlot elementId (mkTrendTrace data "lines" (mkLine "#0d6efd" 2 None)) trendLayout.

Record KeyMetrics := mkKeyMetrics {
  avgTemp : Q; avgCpu : Q; avgAvail : Q;
  tempTrend : TrendPlot; cpuTrend : TrendPlot; availTrend : TrendPlot
}.

(** [updateKeyMetrics]: [None] is the early [return] on an empty list,
    which leaves the previous values on screen. *)
Definition updateKeyMetrics (nodes : list Enriched.t) : ST (option KeyMetrics) :=
  match nodes with
  | [] => st_ret None
  | _ =>
      let t := average Perf.temperature_celsius nodes in
      let c := average Perf.cpu_utilization_percent nodes in
      let a := average Perf.availability_percent nodes in
      tt <- getRandomTrendData t 5 ;;
      ct <- getRandomTrendData c 10 ;;
      at_ <- getRandomTrendData a 1 ;;
      st_ret (Some (mkKeyMetrics t c a (updateTrendChart "temp-trend-chart" tt)
                                 (updateTrendChart "cpu-trend-chart" ct)
                                 (updateTrendChart "availability-trend-chart" at_)))
  end.

(** The sum of a metric over the nodes that have a snapshot (the spec's
    reading of the averages, §4.3). *)
Fixpoint snapshotSum (f : Perf.t -> Q) (nodes : list Enriched.t) : Q :=
  match nodes with
  | [] => 0
  | n :: rest =>
      match Enriched.performance n with
      | Some p => f p + snapshotSum f rest
      | None => snapshotSum f rest
      end
  end.

(** ** Lemmas *)

Lemma countStatus_partition (nodes : list Enriched.t) :
  (countStatus Healthy nodes + countStatus Warning nodes + countStatus Critical nodes
   + countStatus Unknown nodes = length nodes)%nat.
Proof.
  unfold countStatus. induction nodes as [|n nodes IH]; [reflexivity|].
  rewrite !filter_cons. destruct (Enriched.status n); repeat case_decide;
    simpl; try congruence; lia.
Qed.

Lemma inject_nat_add (a b : nat) :
  inject_Z (Z.of_nat (a + b)) == inject_Z (Z.of_nat a) + inject_Z (Z.of_nat b).
Proof. rewrite Nat2Z.inj_add, inject_Z_plus. reflexivity. Qed.

Lemma inject_nat_pos (n : nat) : (0 < n)%nat -> 0 < inject_Z (Z.of_nat n).
Proof. intros H. change 0 with (inject_Z 0). rewrite <- Zlt_Qlt. lia. Qed.

Lemma inject_nat_nonneg (n : nat) : 0 <= inject_Z (Z.of_nat n).
Proof. change 0 with (inject_Z 0). rewrite <- Zle_Qle. lia. Qed.

Lemma percentOf_pos (count total : nat) :
  (0 < total)%nat ->
  percentOf count total = JFin (inject_Z (Z.of_nat count) / inject_Z (Z.of_nat total) * 100).
Proof.
  intros H. unfold percentOf, js_div. pose proof (inject_nat_pos _ H).
  destruct (Qeq_bool _ 0) eqn:E; [apply Qeq_bool_iff in E; lra|reflexivity].
Qed.

Lemma percentOf_zero (count : nat) : percentOf count 0 = JNaN \/ (count <> 0)%nat.
Proof. destruct count; [left; reflexivity|right; lia]. Qed.

(** The sum of [fold_left] from an accumulator [a] with terms in [[lo, hi]]. *)
Lemma fold_sum_bounds (g : Enriched.t -> Q) (lo hi : Q) (nodes : list Enriched.t) (a : Q) :
  Forall (fun n => lo <= g n <= hi) nodes ->
  a + lo * inject_Z (Z.of_nat (length nodes)) <= fold_left (fun s n => s + g n) nodes a
    <= a + hi * inject_Z (Z.of_nat (length nodes)).
Proof.
  intros Hall. revert a. induction Hall as [|n nodes Hn _ IH]; intros a; cbn [fold_left length].
  - change (inject_Z (Z.of_nat 0)) with 0. lra.
  - specialize (IH (a + g n)). rewrite Nat2Z.inj_succ, <- Z.add_1_r, inject_Z_plus.
    change (inject_Z 1) with 1. lra.
Qed.

(** Ten steps of the walk: the list grows by the new values at its head,
    adjacent values differ by at most [maxVariation / 2]. *)
Fixpoint adjacent_within (d : Q) (l : list Q) : Prop :=
  match l with
  | x :: ((y :: _) as l') => Qabs (x - y) <= d /\ adjacent_within d l'
  | _ => True
  end.

Lemma st_spec_trendLoop (m : Q) (i : nat) (value : Q) (data : list Q) (last : Q) :
  0 <= m -> head (data ++ [last]) = Some value -> adjacent_within (m / 2) (data ++ [last]) ->
  st_spec (trendLoop m i value data)
    (fun out n => length out = (i + length data)%nat /\ n = i /\
       adjacent_within (m / 2) (out ++ [last]) /\ exists pre, out = pre ++ data).
Proof.
  intros Hm. revert value data. induction i as [|i IH]; intros value data Hh Hadj; simpl.
  - apply st_spec_ret. split; [reflexivity|]. split; [reflexivity|].
    split; [exact Hadj|exists []; reflexivity].
  - eapply st_spec_bind; [apply st_spec_Math_random|]. intros r n [Hr ->].
    eapply st_spec_weaken; [apply IH|].
    + reflexivity.
    + rewrite <- app_comm_cons.
      destruct (data ++ [last]) as [|y l] eqn:E; [destruct data; discriminate|].
      cbn [head] in Hh. injection Hh as ->. cbn [adjacent_within]. split; [|exact Hadj].
      apply variation_within_pos; [apply Qle_shift_div_l; lra|exact Hr].
    + intros out n' (Hl & -> & Ha & pre & ->). simpl in Hl.
      split; [lia|]. split; [lia|]. split; [exact Ha|].
      exists (pre ++ [value + (r * 2 - 1) * (m / 2)]). rewrite <- app_assoc. reflexivity.
Qed.

Lemma average_bounds (f : Perf.t -> Q) (lo hi : Q) (nodes : list Enriched.t) :
  nodes <> [] -> Forall (fun n => lo <= metric_or_zero f n <= hi) nodes ->
  lo <= average f nodes <= hi.
Proof.
  intros Hne Hall. unfold average, sumMetric.
  assert (HL : 0 < inject_Z (Z.of_nat (length nodes)))
    by (apply inject_nat_pos; destruct nodes; [congruence|simpl; lia]).
  pose proof (fold_sum_bounds (metric_or_zero f) lo hi nodes 0 Hall) as [H1 H2].
  split; [apply Qle_shift_div_l | apply Qle_shift_div_r]; lra.
Qed.

Lemma markerColor_gray (s : Status) : markerColor s = "gray"%string <-> s = Unknown.
Proof. destruct s; split; intros H; solve [reflexivity | discriminate]. Qed.

Lemma markerColor_inj (s s' : Status) : markerColor s = markerColor s' -> s = s'.
Proof. destruct s, s'; cbn; congruence. Qed.

(** The map shows as many markers of a status's colour as there are nodes
    of that status. *)
Lemma markers_count (s : Status) (nodes : list Enriched.t) :
  length (filter (fun c => c = markerColor s) (map (fun n => markerColor (Enriched.status n)) nodes))
  = countStatus s nodes.
Proof.
  unfold countStatus. induction nodes as [|n nodes IH]; [reflexivity|].
  cbn [map]. rewrite !filter_cons.
  destruct (decide (Enriched.status n = s)) as [<-|Hne].
  - rewrite !decide_True by reflexivity. cbn [length]. rewrite IH. reflexivity.
  - rewrite !decide_False by (try exact Hne; intros H; apply Hne, markerColor_inj, H). exact IH.
Qed.

Lemma Forall2_map_r {A B} (P : A -> B -> Prop) (f : A -> B) (l : list A) :
  Forall (fun x => P x (f x)) l -> Forall2 P l (map f l).
Proof. induction 1; constructor; assumption. Qed.

Lemma fold_sum_snapshotSum (f : Perf.t -> Q) (nodes : list Enriched.t) (a : Q) :
  fold_left (fun sum n => sum + metric_or_zero f n) nodes a == a + snapshotSum f nodes.
Proof.
  revert a. induction nodes as [|n rest IH]; intros a; cbn [fold_left snapshotSum]; [ring|].
  rewrite IH. unfold metric_or_zero. destruct (Enriched.performance n); ring.
Qed.

Lemma average_snapshotSum (f : Perf.t -> Q) (nodes : list Enriched.t) :
  average f nodes == snapshotSum f nodes / inject_Z (Z.of_nat (length nodes)).
Proof.
  unfold average, sumMetric. rewrite fold_sum_snapshotSum. apply Qdiv_comp; [ring|reflexivity].
Qed.

(** The [for] loop from counter [i] is the countdown from [10 - i]. *)
Lemma trendFor_trendLoop (m : Q) (n : nat) (i : Z) (value : Q) (data : list Q) (g : Globals) :
  Z.to_nat (10 - i) = n -> trendFor m i value data g = trendLoop m n value data g.
Proof.
  revert i value data g. induction n as [|n IH]; intros i value data g Hn;
    rewrite trendFor_equation_1; destruct (Z_lt_dec i 10) as [Hi|Hi]; try lia; simp trendFor.
  - reflexivity.
  - cbn [trendLoop]. unfold st_bind. destruct (Math_random g) as [r g1]. apply IH. lia.
Qed.

(** [k] iterations take [k] draws and [unshift] [k] values. *)
Lemma st_spec_trendLoop_length (m : Q) (k : nat) (value : Q) (data : list Q) :
  st_spec (trendLoop m k value data)
    (fun out n => n = k /\ length out = (k + length data)%nat /\ exists pre, out = pre ++ data).
Proof.
  revert value data. induction k as [|k IH]; intros value data; cbn [trendLoop].
  - apply st_spec_ret. split; [reflexivity|]. split; [reflexivity|]. exists []. reflexivity.
  - eapply st_spec_bind; [apply st_spec_Math_random|]. intros r n [_ ->].
    eapply st_spec_weaken; [apply IH|]. intros out n' (-> & Hl & pre & ->).
    cbn [length] in Hl. split; [lia|]. split; [lia|].
    exists (pre ++ [value + (r * 2 - 1) * (m / 2)]). rewrite <- app_assoc. reflexivity.
Qed.

Lemma st_spec_getRandomTrendData (currentValue maxVariation : Q) :
  0 <= maxVariation ->
  st_spec (getRandomTrendData currentValue maxVariation)
    (fun out n => length out = 11%nat /\ last out = Some currentValue /\
                  adjacent_within (maxVariation / 2) out /\ n = 10%nat).
Proof.
  intros Hm. unfold getRandomTrendData.
  eapply st_spec_bind.
  { eapply st_spec_ext; [intros g; apply (trendFor_trendLoop _ 10); reflexivity|].
    apply (st_spec_trendLoop _ 10 currentValue [] currentValue Hm); reflexivity. }
  intros data n (Hl & -> & Ha & _). apply st_spec_ret.
  split; [rewrite length_app; simpl in *; lia|].
  split; [apply last_snoc|]. split; [exact Ha|lia].
Qed.

(** ** Properties *)

(** C7: the three counters of [updateNetworkStatus] and the [unknown]
    nodes, which no counter shows, add up to the size of the filtered set,
    and the alert count is warnings plus criticals. *)
Theorem updateNetworkStatus_counts (nodes : list Enriched.t) :
  let ns := updateNetworkStatus nodes in
  (healthyCounts ns + warningCounts ns + criticalCounts ns + countStatus Unknown nodes
   = length nodes)%nat /\
  totalAlerts ns = (warningCounts ns + criticalCounts ns)%nat.
Proof. split; [apply countStatus_partition|reflexivity]. Qed.

(** C8: on a non-empty filtered set the three progress-bar widths are
    finite and add up to [100 - 100 * unknown / total]: to 100 exactly
    when every node has a snapshot, less otherwise. *)
Theorem updateNetworkStatus_percentages (nodes : list Enriched.t) :
  (0 < length nodes)%nat ->
  let ns := updateNetworkStatus nodes in
  exists ph pw pc,
    healthyPercent ns = JFin ph /\ warningPercent ns = JFin pw /\ criticalPercent ns = JFin pc /\
    ph + pw + pc == 100 - 100 * inject_Z (Z.of_nat (countStatus Unknown nodes))
                              / inject_Z (Z.of_nat (length nodes)).
Proof.
  intros Hpos. cbn [updateNetworkStatus healthyPercent warningPercent criticalPercent].
  rewrite !(percentOf_pos _ _ Hpos). do 3 eexists. split; [reflexivity|].
  split; [reflexivity|]. split; [reflexivity|].
  pose proof (countStatus_partition nodes) as Hp.
  pose proof (inject_nat_pos _ Hpos) as HT.
  apply (f_equal (fun k => inject_Z (Z.of_nat k))) in Hp.
  rewrite !Nat2Z.inj_add, !inject_Z_plus in Hp.
  set (T := inject_Z (Z.of_nat (length nodes))) in *.
  set (u := inject_Z (Z.of_nat (countStatus Unknown nodes))) in *.
  assert (Hu : u == T - inject_Z (Z.of_nat (countStatus Healthy nodes))
                    - inject_Z (Z.of_nat (countStatus Warning nodes))
                    - inject_Z (Z.of_nat (countStatus Critical nodes)))
    by (rewrite <- Hp; ring).
  rewrite Hu. field. lra.
Qed.

(** C22: on an empty filtered set the code divides 0 by 0: the three
    progress-bar widths are [NaN], where the spec (§4.3, §8) requires 0. *)
Theorem updateNetworkStatus_empty :
  let ns := updateNetworkStatus [] in
  healthyPercent ns = JNaN /\ warningPercent ns = JNaN /\ criticalPercent ns = JNaN /\
  healthyCounts ns = 0%nat /\ totalAlerts ns = 0%nat.
Proof. repeat split. Qed.

(** On a non-empty set whose nodes all have a snapshot,
    [updateKeyMetrics] shows means of the temperature, cpu and
    availability that lie within the range of the nodes' values. *)
Lemma updateKeyMetrics_means (nodes : list Enriched.t) (g : Globals)
    (lt ht lc hc la ha : Q) :
  nodes <> [] ->
  Forall (fun n => exists p, Enriched.performance n = Some p /\
            lt <= Perf.temperature_celsius p <= ht /\
            lc <= Perf.cpu_utilization_percent p <= hc /\
            la <= Perf.availability_percent p <= ha) nodes ->
  exists km, fst (updateKeyMetrics nodes g) = Some km /\
    lt <= avgTemp km <= ht /\ lc <= avgCpu km <= hc /\ la <= avgAvail km <= ha.
Proof.
  intros Hne Hall.
  assert (Hb : forall (f : Perf.t -> Q) lo hi,
             Forall (fun n => exists p, Enriched.performance n = Some p /\ lo <= f p <= hi) nodes ->
             lo <= average f nodes <= hi).
  { intros f lo hi Hf. apply average_bounds; [exact Hne|].
    eapply Forall_impl; [exact Hf|]. intros n (p & Hp & Hr). unfold metric_or_zero. rewrite Hp. exact Hr. }
  destruct nodes as [|n0 rest]; [congruence|].
  unfold updateKeyMetrics, st_bind, st_ret.
  destruct (getRandomTrendData (average Perf.temperature_celsius (n0 :: rest)) 5 g) as [t1 g1].
  destruct (getRandomTrendData (average Perf.cpu_utilization_percent (n0 :: rest)) 10 g1)
    as [t2 g2].
  destruct (getRandomTrendData (average Perf.availability_percent (n0 :: rest)) 1 g2)
    as [t3 g3].
  eexists. split; [reflexivity|].
  cbn [avgTemp avgCpu avgAvail].
  split; [|split]; apply Hb; (eapply Forall_impl; [exact Hall|]);
    intros n (p & Hp & Ht & Hc & Ha); eauto.
Qed.


(** C29: the map draws one marker per filtered node, in order, coloured by
    its status, and a marker is gray exactly when the node's id has no
    snapshot in the cycle (it lies outside the simulated window): nodes
    without data are drawn distinctly (§7 (b) of the spec). *)
Theorem updateNetworkMap_markers (sel : Selection) (g : Globals) :
  let '((nodes, perf), _) := getFilteredData sel g in
  let md := map_trace (updateNetworkMap nodes) in
  length (lon md) = length nodes /\ length (lat md) = length nodes /\
  Forall2 (fun n c => c = markerColor (Enriched.status n) /\
             (c = "gray"%string <-> Node.node_id (Enriched.node n) ∉ map Perf.node_id perf))
          nodes (markerColors md).
Proof.
  pose proof (getFilteredData_enriched sel g) as Hen.
  pose proof (getFilteredData_perf sel g) as Hp.
  destruct (getFilteredData sel g) as [[nodes perf] g']. cbn [fst snd] in Hen, Hp. subst perf.
  cbv beta iota zeta. cbn [updateNetworkMap map_trace lon lat markerColors]. rewrite !length_map.
  split; [reflexivity|]. split; [reflexivity|].
  apply Forall2_map_r, Forall_forall. intros n Hn. destruct (Hen n Hn) as (node & _ & ->).
  split; [reflexivity|]. rewrite markerColor_gray. unfold enrich. cbn [Enriched.status].
  rewrite getNodeStatus_unknown. apply nodePerfOf_none.
Qed.

(** C30: [updateKeyMetrics] leaves the key metrics untouched on an empty
    set; otherwise each mean it shows is the sum of the metric over the
    nodes that have a snapshot divided by the number of all the nodes, so
    a node without snapshot counts as 0 and pulls the mean down (the
    behaviour §4.3 of the spec documents). *)
Theorem updateKeyMetrics_average (nodes : list Enriched.t) (g : Globals) :
  (nodes = [] -> fst (updateKeyMetrics nodes g) = None) /\
  (nodes <> [] -> exists km, fst (updateKeyMetrics nodes g) = Some km /\
     let len := inject_Z (Z.of_nat (length nodes)) in
     avgTemp km == snapshotSum Perf.temperature_celsius nodes / len /\
     avgCpu km == snapshotSum Perf.cpu_utilization_percent nodes / len /\
     avgAvail km == snapshotSum Perf.availability_percent nodes / len).
Proof.
  split; [intros ->; reflexivity|]. intros Hne.
  destruct nodes as [|n0 rest]; [congruence|].
  unfold updateKeyMetrics, st_bind, st_ret.
  destruct (getRandomTrendData (average Perf.temperature_celsius (n0 :: rest)) 5 g) as [t1 g1].
  destruct (getRandomTrendData (average Perf.cpu_utilization_percent (n0 :: rest)) 10 g1)
    as [t2 g2].
  destruct (getRandomTrendData (average Perf.availability_percent (n0 :: rest)) 1 g2)
    as [t3 g3].
  eexists. split; [reflexivity|]. cbn [avgTemp avgCpu avgAvail].
  split; [|split]; apply average_snapshotSum.
Qed.

(** C31: the sparkline of [getRandomTrendData] has 11 points, ends with
    the current value, moves by at most [maxVariation / 2] between
    neighbouring points, and uses 10 random draws. *)
Theorem getRandomTrendData_shape (currentValue maxVariation : Q) :
  0 <= maxVariation ->
  st_spec (getRandomTrendData currentValue maxVariation)
    (fun out n => length out = 11%nat /\ last out = Some currentValue /\
                  adjacent_within (maxVariation / 2) out /\ n = 10%nat).
Proof. apply st_spec_getRandomTrendData. Qed.

(** The [for (let i = 0; i < 10; i++)] loop of [getRandomTrendData]
    terminates from any value of its counter: from [i] it runs exactly
    [max 0 (10 - i)] iterations, each taking one random draw and
    [unshift]ing one value before the data it started with; from [0] it
    runs ten. *)
Lemma trendFor_terminates (m : Q) (i : Z) (value : Q) (data : list Q) :
  st_spec (trendFor m i value data)
    (fun out n => n = Z.to_nat (10 - i) /\
       length out = (Z.to_nat (10 - i) + length data)%nat /\ exists pre, out = pre ++ data).
Proof.
  eapply st_spec_ext; [intros g; apply (trendFor_trendLoop _ (Z.to_nat (10 - i))); reflexivity|].
  apply st_spec_trendLoop_length.
Qed.

(** ** Witnesses *)

Definition demo_node (id : string) : Node.t := Node.mk id id "router" "east" 0 0.

Definition demo_perf (id : string) (t c a : Q) : Perf.t := Perf.mk id 0 t c 50 50 100 100 a.

Definition demo_globals_views : Globals := mkGlobals [] [] 0 (mkRng (fun _ => 1 # 2) 0) 0.

(** A healthy node and a critical node (temperature 52). *)
Definition demo_enriched : list Enriched.t :=
  [Enriched.mk (demo_node "N1") Healthy (Some (demo_perf "N1" 30 40 99));
   Enriched.mk (demo_node "N2") Critical (Some (demo_perf "N2" 52 40 99))].

Lemma updateNetworkStatus_percentages_witness :
  (0 < length demo_enriched)%nat /\
  let ns := updateNetworkStatus demo_enriched in
  exists ph pw pc,
    healthyPercent ns = JFin ph /\ warningPercent ns = JFin pw /\ criticalPercent ns = JFin pc /\
    ph + pw + pc == 100 - 100 * inject_Z (Z.of_nat (countStatus Unknown demo_enriched))
                              / inject_Z (Z.of_nat (length demo_enriched)).
Proof. split; [simpl; lia|]. apply updateNetworkStatus_percentages. simpl; lia. Defined.

Lemma demo_enriched_ranges :
  Forall (fun n => exists p, Enriched.performance n = Some p /\
            30 <= Perf.temperature_celsius p <= 52 /\
            40 <= Perf.cpu_utilization_percent p <= 40 /\
            99 <= Perf.availability_percent p <= 99) demo_enriched.
Proof.
  constructor; [|constructor; [|constructor]];
    (eexists; split; [reflexivity|]); cbn; lra.
Qed.

Lemma getRandomTrendData_shape_witness :
  0 <= 5 /\
  st_spec (getRandomTrendData 30 5)
    (fun out n => length out = 11%nat /\ last out = Some 30 /\
                  adjacent_within (5 / 2) out /\ n = 10%nat).
Proof. split; [lra|]. apply getRandomTrendData_shape. lra. Defined.

(** Two nodes with snapshots at 30 and 52 degrees and one without: the
    mean shown is [82 / 3], not [41]. *)
Lemma updateKeyMetrics_average_witness :
  let nodes := demo_enriched ++ [Enriched.mk (demo_node "N3") Unknown None] in
  nodes <> [] /\
  exists km, fst (updateKeyMetrics nodes demo_globals_views) = Some km /\ avgTemp km == 82 / 3.
Proof.
  intros nodes. assert (Hne : nodes <> []) by (vm_compute; discriminate).
  split; [exact Hne|].
  destruct (proj2 (updateKeyMetrics_average nodes demo_globals_views) Hne) as (km & Hk & Ht & _).
  exists km. split; [exact Hk|]. rewrite Ht. vm_compute. reflexivity.
Defined.
