(* ===== verification/Charts.v ===== *)
(** * Charts: the ranked temperature and utilization bar charts

    [updateTemperatureChart] (lines 411-513) and [updateUtilizationChart]
    (lines 516-630).  Each calls [getFilteredData] again, optionally keeps
    the nodes above a temperature threshold, sorts the nodes by a metric,
    highest first, with [Array.prototype.sort] (stable since ES2019, so its
    result is the one of any stable sort, here an insertion sort), takes
    the first 20, colours each bar by the metric's threshold pair, and
    lays out the chart with the two dashed threshold lines and their
    labels ([BarPlot]: the trace and the layout). *)

From Stdlib Require Import QArith Qabs ZArith String Lqa Lia Sorted Permutation.
From stdpp Require Import base list decidable strings.
From S2P Require Import Prelude Types Plots Session Classifier Simulator Filter.

Open Scope Q_scope.
Open Scope noc_scope.

(** ** A stable sort, highest key first *)

Section Ranking.
Context {A : Type} (key : A -> Q).

(** Insert [x], which comes before every element of [l] in the input,
    in front of the first element whose key is not greater than its
    own: ties keep the input order. *)
Fixpoint insertDesc (x : A) (l : list A) : list A :=
  match l with
  | [] => [x]
  | y :: l' => if key x <? key y then y :: insertDesc x l' else x :: l
  end.

(** [xs.sort((a, b) => key(b) - key(a))]. *)
Fixpoint sortDesc (l : list A) : list A :=
  match l with
  | [] => []
  | x :: l' => insertDesc x (sortDesc l')
  end.

Definition descending (l : list A) : Prop := Sorted (fun a b => key b <= key a) l.

Lemma insertDesc_perm (x : A) (l : list A) : Permutation (insertDesc x l) (x :: l).
Proof.
  induction l as [|y l IH]; simpl; [reflexivity|].
  destruct (key x <? key y); [|reflexivity].
  rewrite IH. apply perm_swap.
Qed.

Lemma sortDesc_perm (l : list A) : Permutation (sortDesc l) l.
Proof.
  induction l as [|x l IH]; simpl; [reflexivity|].
  rewrite insertDesc_perm, IH. reflexivity.
Qed.

Lemma insertDesc_hd (x y : A) (l : list A) :
  key y <= key x -> (forall z, hd_error l = Some z -> key z <= key x) ->
  HdRel (fun a b => key b <= key a) x (insertDesc y l).
Proof.
  intros Hy Hl. destruct l as [|z l]; simpl; [constructor; exact Hy|].
  destruct (key y <? key z); constructor; [apply Hl; reflexivity|exact Hy].
Qed.

Lemma insertDesc_sorted (x : A) (l : list A) :
  descending l -> descending (insertDesc x l).
Proof.
  unfold descending. induction 1 as [|y l Hl IH Hhd]; simpl.
  - repeat constructor.
  - destruct (Qltb_spec (key x) (key y)) as [Hlt|Hge].
    + constructor; [exact IH|]. apply insertDesc_hd; [lra|].
      intros z Hz. destruct l as [|w l]; [discriminate|]. injection Hz as <-.
      inversion Hhd; assumption.
    + constructor; [constructor; assumption|]. constructor. apply Qnot_lt_le, Hge.
Qed.

Lemma sortDesc_sorted (l : list A) : descending (sortDesc l).
Proof.
  induction l as [|x l IH]; simpl; [constructor|]. apply insertDesc_sorted, IH.
Qed.

(** In a descending list every element after position [n] has a key not
    greater than any element before it. *)
Lemma descending_take_drop (l : list A) (n : nat) (x y : A) :
  descending l -> x ∈ take n l -> y ∈ drop n l -> key y <= key x.
Proof.
  intros Hs Hx Hy. apply Sorted_StronglySorted in Hs;
    [|intros a b c H1 H2; lra].
  rewrite <- (take_drop n l) in Hs.
  induction (take n l) as [|z t IH]; [apply not_elem_of_nil in Hx; contradiction|].
  simpl in Hs. apply StronglySorted_inv in Hs as [Hs Hall].
  apply elem_of_cons in Hx as [->|Hx].
  - rewrite Forall_forall in Hall. apply Hall.
    apply elem_of_app. right. exact Hy.
  - apply IH; assumption.
Qed.
End Ranking.

(** ** The charts *)

(** [a.performance ? a.performance.f : 0], and [|| 0] of the utilization
    chart (a number is falsy only when it is 0 or [NaN]). *)
Definition js_or0 (x : Q) : Q := if Qeq_bool x 0 then 0 else x.

Definition utilValue (f : Perf.t -> Q) (n : Enriched.t) : Q :=
  match Enriched.performance n with Some p => js_or0 (f p) | None => 0 end.

(** The bar colours of lines 439-444 and 556-561. *)
Definition barColor (thresholds : Thresholds.t) (value : Q) : string :=
  if value >? Thresholds.critical thresholds then "#dc3545"
  else if value >? Thresholds.warning thresholds then "#ffc107"
  else "#28a745".

(** The bar trace of lines 434-446 ([type: 'bar']): names on x, values on
    y, one colour per bar. *)
Record BarTrace := mkBarTrace { bar_x : list string; bar_y : list Q; bar_color : list string }.

Definition barTrace (value : Enriched.t -> Q) (thresholds : Thresholds.t)
    (topNodes : list Enriched.t) : BarTrace :=
  mkBarTrace (map (fun n => Node.node_name (Enriched.node n)) topNodes)
             (map value topNodes)
             (map (fun n => barColor thresholds (value n)) topNodes).

(** The layout of a bar chart (lines 448-510 and 565-627). *)
Record BarLayout := mkBarLayout {
  bar_title : string;
  bar_xaxis : Axis;
  bar_yaxis : Axis;
  bar_shapes : list Shape;
  bar_annotations : list Annotation
}.

(** What [Plotly.newPlot] receives. *)
Record BarPlot := mkBarPlot { plot_trace : BarTrace; plot_layout : BarLayout }.

(** The two dashed threshold lines, from [-0.5] to [bars - 0.5]. *)
Definition thresholdShapes (t : Thresholds.t) (bars : nat) : list Shape :=
  [mkShape (-1 # 2) (inject_Z (Z.of_nat bars) - (1 # 2))
           (Thresholds.warning t) (Thresholds.warning t) (mkLine "#ffc107" 2 (Some "dash"));
   mkShape (-1 # 2) (inject_Z (Z.of_nat bars) - (1 # 2))
           (Thresholds.critical t) (Thresholds.critical t) (mkLine "#dc3545" 2 (Some "dash"))].

(** The two labels at the last bar.  The temperature chart's first label
    sets [x] twice (lines 485 and 493); in an object literal the later key
    wins, so both charts put the labels at [bars - 1]. *)
Definition thresholdAnnotations (t : Thresholds.t) (bars : nat) : list Annotation :=
  [mkAnnotation (inject_Z (Z.of_nat bars) - 1) (Thresholds.warning t) "Warning" "#ffc107"
                "black" "right" "bottom";
   mkAnnotation (inject_Z (Z.of_nat bars) - 1) (Thresholds.critical t) "Critical" "#dc3545"
                "white" "right" "bottom"].

Definition temperatureLayout (bars : nat) : BarLayout :=
  mkBarLayout "Node Temperature (°C)"
    (mkAxis (Some "") (Some (-45)) None None)
    (mkAxis (Some "Temperature (°C)") None None None)
    (thresholdShapes temperatureThresholds bars)
    (thresholdAnnotations temperatureThresholds bars).

(** [node.performance && node.performance.temperature_celsius > t]. *)
Definition hotterThan (t : Q) (n : Enriched.t) : bool :=
  match Enriched.performance n with
  | Some p => Perf.temperature_celsius p >? t
  | None => false
  end.

(** The temperature view filter of lines 416-422. *)
Definition tempView (tempViewType : string) (nodes : list Enriched.t) : list Enriched.t :=
  if bool_decide (tempViewType = "warning"%string) then
    filter (fun n => hotterThan (Thresholds.warning temperatureThresholds) n = true) nodes
  else if bool_decide (tempViewType = "critical"%string) then
    filter (fun n => hotterThan (Thresholds.critical temperatureThresholds) n = true) nodes
  else nodes.

Definition tempTopNodes (tempViewType : string) (nodes : list Enriched.t) : list Enriched.t :=
  take 20 (sortDesc (metric_or_zero Perf.temperature_celsius) (tempView tempViewType nodes)).

Definition updateTemperatureChart (sel : Selection) (tempViewType : string) : ST BarPlot :=
  r <- getFilteredData sel ;;
  let filteredNodes := tempTopNodes tempViewType (fst r) in
  st_ret (mkBarPlot
            (barTrace (metric_or_zero Perf.temperature_celsius) temperatureThresholds filteredNodes)
            (temperatureLayout (length filteredNodes))).

(** The [switch (metricType)] of lines 520-539: [metricField], [title]
    and [thresholds]. *)
Record Metric := mkMetric {
  metricField : Perf.t -> Q; metricTitle : string; metricThresholds : Thresholds.t
}.

Definition utilizationMetric (metricType : string) : Metric :=
  if bool_decide (metricType = "memory"%string) then
    mkMetric Perf.memory_utilization_percent "Memory Utilization (%)" (Thresholds.mk 80 90)
  else if bool_decide (metricType = "network"%string) then
    mkMetric Perf.throughput_utilization_percent "Network Utilization (%)" (Thresholds.mk 75 90)
  else mkMetric Perf.cpu_utilization_percent "CPU Utilization (%)" cpuThresholds.

(** Lines 565-627: the y axis is fixed to [[0, 100]]. *)
Definition utilizationLayout (title : string) (thresholds : Thresholds.t) (bars : nat) : BarLayout :=
  mkBarLayout title
    (mkAxis (Some "") (Some (-45)) None None)
    (mkAxis (Some "%") None (Some (0, 100)) None)
    (thresholdShapes thresholds bars)
    (thresholdAnnotations thresholds bars).

Definition utilTopNodes (metricType : string) (nodes : list Enriched.t) : list Enriched.t :=
  take 20 (sortDesc (utilValue (metricField (utilizationMetric metricType))) nodes).

Definition updateUtilizationChart (sel : Selection) (metricType : string) : ST BarPlot :=
  r <- getFilteredData sel ;;
  let m := utilizationMetric metricType in
  let topNodes := utilTopNodes metricType (fst r) in
  st_ret (mkBarPlot (barTrace (utilValue (metricField m)) (metricThresholds m) topNodes)
                    (utilizationLayout (metricTitle m) (metricThresholds m) (length topNodes))).

(** ** Well-formed bar plots

    The trace and the layout of a bar plot agree: at most 20 bars, one
    value and one colour per bar, each colour the threshold colour of its
    value, the two threshold lines horizontal at the two thresholds and
    spanning every bar, and their labels over the last bar. *)
Definition bar_plot_wf (t : Thresholds.t) (p : BarPlot) : Prop :=
  let tr := plot_trace p in
  let n := inject_Z (Z.of_nat (length (bar_x tr))) in
  (length (bar_x tr) <= 20)%nat /\
  length (bar_y tr) = length (bar_x tr) /\
  bar_color tr = map (barColor t) (bar_y tr) /\
  Forall (fun s => shape_x0 s == -1 # 2 /\ shape_x1 s == n - (1 # 2) /\ shape_y0 s == shape_y1 s)
         (bar_shapes (plot_layout p)) /\
  map shape_y0 (bar_shapes (plot_layout p)) = [Thresholds.warning t; Thresholds.critical t] /\
  map ann_x (bar_annotations (plot_layout p)) = [n - 1; n - 1] /\
  map ann_y (bar_annotations (plot_layout p)) = [Thresholds.warning t; Thresholds.critical t].

(** ** Lemmas *)

Lemma Sorted_take {A} (R : A -> A -> Prop) (l : list A) (n : nat) :
  Sorted R l -> Sorted R (take n l).
Proof.
  revert n. induction l as [|x l IH]; intros n Hs; [rewrite take_nil; constructor|].
  destruct n as [|n]; [constructor|]. simpl. apply Sorted_inv in Hs as [Hs Hhd].
  constructor; [apply IH, Hs|]. destruct l as [|y l]; destruct n; simpl; constructor.
  inversion Hhd; assumption.
Qed.

(** The first [n] of the sorted list are [min n (length l)] elements of
    [l], in descending order, and no element left out has a greater key. *)
Lemma take_sortDesc {A} (key : A -> Q) (l : list A) (n : nat) :
  let top := take n (sortDesc key l) in
  length top = Nat.min n (length l) /\ descending key top /\
  exists rest, Permutation (top ++ rest) l /\
               forall x y, x ∈ top -> y ∈ rest -> key y <= key x.
Proof.
  intros top. pose proof (sortDesc_perm key l) as Hp.
  split; [unfold top; rewrite length_take, (Permutation_length Hp); lia|].
  split; [apply Sorted_take, sortDesc_sorted|].
  exists (drop n (sortDesc key l)). split.
  - unfold top. rewrite take_drop. exact Hp.
  - intros x y Hx Hy. eapply descending_take_drop; [apply sortDesc_sorted|exact Hx|exact Hy].
Qed.

(** [insertDesc] only passes over elements of a strictly greater key. *)
Lemma filter_insertDesc {A} (key : A -> Q) (k : Q) (x : A) (l : list A) :
  filter (fun y => Qeq_bool (key y) k = true) (insertDesc key x l) =
  filter (fun y => Qeq_bool (key y) k = true) (x :: l).
Proof.
  induction l as [|y l IH]; simpl; [reflexivity|].
  destruct (Qltb_spec (key x) (key y)) as [Hlt|]; [|reflexivity].
  rewrite !filter_cons, IH, filter_cons.
  destruct (Qeq_bool (key x) k) eqn:Ex, (Qeq_bool (key y) k) eqn:Ey;
    repeat case_decide; try congruence; try reflexivity.
  apply Qeq_bool_iff in Ex, Ey. exfalso. rewrite Ex, Ey in Hlt. apply (Qlt_irrefl k), Hlt.
Qed.

Lemma sortDesc_key_filter {A} (key : A -> Q) (l : list A) (k : Q) :
  filter (fun y => Qeq_bool (key y) k = true) (sortDesc key l) =
  filter (fun y => Qeq_bool (key y) k = true) l.
Proof.
  induction l as [|x l IH]; [reflexivity|].
  simpl. rewrite filter_insertDesc, !filter_cons, IH. reflexivity.
Qed.

(** Lists with the same elements of every key have the same elements. *)
Lemma key_filter_elem {A} (key : A -> Q) (l1 l2 : list A) (x : A) :
  (forall k, filter (fun y => Qeq_bool (key y) k = true) l1 =
             filter (fun y => Qeq_bool (key y) k = true) l2) ->
  x ∈ l1 -> x ∈ l2.
Proof.
  intros H Hx.
  assert (Hk : x ∈ filter (fun y => Qeq_bool (key y) (key x) = true) l1)
    by (apply list_elem_of_filter; split; [apply Qeq_bool_refl|exact Hx]).
  rewrite H in Hk. apply list_elem_of_filter in Hk. tauto.
Qed.

Lemma descending_cons_max {A} (key : A -> Q) (x : A) (l : list A) (y : A) :
  descending key (x :: l) -> y ∈ l -> key y <= key x.
Proof.
  intros Hs Hy. apply (descending_take_drop key (x :: l) 1); [exact Hs| |exact Hy].
  simpl. rewrite elem_of_cons. left. reflexivity.
Qed.

(** A list in non-increasing key order is determined by the order of the
    elements of each key. *)
Lemma descending_key_filter_unique {A} (key : A -> Q) (l1 l2 : list A) :
  descending key l1 -> descending key l2 ->
  (forall k, filter (fun y => Qeq_bool (key y) k = true) l1 =
             filter (fun y => Qeq_bool (key y) k = true) l2) ->
  l1 = l2.
Proof.
  revert l2. induction l1 as [|x t IH]; intros l2 H1 H2 Hf.
  - destruct l2 as [|y t2]; [reflexivity|]. exfalso.
    apply (not_elem_of_nil y), (key_filter_elem key (y :: t2)); [intros k; symmetry; apply Hf|].
    rewrite elem_of_cons. left. reflexivity.
  - destruct l2 as [|y t2].
    { exfalso. apply (not_elem_of_nil x), (key_filter_elem key (x :: t)); [exact Hf|].
      rewrite elem_of_cons. left. reflexivity. }
    assert (Hx2 : x ∈ y :: t2)
      by (apply (key_filter_elem key (x :: t)); [exact Hf|rewrite elem_of_cons; left; reflexivity]).
    assert (Hy1 : y ∈ x :: t)
      by (apply (key_filter_elem key (y :: t2)); [intros k; symmetry; apply Hf
                                                |rewrite elem_of_cons; left; reflexivity]).
    assert (Hxy : key x == key y).
    { apply elem_of_cons in Hx2 as [->|Hx2]; [reflexivity|].
      apply elem_of_cons in Hy1 as [->|Hy1]; [reflexivity|].
      pose proof (descending_cons_max key y t2 x H2 Hx2).
      pose proof (descending_cons_max key x t y H1 Hy1). lra. }
    pose proof (Hf (key x)) as E.
    rewrite !filter_cons, !decide_True in E by (apply Qeq_bool_iff; lra).
    injection E as <- _. f_equal.
    unfold descending in *. apply Sorted_inv in H1 as [H1 _], H2 as [H2 _].
    apply IH; [exact H1|exact H2|]. intros k. specialize (Hf k).
    rewrite !filter_cons in Hf. destruct (decide _); [congruence|exact Hf].
Qed.

(** The bars are drawn from the chart's candidates. *)
Lemma take_sortDesc_elem {A} (key : A -> Q) (l : list A) (n : nat) (x : A) :
  x ∈ take n (sortDesc key l) -> x ∈ l.
Proof.
  intros Hx. apply elem_of_take in Hx as (i & Hi & _).
  apply list_elem_of_lookup_2, list_elem_of_In in Hi.
  apply list_elem_of_In. eapply Permutation_in; [apply sortDesc_perm|exact Hi].
Qed.

Lemma tempView_elem (view : string) (nodes : list Enriched.t) (x : Enriched.t) :
  x ∈ tempView view nodes -> x ∈ nodes.
Proof.
  unfold tempView. repeat case_bool_decide; [| |tauto];
    autorewrite with noc_rw; tauto.
Qed.

(** A red bar means a value above the critical threshold. *)
Lemma barColor_red (t : Thresholds.t) (v : Q) :
  barColor t v = "#dc3545"%string -> Thresholds.critical t < v.
Proof.
  unfold barColor. destruct (Qltb_spec (Thresholds.critical t) v); [tauto|].
  destruct (_ >? _); discriminate.
Qed.

(** A node of the chart's snapshot whose sample breaks a critical
    threshold is critical. *)
Lemma enrich_critical (perf : list Perf.t) (node : Node.t) (p : Perf.t) :
  nodePerfOf perf node = Some p -> is_critical p ->
  Enriched.status (enrich perf node) = Critical.
Proof.
  intros Hp Hc. apply critical_condition_spec in Hc.
  unfold enrich; cbn. rewrite Hp. cbn. rewrite Hc. reflexivity.
Qed.

(** A plot built from at most 20 bars and the threshold shapes and
    labels of its bar count is well formed. *)
Lemma bar_plot_wf_intro (t : Thresholds.t) (value : Enriched.t -> Q) (top : list Enriched.t)
    (title : string) (xa ya : Axis) :
  (length top <= 20)%nat ->
  bar_plot_wf t (mkBarPlot (barTrace value t top)
                   (mkBarLayout title xa ya (thresholdShapes t (length top))
                                (thresholdAnnotations t (length top)))).
Proof.
  intros H. unfold bar_plot_wf, barTrace. cbn [plot_trace plot_layout bar_x bar_y bar_color
    bar_shapes bar_annotations]. rewrite !length_map, map_map.
  split; [exact H|]. split; [reflexivity|]. split; [reflexivity|].
  split; [repeat constructor; reflexivity|]. repeat split.
Qed.

Lemma length_take_20 {A} (l : list A) : (length (take 20 l) <= 20)%nat.
Proof. rewrite length_take. lia. Qed.

(** ** Properties *)

(** C27: [sortDesc] is exactly what [Array.prototype.sort] must return
    for the comparator [key(b) - key(a)]: its output is a permutation of
    the input, and a list is the output if and only if it is in
    non-increasing key order and keeps the input order among elements of
    equal key (stability, required since ES2019).  So any conforming
    engine draws the same chart as the model. *)
Theorem sortDesc_stable {A} (key : A -> Q) (l : list A) :
  Permutation (sortDesc key l) l /\
  forall l', l' = sortDesc key l <->
    descending key l' /\
    forall k, filter (fun y => Qeq_bool (key y) k = true) l' =
              filter (fun y => Qeq_bool (key y) k = true) l.
Proof.
  split; [apply sortDesc_perm|]. intros l'. split.
  - intros ->. split; [apply sortDesc_sorted|intros k; apply sortDesc_key_filter].
  - intros [Hs Hf]. apply (descending_key_filter_unique key); [exact Hs|apply sortDesc_sorted|].
    intros k. rewrite Hf. symmetry. apply sortDesc_key_filter.
Qed.

(** C16: the temperature chart shows the [min 20 n] hottest of the [n]
    filtered nodes that pass the view filter, hottest first (a node
    without snapshot counts as 0 degrees): no node left out is hotter than
    a node shown. *)
Theorem updateTemperatureChart_top20 (sel : Selection) (view : string) (g : Globals) :
  let cands := tempView view (fst (fst (getFilteredData sel g))) in
  let top := tempTopNodes view (fst (fst (getFilteredData sel g))) in
  plot_trace (fst (updateTemperatureChart sel view g)) =
    barTrace (metric_or_zero Perf.temperature_celsius) temperatureThresholds top /\
  length top = Nat.min 20 (length cands) /\
  descending (metric_or_zero Perf.temperature_celsius) top /\
  exists rest, Permutation (top ++ rest) cands /\
    forall x y, x ∈ top -> y ∈ rest ->
      metric_or_zero Perf.temperature_celsius y <= metric_or_zero Perf.temperature_celsius x.
Proof.
  intros cands top. split.
  - unfold updateTemperatureChart, st_bind, st_ret. destruct (getFilteredData sel g). reflexivity.
  - apply take_sortDesc.
Qed.

(** C25: the utilization chart ranks the filtered nodes by the selected
    metric ([memory] with thresholds 80/90, [network] = throughput with
    75/90, anything else cpu with 70/90), highest first, shows the first
    [min 20 n], and no node left out has a higher value than a node
    shown. *)
Theorem updateUtilizationChart_top20 (sel : Selection) (metricType : string) (g : Globals) :
  let nodes := fst (fst (getFilteredData sel g)) in
  let m := utilizationMetric metricType in
  let top := utilTopNodes metricType nodes in
  ((metricType = "memory"%string /\ metricField m = Perf.memory_utilization_percent /\
      metricThresholds m = Thresholds.mk 80 90) \/
   (metricType = "network"%string /\ metricField m = Perf.throughput_utilization_percent /\
      metricThresholds m = Thresholds.mk 75 90) \/
   (metricType <> "memory"%string /\ metricType <> "network"%string /\
      metricField m = Perf.cpu_utilization_percent /\ metricThresholds m = Thresholds.mk 70 90)) /\
  plot_trace (fst (updateUtilizationChart sel metricType g)) =
    barTrace (utilValue (metricField m)) (metricThresholds m) top /\
  length top = Nat.min 20 (length nodes) /\
  descending (utilValue (metricField m)) top /\
  exists rest, Permutation (top ++ rest) nodes /\
    forall x y, x ∈ top -> y ∈ rest ->
      utilValue (metricField m) y <= utilValue (metricField m) x.
Proof.
  intros nodes m top. split.
  - subst m. unfold utilizationMetric. repeat case_bool_decide; cbn [metricField metricThresholds];
      first [left; repeat split; first [assumption|reflexivity]
            | right; left; repeat split; first [assumption|reflexivity]
            | right; right; repeat split; first [assumption|reflexivity]].
  - split; [|apply take_sortDesc].
    unfold updateUtilizationChart, st_bind, st_ret. subst nodes top.
    destruct (getFilteredData sel g). reflexivity.
Qed.

(** C26: inside each chart's own snapshot a red bar always belongs to a
    critical node: a temperature bar is red only above 50 degrees and a
    cpu bar only above 90%, and a node breaking either threshold is
    classified critical.  (Memory and network bars have their own
    thresholds, which the status does not read.) *)
Theorem chart_red_is_critical (sel : Selection) (view metricType : string) (g : Globals) :
  let nodes := fst (fst (getFilteredData sel g)) in
  Forall (fun n => barColor temperatureThresholds (metric_or_zero Perf.temperature_celsius n)
                     = "#dc3545"%string -> Enriched.status n = Critical)
         (tempTopNodes view nodes) /\
  (metricType <> "memory"%string -> metricType <> "network"%string ->
   Forall (fun n => barColor cpuThresholds (utilValue Perf.cpu_utilization_percent n)
                      = "#dc3545"%string -> Enriched.status n = Critical)
          (utilTopNodes metricType nodes)).
Proof.
  intros nodes. split; [|intros Hm Hn; unfold utilTopNodes, utilizationMetric;
    rewrite !bool_decide_false by assumption; cbn [metricField]];
    apply Forall_forall; intros x Hx Hred; apply barColor_red in Hred;
    [apply take_sortDesc_elem, tempView_elem in Hx|apply take_sortDesc_elem in Hx];
    destruct (getFilteredData_enriched sel g x Hx) as (node & _ & ->);
    cbv [metric_or_zero utilValue js_or0 enrich Enriched.performance] in Hred;
    destruct (nodePerfOf (fst (generateCurrentPerformanceData g)) node) as [p|] eqn:Hp;
    cbn in Hred; try lra;
    apply (enrich_critical _ _ p Hp); unfold is_critical.
  - left. exact Hred.
  - right. left. destruct (Qeq_bool _ 0) eqn:E; [cbn in Hred; lra|exact Hred].
Qed.

(** C17: every plot the two chart handlers hand to Plotly is well formed
    ([bar_plot_wf]): the trace has at most 20 bars, one value and one
    colour of the right threshold tier per bar, and the layout's threshold
    lines and labels are sized to the bars drawn.  With no bar at all the
    two lines shrink to the point [-0.5] and the labels sit at [-1]. *)
Theorem charts_well_formed (sel : Selection) (view metricType : string) (g : Globals) :
  bar_plot_wf temperatureThresholds (fst (updateTemperatureChart sel view g)) /\
  bar_plot_wf (metricThresholds (utilizationMetric metricType))
              (fst (updateUtilizationChart sel metricType g)).
Proof.
  unfold updateTemperatureChart, updateUtilizationChart, st_bind, st_ret.
  destruct (getFilteredData sel g) as [r g']. cbn [fst].
  split; apply bar_plot_wf_intro; apply length_take_20.
Qed.

(** One node whose history row reads 95% cpu, and a [Math.random] that
    always returns 0.99 (noise +9.8%, no fault). *)
Definition clip_globals : Globals :=
  mkGlobals [Node.mk "A" "core-A" "router" "east" 0 0] [Perf.mk "A" 0 30 95 50 50 100 100 99] 0
            (mkRng (fun _ => 99 # 100) 0) 0.

(** The cpu noise is not clamped (only the cpu spike is, line 234),
    while the utilization chart fixes its y axis to [[0, 100]]: on this
    history the cpu bar reads 104.8% and rises above the axis. *)
Example utilizationChart_exceeds_axis :
  let p := fst (updateUtilizationChart (mkSelection "all" "all" "all") "cpu" clip_globals) in
  axis_range (bar_yaxis (plot_layout p)) = Some (0, 100) /\
  map Qred (bar_y (plot_trace p)) = [Qred (1048 # 10)] /\
  Forall (fun v => 100 < v) (bar_y (plot_trace p)).
Proof. vm_compute. split; [reflexivity|]. split; [reflexivity|]. repeat constructor. Qed.
