(* ===== verification/Maintenance.v ===== *)
(** * Maintenance: alert lists and the synthetic maintenance schedule

    [updateMaintenanceAlerts] (lines 633-719) lists every critical node
    with the first critical reason, and at most five warning nodes with
    the first warning reason plus a ["+N more warnings"] line;
    [generateMaintenanceSchedule] (lines 722-781) gives up to three
    critical nodes a slot within 24 hours and up to three warning nodes a
    slot 1 to 7 days ahead.  The list items are modelled by their content
    (node, reason, value, time); the HTML text and [toFixed] formatting
    are not. *)

From Stdlib Require Import QArith Qround ZArith String Lqa Lia.
From stdpp Require Import base list decidable strings.
From S2P Require Import Prelude Types Session Classifier.

Open Scope noc_scope.

(** The [issueText] of lines 650-661 ([''] when there is no snapshot). *)
Inductive CriticalIssue :=
  | TemperatureCritical (value : Q)
  | CpuOverload (value : Q)
  | LowAvailability (value : Q)
  | MultipleIssues
  | NoIssueText.

(** The [warningText] of lines 689-698. *)
Inductive WarningIssue :=
  | HighTemperature (value : Q)
  | HighCpu (value : Q)
  | PerformanceDegradation
  | NoWarningText.

Definition criticalIssue (n : Enriched.t) : CriticalIssue :=
  match Enriched.performance n with
  | None => NoIssueText
  | Some p =>
      if Perf.temperature_celsius p >? Thresholds.critical temperatureThresholds then
        TemperatureCritical (Perf.temperature_celsius p)
      else if Perf.cpu_utilization_percent p >? Thresholds.critical cpuThresholds then
        CpuOverload (Perf.cpu_utilization_percent p)
      else if Perf.availability_percent p <? 95 then
        LowAvailability (Perf.availability_percent p)
      else MultipleIssues
  end.

Definition warningIssue (n : Enriched.t) : WarningIssue :=
  match Enriched.performance n with
  | None => NoWarningText
  | Some p =>
      if Perf.temperature_celsius p >? Thresholds.warning temperatureThresholds then
        HighTemperature (Perf.temperature_celsius p)
      else if Perf.cpu_utilization_percent p >? Thresholds.warning cpuThresholds then
        HighCpu (Perf.cpu_utilization_percent p)
      else PerformanceDegradation
  end.

(** The [<li>] items of [#critical-issues] and [#warning-alerts]. *)
Inductive AlertItem :=
  | NoCriticalIssues
  | CriticalItem (name type : string) (issue : CriticalIssue)
  | NoWarnings
  | WarningItem (name : string) (issue : WarningIssue)
  | MoreWarnings (count : nat).

Definition nodesWithStatus (s : Status) (nodes : list Enriched.t) : list Enriched.t :=
  filter (fun n => Enriched.status n = s) nodes.

Definition criticalList (nodes : list Enriched.t) : list AlertItem :=
  match nodesWithStatus Critical nodes with
  | [] => [NoCriticalIssues]
  | criticalNodes =>
      map (fun n => CriticalItem (Node.node_name (Enriched.node n))
                                 (Node.node_type (Enriched.node n)) (criticalIssue n))
          criticalNodes
  end.

Definition warningList (nodes : list Enriched.t) : list AlertItem :=
  match nodesWithStatus Warning nodes with
  | [] => [NoWarnings]
  | warningNodes =>
      map (fun n => WarningItem (Node.node_name (Enriched.node n)) (warningIssue n))
          (take 5 warningNodes)
      ++ (if (5 <? length warningNodes)%nat then [MoreWarnings (length warningNodes - 5)] else [])
  end.

(** The [<li>] items of [#maintenance-schedule]; times in ms since the
    epoch. *)
Inductive ScheduleItem :=
  | NoMaintenance
  | Urgent (name : string) (time : Z)
  | Scheduled (name : string) (time : Z).

(** Lines 745-746: [Math.floor(Math.random() * 24)] hours from now. *)
Definition urgentItem (n : Enriched.t) : ST ScheduleItem :=
  r <- Math_random ;;
  let hours := Qfloor (r * 24) in
  t <- Date_now ;;
  st_ret (Urgent (Node.node_name (Enriched.node n)) (t + hours * 3600000)%Z).

(** Lines 767-768: [Math.floor(Math.random() * 7) + 1] days from now. *)
Definition scheduledItem (n : Enriched.t) : ST ScheduleItem :=
  r <- Math_random ;;
  let days := (Qfloor (r * 7) + 1)%Z in
  t <- Date_now ;;
  st_ret (Scheduled (Node.node_name (Enriched.node n)) (t + days * 86400000)%Z).

Definition generateMaintenanceSchedule (nodes : list Enriched.t) : ST (list ScheduleItem) :=
  let criticalNodes := nodesWithStatus Critical nodes in
  let warningNodes := nodesWithStatus Warning nodes in
  match criticalNodes, warningNodes with
  | [], [] => st_ret [NoMaintenance]
  | _, _ =>
      urgent <- st_map urgentItem (take 3 criticalNodes) ;;
      scheduled <- st_map scheduledItem (take 3 warningNodes) ;;
      st_ret (urgent ++ scheduled)
  end.

Record Alerts := mkAlerts {
  criticalIssues : list AlertItem;
  warningAlerts : list AlertItem;
  schedule : list ScheduleItem
}.

Definition updateMaintenanceAlerts (nodes : list Enriched.t) : ST Alerts :=
  s <- generateMaintenanceSchedule nodes ;;
  st_ret (mkAlerts (criticalList nodes) (warningList nodes) s).

(** How many nodes the alert panel accounts for: one per listed node, [N]
    for the ["+N more warnings"] line, none for a placeholder. *)
Definition alertWeight (it : AlertItem) : nat :=
  match it with
  | CriticalItem _ _ _ | WarningItem _ _ => 1
  | MoreWarnings k => k
  | NoCriticalIssues | NoWarnings => 0
  end.

Definition alertsShown (items : list AlertItem) : nat := sum_list_with alertWeight items.

(** ** Lemmas *)

Lemma nodesWithStatus_elem (s : Status) (nodes : list Enriched.t) (n : Enriched.t) :
  n ∈ nodesWithStatus s nodes <-> n ∈ nodes /\ Enriched.status n = s.
Proof. unfold nodesWithStatus. autorewrite with noc_rw. tauto. Qed.

(** The status of a node was computed by [getNodeStatus] from its snapshot
    (what [getFilteredData] guarantees, [Filter.getFilteredData_status]). *)
Definition status_consistent (n : Enriched.t) : Prop :=
  Enriched.status n = getNodeStatus (Enriched.node n) (Enriched.performance n).

(** An urgent slot for [c], [h] whole hours after [T], within 24 hours. *)
Definition urgent_slot (T : Z) (c : Enriched.t) (it : ScheduleItem) : Prop :=
  exists h, it = Urgent (Node.node_name (Enriched.node c)) (T + h * 3600000)%Z /\ (0 <= h <= 23)%Z.

(** A preventive slot for [w], [d] whole days after [T], within a week. *)
Definition scheduled_slot (T : Z) (w : Enriched.t) (it : ScheduleItem) : Prop :=
  exists d, it = Scheduled (Node.node_name (Enriched.node w)) (T + d * 86400000)%Z /\ (1 <= d <= 7)%Z.

Lemma st_spec_at_urgentItem (T : Z) (n : Enriched.t) :
  st_spec_at T (urgentItem n) (fun it k => urgent_slot T n it /\ (1 <= k <= 1)%nat).
Proof.
  unfold urgentItem. eapply st_spec_at_bind; [apply st_spec_at_lift, st_spec_Math_random|].
  intros r k [Hr ->]. eapply st_spec_at_bind; [apply st_spec_at_Date_now|].
  intros t k' [-> ->]. apply st_spec_at_ret. split; [|lia].
  exists (Qfloor (r * 24)). split; [reflexivity|].
  pose proof (Qfloor_scaled_draw r 24 Hr ltac:(lia)). change (inject_Z 24) with 24%Q in *. lia.
Qed.

Lemma st_spec_at_scheduledItem (T : Z) (n : Enriched.t) :
  st_spec_at T (scheduledItem n) (fun it k => scheduled_slot T n it /\ (1 <= k <= 1)%nat).
Proof.
  unfold scheduledItem. eapply st_spec_at_bind; [apply st_spec_at_lift, st_spec_Math_random|].
  intros r k [Hr ->]. eapply st_spec_at_bind; [apply st_spec_at_Date_now|].
  intros t k' [-> ->]. apply st_spec_at_ret. split; [|lia].
  exists (Qfloor (r * 7) + 1)%Z. split; [reflexivity|].
  pose proof (Qfloor_scaled_draw r 7 Hr ltac:(lia)). change (inject_Z 7) with 7%Q in *. lia.
Qed.

Lemma alertsShown_items {A} (f : A -> AlertItem) (l : list A) :
  (forall x, alertWeight (f x) = 1%nat) -> alertsShown (map f l) = length l.
Proof.
  intros H. unfold alertsShown. induction l as [|x l IH]; [reflexivity|].
  cbn [map sum_list_with length]. rewrite H, IH. reflexivity.
Qed.

(** The critical list accounts for every critical node. *)
Lemma alertsShown_criticalList (nodes : list Enriched.t) :
  alertsShown (criticalList nodes) = length (nodesWithStatus Critical nodes).
Proof.
  unfold criticalList. destruct (nodesWithStatus Critical nodes) as [|n ns]; [reflexivity|].
  apply alertsShown_items. reflexivity.
Qed.

(** The warning list accounts for every warning node: five listed, the
    rest counted by the ["+N more"] line. *)
Lemma alertsShown_warningList (nodes : list Enriched.t) :
  alertsShown (warningList nodes) = length (nodesWithStatus Warning nodes).
Proof.
  unfold warningList. destruct (nodesWithStatus Warning nodes) as [|n ns] eqn:E; [reflexivity|].
  unfold alertsShown. rewrite sum_list_with_app. fold (alertsShown (map (fun n0 =>
    WarningItem (Node.node_name (Enriched.node n0)) (warningIssue n0)) (take 5 (n :: ns)))).
  rewrite alertsShown_items by reflexivity. rewrite length_take.
  destruct (Nat.ltb_spec 5 (length (n :: ns))); cbn [sum_list_with alertWeight]; lia.
Qed.

Lemma take_nonempty {A} (l : list A) (k : nat) : l <> [] -> (0 < k)%nat -> take k l <> [].
Proof. destruct l, k; simpl; congruence || lia. Qed.

(** ** Properties *)

(** C23: a node whose status [getNodeStatus] computed as [critical] is
    listed with the first critical reason in the order temperature > 50,
    cpu > 90, availability < 95; the generic ["Multiple issues detected"]
    reason (and the empty text of a node without snapshot) is never
    shown. *)
Theorem criticalIssue_reason (n : Enriched.t) :
  status_consistent n -> Enriched.status n = Critical ->
  exists p, Enriched.performance n = Some p /\
   ((criticalIssue n = TemperatureCritical (Perf.temperature_celsius p) /\
       Perf.temperature_celsius p > 50) \/
    (criticalIssue n = CpuOverload (Perf.cpu_utilization_percent p) /\
       Perf.temperature_celsius p <= 50 /\ Perf.cpu_utilization_percent p > 90) \/
    (criticalIssue n = LowAvailability (Perf.availability_percent p) /\
       Perf.temperature_celsius p <= 50 /\ Perf.cpu_utilization_percent p <= 90 /\
       Perf.availability_percent p < 95))%Q.
Proof.
  unfold status_consistent, criticalIssue. intros Hc Hs. rewrite Hs in Hc.
  destruct (Enriched.performance n) as [p|]; [|discriminate]. exists p. split; [reflexivity|].
  simpl in Hc. destruct (critical_condition p) eqn:E;
    [|destruct (warning_condition p); discriminate].
  apply critical_condition_spec in E. unfold is_critical in E. cbn.
  qcases; lra || (right; right; split; [reflexivity|lra]) || (right; left; split; [reflexivity|lra])
    || (left; split; [reflexivity|lra]).
Qed.

(** C24: a node whose status [getNodeStatus] computed as [warning] is
    listed with the first warning reason in the order temperature > 40,
    cpu > 70, and otherwise ["Performance degradation"], which is then
    due to an availability below 98. *)
Theorem warningIssue_reason (n : Enriched.t) :
  status_consistent n -> Enriched.status n = Warning ->
  exists p, Enriched.performance n = Some p /\
   ((warningIssue n = HighTemperature (Perf.temperature_celsius p) /\
       Perf.temperature_celsius p > 40) \/
    (warningIssue n = HighCpu (Perf.cpu_utilization_percent p) /\
       Perf.temperature_celsius p <= 40 /\ Perf.cpu_utilization_percent p > 70) \/
    (warningIssue n = PerformanceDegradation /\
       Perf.temperature_celsius p <= 40 /\ Perf.cpu_utilization_percent p <= 70 /\
       Perf.availability_percent p < 98))%Q.
Proof.
  unfold status_consistent, warningIssue. intros Hc Hs. rewrite Hs in Hc.
  destruct (Enriched.performance n) as [p|]; [|discriminate]. exists p. split; [reflexivity|].
  simpl in Hc. destruct (critical_condition p); [discriminate|].
  destruct (warning_condition p) eqn:E; [|discriminate].
  apply warning_condition_spec in E. unfold is_warning in E. cbn.
  qcases; lra || (right; right; split; [reflexivity|lra]) || (right; left; split; [reflexivity|lra])
    || (left; split; [reflexivity|lra]).
Qed.

(** C18: the warning list shows the first [min 5 W] of the [W] warning
    nodes, in order, followed by ["+(W - 5) more warnings"] exactly when
    [W > 5]; with no warning node it shows the placeholder only. *)
Theorem warningList_truncation (nodes : list Enriched.t) :
  let W := nodesWithStatus Warning nodes in
  (W = [] -> warningList nodes = [NoWarnings]) /\
  (W <> [] ->
   exists more,
     warningList nodes =
       map (fun n => WarningItem (Node.node_name (Enriched.node n)) (warningIssue n)) (take 5 W)
       ++ more /\
     length (take 5 W) = Nat.min 5 (length W) /\
     ((5 < length W)%nat -> more = [MoreWarnings (length W - 5)]) /\
     ((length W <= 5)%nat -> more = [])).
Proof.
  intros W. unfold warningList. fold W. split; [intros ->; reflexivity|].
  intros Hne. destruct W as [|w ws] eqn:EW; [congruence|]. rewrite <- EW.
  eexists. split; [reflexivity|]. split; [rewrite length_take; lia|].
  split; intros H; [apply Nat.ltb_lt in H | apply Nat.ltb_ge in H]; rewrite H; reflexivity.
Qed.

(** C28: the schedule, from a clock at [T]: the placeholder when no node is
    critical or warning; otherwise one urgent slot [h] whole hours ahead
    ([0 <= h <= 23]) for each of the first three critical nodes, then one
    slot [d] whole days ahead ([1 <= d <= 7]) for each of the first three
    warning nodes. *)
Theorem generateMaintenanceSchedule_slots (nodes : list Enriched.t) (T : Z) :
  st_spec_at T (generateMaintenanceSchedule nodes) (fun items _ =>
    let C := nodesWithStatus Critical nodes in
    let W := nodesWithStatus Warning nodes in
    (C = [] /\ W = [] /\ items = [NoMaintenance]) \/
    ((C <> [] \/ W <> []) /\ exists u s, items = u ++ s /\
       Forall2 (urgent_slot T) (take 3 C) u /\ Forall2 (scheduled_slot T) (take 3 W) s)).
Proof.
  unfold generateMaintenanceSchedule. cbv zeta.
  destruct (nodesWithStatus Critical nodes) as [|c cs] eqn:EC,
           (nodesWithStatus Warning nodes) as [|w ws] eqn:EW.
  1: apply st_spec_at_ret; left; auto.
  all: eapply st_spec_at_bind;
         [apply (st_spec_at_map T urgentItem (urgent_slot T) 1 1); intros x _;
          apply st_spec_at_urgentItem|];
       intros u n [Hu _];
       eapply st_spec_at_bind;
         [apply (st_spec_at_map T scheduledItem (scheduled_slot T) 1 1); intros x _;
          apply st_spec_at_scheduledItem|];
       intros s n' [Hs _];
       apply st_spec_at_ret; right; split; [first [left; discriminate | right; discriminate]|];
       exists u, s; auto.
Qed.

(** ** Witnesses *)

Definition demo_enrich (p : Perf.t) : Enriched.t :=
  let node := Node.mk (Perf.node_id p) "core-1" "router" "east" 0 0 in
  Enriched.mk node (getNodeStatus node (Some p)) (Some p).

Lemma criticalIssue_reason_witness :
  let n := demo_enrich (Perf.mk "N1" 0 52 40 50 50 100 100 99) in
  status_consistent n /\ Enriched.status n = Critical /\
  exists p, Enriched.performance n = Some p /\
   ((criticalIssue n = TemperatureCritical (Perf.temperature_celsius p) /\
       Perf.temperature_celsius p > 50) \/
    (criticalIssue n = CpuOverload (Perf.cpu_utilization_percent p) /\
       Perf.temperature_celsius p <= 50 /\ Perf.cpu_utilization_percent p > 90) \/
    (criticalIssue n = LowAvailability (Perf.availability_percent p) /\
       Perf.temperature_celsius p <= 50 /\ Perf.cpu_utilization_percent p <= 90 /\
       Perf.availability_percent p < 95))%Q.
Proof.
  intros n. split; [reflexivity|]. split; [vm_compute; reflexivity|].
  apply criticalIssue_reason; [reflexivity|vm_compute; reflexivity].
Defined.

Lemma warningIssue_reason_witness :
  let n := demo_enrich (Perf.mk "N2" 0 35 50 50 50 100 100 97) in
  status_consistent n /\ Enriched.status n = Warning /\
  exists p, Enriched.performance n = Some p /\
   ((warningIssue n = HighTemperature (Perf.temperature_celsius p) /\
       Perf.temperature_celsius p > 40) \/
    (warningIssue n = HighCpu (Perf.cpu_utilization_percent p) /\
       Perf.temperature_celsius p <= 40 /\ Perf.cpu_utilization_percent p > 70) \/
    (warningIssue n = PerformanceDegradation /\
       Perf.temperature_celsius p <= 40 /\ Perf.cpu_utilization_percent p <= 70 /\
       Perf.availability_percent p < 98))%Q.
Proof.
  intros n. split; [reflexivity|]. split; [vm_compute; reflexivity|].
  apply warningIssue_reason; [reflexivity|vm_compute; reflexivity].
Defined.

(** The example of §8 of the spec: 8 warning nodes give 5 items and
    ["+3 more warnings"]. *)
Example warningList_eight :
  let nodes := map (fun k => demo_enrich (Perf.mk "W" (Z.of_nat k) 45 50 50 50 100 100 99))
                   (seq 0 8) in
  length (warningList nodes) = 6%nat /\ last (warningList nodes) = Some (MoreWarnings 3).
Proof. vm_compute. split; reflexivity. Qed.
