(* ===== verification/Scheduler.v ===== *)
(** * Scheduler: the refresh countdown and the browser's interval table

    [startRefreshTimer] (lines 100-117), its one-second tick (lines
    108-116), [updateCountdown] (lines 120-125) and [manualRefresh]
    (lines 128-131).  The browser keeps a table of active intervals; each
    [setInterval] returns a fresh positive id and [clearInterval] removes
    one; the page's first id is a parameter ([initSched next]), since the
    clock's interval of Browser.v is created before.  The scheduler is
    written for any dashboard state [St] and any refresh action
    [updateDashboard] (a [Section] [Context]): the
    dashboard is plugged in by [Dashboard], through the class
    [Refresher] when a fact needs a property that refreshes keep. *)

From Stdlib Require Import ZArith String Lia.
From stdpp Require Import base list decidable strings pretty.
From S2P Require Import Prelude Types.

Open Scope Z_scope.

(** [padStart(2, '0')]. *)
Definition padStart2 (s : string) : string :=
  match String.length s with
  | 0%nat => "00"
  | 1%nat => "0" ++ s
  | _ => s
  end.

(** The text [updateCountdown] writes: [Auto-refresh in M:SS] with
    [M = Math.floor(c / 60)] and [SS = c % 60] padded. *)
Definition countdownString (c : Z) : string :=
  "Auto-refresh in " ++ pretty (c / 60) ++ ":" ++ padStart2 (pretty (Z.rem c 60)).

Section Scheduler.
Context {St : Type} (updateDashboard : St -> St).

Record Sched := mkSched {
  countdownTimer : Z;
  refreshIntervalId : option positive;
  intervals : list positive;   (** the active intervals running the tick *)
  nextIntervalId : positive;
  countdownText : string;      (** [#refresh-countdown] *)
  app : St
}.

Definition set_countdown (c : Z) (s : Sched) : Sched :=
  mkSched c (refreshIntervalId s) (intervals s) (nextIntervalId s) (countdownText s) (app s).

Definition set_app (a : St) (s : Sched) : Sched :=
  mkSched (countdownTimer s) (refreshIntervalId s) (intervals s) (nextIntervalId s)
          (countdownText s) a.

Definition updateCountdown (s : Sched) : Sched :=
  mkSched (countdownTimer s) (refreshIntervalId s) (intervals s) (nextIntervalId s)
          (countdownString (countdownTimer s)) (app s).

(** [clearInterval(id)]. *)
Definition clearInterval (id : positive) (s : Sched) : Sched :=
  mkSched (countdownTimer s) (refreshIntervalId s) (filter (fun i => i <> id) (intervals s))
          (nextIntervalId s) (countdownText s) (app s).

(** [refreshIntervalId = setInterval(tick, 1000)]. *)
Definition setRefreshInterval (s : Sched) : Sched :=
  mkSched (countdownTimer s) (Some (nextIntervalId s)) (intervals s ++ [nextIntervalId s])
          (Pos.succ (nextIntervalId s)) (countdownText s) (app s).

Definition startRefreshTimer (s : Sched) : Sched :=
  let s1 := updateCountdown (set_countdown refreshInterval s) in
  let s2 := match refreshIntervalId s1 with
            | Some id => clearInterval id s1
            | None => s1
            end in
  setRefreshInterval s2.

(** The interval callback of lines 108-116. *)
Definition tick (s : Sched) : Sched :=
  let s1 := updateCountdown (set_countdown (countdownTimer s - 1) s) in
  if countdownTimer s1 <=? 0 then
    set_countdown refreshInterval (set_app (updateDashboard (app s1)) s1)
  else s1.

Definition manualRefresh (s : Sched) : Sched :=
  set_countdown refreshInterval (set_app (updateDashboard (app s)) s).

(** The events of the page: an interval firing, the manual-refresh
    button, and a (re)start of the timer. *)
Inductive Event := Fire (id : positive) | ManualClick | Start.

(** A fired interval runs the tick only while it is active. *)
Definition step (s : Sched) (e : Event) : Sched :=
  match e with
  | Fire id => if decide (id ∈ intervals s) then tick s else s
  | ManualClick => manualRefresh s
  | Start => startRefreshTimer s
  end.

Definition run (s : Sched) (es : list Event) : Sched := fold_left step es s.

(** One second of wall-clock time: every active interval fires once. *)
Definition second (s : Sched) : Sched := run s (map Fire (intervals s)).

(** The state before [startRefreshTimer] (lines 5-7); [next] is the id
    the browser will give the next [setInterval] of the page. *)
Definition initSched (next : positive) (a : St) : Sched :=
  mkSched refreshInterval None [] next "" a.

(** Reachable states, by rule induction. *)
Inductive reachable (next : positive) (a : St) : Sched -> Prop :=
  | reach_init : reachable next a (initSched next a)
  | reach_step s e : reachable next a s -> reachable next a (step s e).

(** The invariant: at most one active interval, the one whose id is kept,
    ids below [nextIntervalId], and the countdown in [[1, 180]]. *)
Definition sched_inv (s : Sched) : Prop :=
  (1 <= countdownTimer s <= refreshInterval) /\
  match refreshIntervalId s with
  | None => intervals s = []
  | Some id => intervals s = [id] /\ (id < nextIntervalId s)%positive
  end.

(** The ids the timer holds, and the one it hands out next, are all at
    least [next]. *)
Definition ids_from (next : positive) (s : Sched) : Prop :=
  (next <= nextIntervalId s)%positive /\ Forall (fun id => (next <= id)%positive) (intervals s).
End Scheduler.

Arguments Sched : clear implicits.

(** ** Reading the countdown text back

    [decodeCountdown] reads ["Auto-refresh in M:SS"] with a decimal [M]
    and exactly two decimal digits [SS] as [60 * M + SS]. *)

Fixpoint digits_go (s : string) (acc : Z) : option Z :=
  match s with
  | EmptyString => Some acc
  | String a s' =>
      let d := Z.of_nat (Ascii.nat_of_ascii a) - 48 in
      if (0 <=? d) && (d <=? 9) then digits_go s' (10 * acc + d) else None
  end.

Definition parse_digits (s : string) : option Z :=
  match s with EmptyString => None | _ => digits_go s 0 end.

Definition countdownPrefix : string := "Auto-refresh in ".

Definition decodeCountdown (s : string) : option Z :=
  let n := String.length countdownPrefix in
  if String.prefix countdownPrefix s then
    let rest := String.substring n (String.length s - n) s in
    match String.index 0 ":" rest with
    | Some i =>
        let ss := String.substring (S i) (String.length rest - S i) rest in
        match parse_digits (String.substring 0 i rest), parse_digits ss with
        | Some m, Some sec =>
            if (String.length ss =? 2)%nat && (sec <? 60) then Some (60 * m + sec) else None
        | _, _ => None
        end
    | None => None
    end
  else None.

(** ** Lemmas *)

Section SchedulerFacts.
Context {St : Type} (updateDashboard : St -> St).

Lemma tick_countdown (s : Sched St) :
  countdownTimer (tick updateDashboard s) =
    if countdownTimer s - 1 <=? 0 then refreshInterval else countdownTimer s - 1.
Proof. unfold tick. simpl. destruct (_ <=? 0); reflexivity. Qed.

Lemma tick_app (s : Sched St) :
  app (tick updateDashboard s) =
    if countdownTimer s - 1 <=? 0 then updateDashboard (app s) else app s.
Proof. unfold tick. simpl. destruct (_ <=? 0); reflexivity. Qed.

Lemma tick_intervals (s : Sched St) :
  intervals (tick updateDashboard s) = intervals s /\
  refreshIntervalId (tick updateDashboard s) = refreshIntervalId s /\
  nextIntervalId (tick updateDashboard s) = nextIntervalId s.
Proof. unfold tick. simpl. destruct (_ <=? 0); repeat split. Qed.

Lemma tick_inv (s : Sched St) : sched_inv s -> sched_inv (tick updateDashboard s).
Proof.
  intros [Hc Hid]. destruct (tick_intervals s) as (Hi & Hr & Hn).
  split; [rewrite tick_countdown; unfold refreshInterval in *;
          destruct (Z.leb_spec (countdownTimer s - 1) 0); lia|].
  rewrite Hi, Hr, Hn. exact Hid.
Qed.

Lemma startRefreshTimer_inv (s : Sched St) :
  sched_inv s -> sched_inv (startRefreshTimer s).
Proof.
  intros [_ Hid]. unfold startRefreshTimer. simpl.
  destruct (refreshIntervalId s) as [id|]; simpl; unfold sched_inv; simpl;
    (split; [unfold refreshInterval; lia|]).
  - destruct Hid as [-> _]. split; [|lia]. simpl.
    rewrite filter_cons_False by congruence. reflexivity.
  - rewrite Hid. split; [reflexivity|lia].
Qed.

Lemma step_inv (s : Sched St) (e : Event) : sched_inv s -> sched_inv (step updateDashboard s e).
Proof.
  intros Hs. destruct e as [id| |]; simpl.
  - case_decide; [apply tick_inv, Hs|exact Hs].
  - destruct Hs as [_ Hid]. split; [simpl; unfold refreshInterval; lia|exact Hid].
  - apply startRefreshTimer_inv, Hs.
Qed.

Lemma startRefreshTimer_app (s : Sched St) : app (startRefreshTimer s) = app s.
Proof. unfold startRefreshTimer. simpl. destruct (refreshIntervalId s); reflexivity. Qed.

(** An event either leaves the dashboard alone or runs one refresh. *)
Lemma step_app (s : Sched St) (e : Event) :
  app (step updateDashboard s e) = app s \/
  app (step updateDashboard s e) = updateDashboard (app s).
Proof.
  destruct e as [id| |]; simpl.
  - case_decide; [|auto]. rewrite tick_app. destruct (_ <=? 0); auto.
  - right. reflexivity.
  - left. apply startRefreshTimer_app.
Qed.

(** Once started, the timer always holds an interval id. *)
Lemma step_keeps_interval (s : Sched St) (e : Event) :
  refreshIntervalId s <> None -> refreshIntervalId (step updateDashboard s e) <> None.
Proof.
  intros H. destruct e as [id| |]; simpl.
  - case_decide; [|exact H]. destruct (tick_intervals s) as (_ & -> & _). exact H.
  - exact H.
  - unfold startRefreshTimer. simpl. destruct (refreshIntervalId s); discriminate.
Qed.

(** One tick of the countdown after [N] seconds of the cycle: the
    countdown [180 - N mod 180] becomes [180 - (N + 1) mod 180], and the
    tick refreshes exactly when [N + 1] completes a cycle. *)
Lemma countdown_step (N : Z) :
  0 <= N ->
  let c := refreshInterval - N mod refreshInterval in
  (if c - 1 <=? 0 then refreshInterval else c - 1) = refreshInterval - (N + 1) mod refreshInterval /\
  (N + 1) / refreshInterval = N / refreshInterval + (if c - 1 <=? 0 then 1 else 0).
Proof.
  intros HN. cbv zeta. unfold refreshInterval.
  pose proof (Z.mod_pos_bound N 180 ltac:(lia)) as Hb.
  pose proof (Z.div_mod N 180 ltac:(lia)) as HdN.
  destruct (Z.leb_spec (180 - N mod 180 - 1) 0).
  - assert (Hd : (N + 1) / 180 = N / 180 + 1)
      by (symmetry; apply (Z.div_unique _ _ _ 0); lia).
    assert (Hm : (N + 1) mod 180 = 0)
      by (symmetry; apply (Z.mod_unique _ _ (N / 180 + 1)); lia).
    rewrite Hd, Hm. split; lia.
  - assert (Hd : (N + 1) / 180 = N / 180)
      by (symmetry; apply (Z.div_unique _ _ _ (N mod 180 + 1)); lia).
    assert (Hm : (N + 1) mod 180 = N mod 180 + 1)
      by (symmetry; apply (Z.mod_unique _ _ (N / 180)); lia).
    rewrite Hd, Hm. split; lia.
Qed.

(** [Nat.iter k tick] from a countdown [c]: [N = k + 180 - c] seconds of
    the cycle have passed. *)
Lemma iter_tick (k : nat) (s : Sched St) :
  1 <= countdownTimer s <= refreshInterval ->
  let N := Z.of_nat k + refreshInterval - countdownTimer s in
  countdownTimer (Nat.iter k (tick updateDashboard) s) = refreshInterval - N mod refreshInterval /\
  app (Nat.iter k (tick updateDashboard) s) =
    Nat.iter (Z.to_nat (N / refreshInterval)) updateDashboard (app s).
Proof.
  intros Hc. induction k as [|k IH]; cbn zeta in *.
  - simpl Nat.iter. unfold refreshInterval in *. split.
    + rewrite Z.mod_small by lia. lia.
    + rewrite Z.div_small by lia. reflexivity.
  - destruct IH as [IHc IHa]. rewrite Nat.iter_succ.
    rewrite tick_countdown, tick_app, IHc, IHa.
    replace (Z.of_nat (S k) + refreshInterval - countdownTimer s)
      with (Z.of_nat k + refreshInterval - countdownTimer s + 1) by lia.
    destruct (countdown_step (Z.of_nat k + refreshInterval - countdownTimer s)) as [Ec Ed];
      [unfold refreshInterval in *; lia|].
    rewrite Ec, Ed. split; [reflexivity|].
    assert (0 <= (Z.of_nat k + refreshInterval - countdownTimer s) / refreshInterval)
      by (apply Z.div_pos; unfold refreshInterval in *; lia).
    destruct (_ <=? 0); [|rewrite Z.add_0_r; reflexivity].
    rewrite Z2Nat.inj_add by lia. rewrite Nat.add_comm. reflexivity.
Qed.
End SchedulerFacts.

(** ** The scheduler's interface to the dashboard

    What the scheduler asks of the page it refreshes: a refresh action
    and a property of the page that every refresh keeps.  The scheduler's
    facts below are proved against this interface; [Dashboard] discharges
    it with [refreshPage] and its page invariant. *)
Class Refresher (St : Type) := {
  refresh : St -> St;
  refresh_ok : St -> Prop;
  refresh_preserves : forall a, refresh_ok a -> refresh_ok (refresh a)
}.

Section RefresherFacts.
Context {St : Type} `{Refresher St}.

Lemma step_refresh_ok (s : Sched St) (e : Event) :
  refresh_ok (app s) -> refresh_ok (app (step refresh s e)).
Proof.
  intros Ha. destruct (step_app refresh s e) as [-> | ->]; [exact Ha|].
  apply refresh_preserves, Ha.
Qed.

(** From a good page, every reachable state of the timer holds a good
    page. *)
Lemma reachable_refresh_ok (next : positive) (a : St) (s : Sched St) :
  refresh_ok a -> reachable refresh next a s -> refresh_ok (app s).
Proof. intros Ha. induction 1; [exact Ha|apply step_refresh_ok; assumption]. Qed.
End RefresherFacts.

Section SchedulerProperties.
Context {St : Type} (updateDashboard : St -> St).

Lemma reachable_run (next : positive) (a : St) (s : Sched St) (es : list (Event)) :
  reachable updateDashboard next a s -> reachable updateDashboard next a (run updateDashboard s es).
Proof.
  revert s. induction es as [|e es IH]; intros s Hs; [exact Hs|].
  apply IH. apply reach_step, Hs.
Qed.

Lemma reachable_inv (next : positive) (a : St) (s : Sched St) : reachable updateDashboard next a s -> sched_inv s.
Proof.
  induction 1 as [|s e _ IH].
  - unfold sched_inv; simpl; unfold refreshInterval. split; [lia|reflexivity].
  - apply step_inv, IH.
Qed.

(** One step hands out interval ids only upwards. *)
Lemma step_ids_from (next : positive) (s : Sched St) (e : Event) :
  ids_from next s -> ids_from next (step updateDashboard s e).
Proof.
  unfold ids_from. intros [IHn IHi]. destruct e as [id| |]; cbn [step].
  - case_decide; [|split; auto]. destruct (tick_intervals updateDashboard s) as (-> & _ & ->).
    split; auto.
  - split; auto.
  - unfold startRefreshTimer. cbn [refreshIntervalId updateCountdown set_countdown].
    assert (Hf : forall l, Forall (fun id => (next <= id)%positive) l ->
      Forall (fun id => (next <= id)%positive) (l ++ [nextIntervalId s]))
      by (intros l Hl; apply Forall_app; split; [exact Hl|repeat constructor; lia]).
    destruct (refreshIntervalId s);
      cbn [nextIntervalId intervals setRefreshInterval clearInterval updateCountdown set_countdown];
      (split; [lia|apply Hf]); [|exact IHi].
    rewrite Forall_forall in IHi |- *. intros x Hx.
    apply list_elem_of_filter in Hx as [_ Hx]. auto.
Qed.

Lemma ids_from_mono (next next' : positive) (s : Sched St) :
  (next' <= next)%positive -> ids_from next s -> ids_from next' s.
Proof.
  intros Hle [Hn Hi]. split; [lia|]. eapply Forall_impl; [exact Hi|]. simpl. lia.
Qed.

(** Every interval id the timer holds was handed out after [next]. *)
Lemma reachable_ids_from (next : positive) (a : St) (s : Sched St) :
  reachable updateDashboard next a s -> ids_from next s.
Proof.
  induction 1; [unfold ids_from; cbn [initSched nextIntervalId intervals]; split; [lia|constructor]|].
  apply step_ids_from. assumption.
Qed.

Lemma second_is_tick (next : positive) (a : St) (s : Sched St) :
  reachable updateDashboard next a s ->
  second updateDashboard s =
    match refreshIntervalId s with Some _ => tick updateDashboard s | None => s end.
Proof.
  intros Hr. destruct (reachable_inv next a s Hr) as [_ Hid]. unfold second, run.
  destruct (refreshIntervalId s) as [id|].
  - destruct Hid as [Hi _]. rewrite Hi. simpl. case_decide as Hin; [reflexivity|].
    rewrite Hi in Hin. exfalso. apply Hin. left.
  - rewrite Hid. reflexivity.
Qed.

Lemma iter_second (next : positive) (a : St) (s : Sched St) (id : positive) (k : nat) :
  reachable updateDashboard next a s -> refreshIntervalId s = Some id ->
  Nat.iter k (second updateDashboard) s = Nat.iter k (tick updateDashboard) s /\
  reachable updateDashboard next a (Nat.iter k (second updateDashboard) s) /\
  refreshIntervalId (Nat.iter k (second updateDashboard) s) = Some id.
Proof.
  intros Hr Hid. induction k as [|k (IHe & IHr & IHid)]; [auto|].
  rewrite !Nat.iter_succ. split; [|split].
  - rewrite (second_is_tick next a _ IHr), IHid, IHe. reflexivity.
  - unfold second at 1. apply reachable_run, IHr.
  - rewrite (second_is_tick next a _ IHr), IHid. destruct (tick_intervals updateDashboard
      (Nat.iter k (second updateDashboard) s)) as (_ & -> & _). exact IHid.
Qed.
End SchedulerProperties.

(** ** Properties *)

(** C37: the countdown text is faithful: for every countdown value the
    timer can hold, [0] to [180], the text [updateCountdown] writes reads
    back as that value, with the seconds always written as two digits
    ([3:05], not [3:5]). *)
Theorem countdownString_roundtrip (c : Z) :
  0 <= c <= 180 -> decodeCountdown (countdownString c) = Some c.
Proof.
  intros Hc.
  assert (H : forallb (fun k => bool_decide (decodeCountdown (countdownString (Z.of_nat k))
                                              = Some (Z.of_nat k))) (seq 0 181) = true)
    by (vm_compute; reflexivity).
  rewrite forallb_forall in H. specialize (H (Z.to_nat c)).
  rewrite Z2Nat.id in H by lia. apply (bool_decide_eq_true _), H, in_seq. lia.
Qed.

(** C11: in every reachable state of the page the countdown lies in
    [[1, 180]], and at most one interval is active: the one whose id
    [refreshIntervalId] holds (restarting clears the previous one). *)
Theorem reachable_sched_inv {St : Type} (updateDashboard : St -> St) (next : positive) (a : St) (s : Sched St) :
  reachable updateDashboard next a s ->
  (1 <= countdownTimer s <= 180) /\
  match refreshIntervalId s with
  | None => intervals s = []
  | Some id => intervals s = [id]
  end.
Proof.
  intros Hr. destruct (reachable_inv updateDashboard next a s Hr) as [Hc Hid].
  split; [exact Hc|]. destruct (refreshIntervalId s); [apply Hid|exact Hid].
Qed.

(** C12: once the timer runs, after [k] seconds from a countdown [c] the
    dashboard has been refreshed [(k + 180 - c) / 180] times and the
    countdown reads [180 - (k + 180 - c) mod 180]: a refresh every 180
    seconds. *)
Theorem refresh_every_180 {St : Type} (updateDashboard : St -> St) (next : positive) (a : St) (s : Sched St)
    (id : positive) (k : nat) :
  reachable updateDashboard next a s -> refreshIntervalId s = Some id ->
  let N := Z.of_nat k + 180 - countdownTimer s in
  countdownTimer (Nat.iter k (second updateDashboard) s) = 180 - N mod 180 /\
  app (Nat.iter k (second updateDashboard) s) =
    Nat.iter (Z.to_nat (N / 180)) updateDashboard (app s).
Proof.
  intros Hr Hid N. destruct (iter_second updateDashboard next a s id k Hr Hid) as (-> & _ & _).
  apply iter_tick. apply (reachable_inv updateDashboard next a s Hr).
Qed.

(** C38: the tick that refreshes leaves ["Auto-refresh in 0:00"] on
    screen while the countdown is back at 180, and a manual refresh resets
    the countdown without updating the text. *)
Theorem countdown_display_lag {St : Type} (updateDashboard : St -> St) (s : Sched St) :
  countdownTimer s = 1 ->
  countdownText (tick updateDashboard s) = "Auto-refresh in 0:00"%string /\
  countdownTimer (tick updateDashboard s) = 180 /\
  countdownText (manualRefresh updateDashboard s) = countdownText s /\
  countdownTimer (manualRefresh updateDashboard s) = 180.
Proof.
  intros Hc. unfold tick, manualRefresh. simpl. rewrite Hc. simpl.
  repeat split; reflexivity.
Qed.

(** ** Witnesses: a dashboard that counts its refreshes *)

Definition restarted_twice : Sched nat :=
  run S (initSched 1 0%nat) [Start; Start].

Lemma restarted_twice_reachable : reachable S 1 0%nat restarted_twice.
Proof. apply reachable_run. constructor. Qed.

Lemma reachable_sched_inv_witness :
  reachable S 1 0%nat restarted_twice /\
  (1 <= countdownTimer restarted_twice <= 180) /\ intervals restarted_twice = [2%positive].
Proof.
  split; [exact restarted_twice_reachable|].
  pose proof (reachable_sched_inv S 1 0%nat restarted_twice restarted_twice_reachable) as [Hc Hi].
  split; [exact Hc|exact Hi].
Defined.

Lemma refresh_every_180_witness :
  reachable S 1 0%nat restarted_twice /\ refreshIntervalId restarted_twice = Some 2%positive /\
  app (Nat.iter 400 (second S) restarted_twice) = 2%nat.
Proof.
  split; [exact restarted_twice_reachable|]. split; [reflexivity|].
  destruct (refresh_every_180 S 1 0%nat restarted_twice 2 400 restarted_twice_reachable eq_refl)
    as [_ ->].
  reflexivity.
Defined.

Lemma countdownString_roundtrip_witness :
  (0 <= 125 <= 180) /\ decodeCountdown "Auto-refresh in 2:05" = Some 125.
Proof.
  split; [lia|]. change "Auto-refresh in 2:05"%string with (countdownString 125).
  apply countdownString_roundtrip. lia.
Defined.

Lemma countdown_display_lag_witness :
  countdownTimer (set_countdown 1 restarted_twice) = 1 /\
  countdownText (tick S (set_countdown 1 restarted_twice)) = "Auto-refresh in 0:00"%string.
Proof.
  split; [reflexivity|]. apply (countdown_display_lag S (set_countdown 1 restarted_twice)).
  reflexivity.
Defined.
