(* ===== verification/Dashboard.v ===== *)
(** * Dashboard: the refresh cycle, start-up, and the page as a whole

    [updateDashboard] (lines 256-265) runs every view of a cycle in the
    order of the code; [updateTemperatureChart] and
    [updateUtilizationChart] ignore the nodes they are passed and call
    [getFilteredData] again, so one cycle simulates three snapshots.  The
    start-up handler (lines 19-55) joins the two [loadCSV] promises of
    Loader.v with [Promise.all] over what PapaParse reports for each file,
    and shows a single alert if either fails.  The page is the scheduler of
    [Scheduler] instantiated with this [updateDashboard]; its listeners
    (lines 43-46), filter edits and the wall clock moving on between
    callbacks are the events of [pageStep], and
    [running] collects, by rule induction, the pages a successful start-up
    can reach. *)

From Stdlib Require Import QArith ZArith String Lqa Lia.
From stdpp Require Import base list decidable strings.
From S2P Require Import Prelude Types Plots Loader Session Classifier Simulator Filter Views Charts Maintenance Scheduler.

Open Scope noc_scope.

(** The DOM controls the cycle reads. *)
Record Controls := mkControls {
  selection : Selection;
  tempViewType : string;       (** [#temp-view-selector] *)
  metricType : string          (** [#utilization-metric] *)
}.

(** Everything one cycle hands to the DOM and to Plotly. *)
Record Render := mkRender {
  networkStatus : NetworkStatus;
  networkMap : MapPlot;
  keyMetrics : option KeyMetrics;
  temperatureChart : BarPlot;
  utilizationChart : BarPlot;
  alerts : Alerts
}.

Definition updateDashboard (ctl : Controls) : ST Render :=
  r <- getFilteredData (selection ctl) ;;
  let nodes := fst r in
  let ns := updateNetworkStatus nodes in
  let mp := updateNetworkMap nodes in
  km <- updateKeyMetrics nodes ;;
  tc <- updateTemperatureChart (selection ctl) (tempViewType ctl) ;;
  uc <- updateUtilizationChart (selection ctl) (metricType ctl) ;;
  al <- updateMaintenanceAlerts nodes ;;
  st_ret (mkRender ns mp km tc uc al).

(** The page's state: the data globals and what is on screen. *)
Record Page := mkPage { globals : Globals; controls : Controls; screen : option Render }.

Definition refreshPage (p : Page) : Page :=
  let '(r, g') := updateDashboard (controls p) (globals p) in
  mkPage g' (controls p) (Some r).

(** The page with its refresh scheduler. *)
Definition System := Sched Page.

(** The [node_id] cell of a loaded row (ids are strings in this model). *)
Definition nodeIdCell (n : Node.t) : Cell := CStr (Node.node_id n).

Definition perfIdCell (p : Perf.t) : Cell := CStr (Perf.node_id p).

(** [results.data.filter(row => row.node_id)] on string ids: rows with an
    empty id are dropped. *)
Definition keepNodeRows (rows : list Node.t) : list Node.t :=
  filter (fun n => Node.node_id n <> ""%string) rows.

Definition keepPerfRows (rows : list Perf.t) : list Perf.t :=
  filter (fun p => Perf.node_id p <> ""%string) rows.

(** The outcome of the start-up: the alert of line 49, or the running page
    with its filter options. *)
Inductive Startup :=
  | LoadFailed
  | Started (options : list string * list string) (sys : System).

(** Lines 19-50, given what [Papa.parse] reports for each file: the two
    [loadCSV] promises are joined by [Promise.all]; its rejection ends in
    the alert of the [catch].  [next] is the id the browser gives the
    page's next [setInterval]. *)
Definition startDashboard (next : positive) (nodesRes : ParseResult Node.t)
    (perfRes : ParseResult Perf.t) (ctl : Controls) (rng : Rng) (clock : Z) : Startup :=
  match promiseAll (loadCSV nodeIdCell nodesRes) (loadCSV perfIdCell perfRes) with
  | Resolved (nodes, perf) =>
      let g := mkGlobals nodes perf 0 rng clock in
      let options := initializeFilters (nodesData g) in
      let p := refreshPage (mkPage g ctl None) in
      Started options (startRefreshTimer (initSched next p))
  | Rejected _ => LoadFailed
  end.

(** ** The page's events

    Besides the refresh timer, the page listens to [#apply-filters]
    (line 43, [updateDashboard] without touching the countdown),
    [#manual-refresh] (line 44, the scheduler's [ManualClick]) and the two
    chart selectors (lines 45-46), whose [change] handlers run one chart
    update on its own: [Plotly.newPlot] replaces that chart and nothing
    else on the screen.  Editing a filter selector changes what the next
    cycle reads and redraws nothing. *)

Definition set_temperatureChart (tc : BarPlot) (r : Render) : Render :=
  mkRender (networkStatus r) (networkMap r) (keyMetrics r) tc (utilizationChart r) (alerts r).

Definition set_utilizationChart (uc : BarPlot) (r : Render) : Render :=
  mkRender (networkStatus r) (networkMap r) (keyMetrics r) (temperatureChart r) uc (alerts r).

(** [addEventListener('change', updateTemperatureChart)]: the selector now
    holds [v], which [updateTemperatureChart] reads (line 413). *)
Definition changeTempView (v : string) (p : Page) : Page :=
  let ctl := mkControls (selection (controls p)) v (metricType (controls p)) in
  let '(tc, g') := updateTemperatureChart (selection ctl) (tempViewType ctl) (globals p) in
  mkPage g' ctl (option_map (set_temperatureChart tc) (screen p)).

(** [addEventListener('change', updateUtilizationChart)] (line 518). *)
Definition changeMetric (m : string) (p : Page) : Page :=
  let ctl := mkControls (selection (controls p)) (tempViewType (controls p)) m in
  let '(uc, g') := updateUtilizationChart (selection ctl) (metricType ctl) (globals p) in
  mkPage g' ctl (option_map (set_utilizationChart uc) (screen p)).

Definition editFilters (sel : Selection) (p : Page) : Page :=
  mkPage (globals p) (mkControls sel (tempViewType (controls p)) (metricType (controls p)))
         (screen p).

(** The wall clock reads [t] when the next callback runs. *)
Definition setPageNow (t : Z) (p : Page) : Page :=
  mkPage (set_now t (globals p)) (controls p) (screen p).

Inductive PageEvent :=
  | TimerEvent (e : Event)        (** an interval firing, [#manual-refresh], a restart *)
  | ApplyFilters                  (** [#apply-filters] click *)
  | TempViewChange (v : string)   (** [#temp-view-selector] change *)
  | MetricChange (m : string)     (** [#utilization-metric] change *)
  | FilterEdit (sel : Selection)  (** a filter selector edited *)
  | TimePasses (t : Z).           (** the wall clock moves on to [t] *)

Definition pageStep (sys : System) (e : PageEvent) : System :=
  match e with
  | TimerEvent e => step refreshPage sys e
  | ApplyFilters => set_app (refreshPage (app sys)) sys
  | TempViewChange v => set_app (changeTempView v (app sys)) sys
  | MetricChange m => set_app (changeMetric m (app sys)) sys
  | FilterEdit sel => set_app (editFilters sel (app sys)) sys
  | TimePasses t => set_app (setPageNow t (app sys)) sys
  end.

(** The systems a started page can be in, by rule induction: start-up with
    the two loaded files, then any sequence of events. *)
Inductive running (nodes : list Node.t) (perf : list Perf.t) : System -> Prop :=
  | running_start next ctl rng clock opts sys :
      startDashboard next (ParseComplete nodes) (ParseComplete perf) ctl rng clock =
        Started opts sys ->
      running nodes perf sys
  | running_step sys e : running nodes perf sys -> running nodes perf (pageStep sys e).

(** What every running page keeps: the loaded rows, a rendered screen, and
    a cursor that has advanced by whole simulations from 0. *)
Definition page_inv (nodes : list Node.t) (perf : list Perf.t) (p : Page) : Prop :=
  nodesData (globals p) = keepNodeRows nodes /\
  performanceData (globals p) = keepPerfRows perf /\
  screen p <> None /\
  (150 <= simulatedDataIndex (globals p))%Z /\ (simulatedDataIndex (globals p) mod 50 = 0)%Z.

(** ** Lemmas: how far a computation moves [simulatedDataIndex] *)

Definition shifts_to (k : Z) (g g' : Globals) : Prop :=
  simulatedDataIndex g' = (simulatedDataIndex g + k)%Z /\
  nodesData g' = nodesData g /\ performanceData g' = performanceData g /\ now g' = now g.

Definition shifts {A} (k : Z) (m : ST A) : Prop := forall g, shifts_to k g (snd (m g)).

Lemma shifts_rng_only {A} (m : ST A) : rng_only m -> shifts 0 m.
Proof. intros Hm g. destruct (Hm g) as (Hn & Hp & Hi & Ht & _). split; [lia|]. auto. Qed.

Lemma shifts_bind {A B} (k1 k2 : Z) (m : ST A) (f : A -> ST B) :
  shifts k1 m -> (forall x, shifts k2 (f x)) -> shifts (k1 + k2) (st_bind m f).
Proof.
  intros Hm Hf g. unfold st_bind. specialize (Hm g).
  destruct (m g) as [x g1]. simpl in Hm. destruct (Hf x g1) as (Hi & Hn & Hp & Ht).
  destruct Hm as (Hi1 & Hn1 & Hp1 & Ht1). split; [lia|]. repeat split; congruence.
Qed.

Lemma shifts_ret {A} (x : A) : shifts 0 (st_ret x).
Proof. apply shifts_rng_only, rng_only_ret. Qed.

Lemma rng_only_perturb (row : Perf.t) : rng_only (perturb row).
Proof. unfold perturb, addVariation. solve_rng_only. Qed.

Lemma rng_only_injectIssue (row : Perf.t) : rng_only (injectIssue row).
Proof. unfold injectIssue. solve_rng_only. Qed.

Lemma rng_only_simulateNode (baseData : list Perf.t) (nodeId : string) :
  rng_only (simulateNode baseData nodeId).
Proof.
  unfold simulateNode. destruct (findRow baseData nodeId); [|apply rng_only_ret].
  apply rng_only_bind; [apply rng_only_Date_now|]. intros ts.
  apply rng_only_bind; [apply rng_only_perturb|]. intros r1.
  apply rng_only_bind; [apply rng_only_injectIssue|]. intros r2. apply rng_only_ret.
Qed.

Lemma rng_only_forEachPush {A B} (f : A -> ST (option B)) (xs : list A) :
  (forall x, rng_only (f x)) -> rng_only (forEachPush f xs).
Proof.
  intros Hf. induction xs as [|x xs IH]; simpl; [apply rng_only_ret|].
  apply rng_only_bind; [apply Hf|]. intros o.
  apply rng_only_bind; [exact IH|]. intros rest. apply rng_only_ret.
Qed.

Lemma shifts_generate : shifts 50 generateCurrentPerformanceData.
Proof.
  intros g.
  set (B := baseDataOf (performanceData g) (simulatedDataIndex g)).
  set (g1 := set_simulatedDataIndex (simulatedDataIndex g + 50) g).
  assert (E : generateCurrentPerformanceData g =
              forEachPush (simulateNode B) (set_from (map Perf.node_id B)) g1) by reflexivity.
  unfold shifts_to. rewrite E.
  destruct (rng_only_forEachPush _ (set_from (map Perf.node_id B)) (rng_only_simulateNode B) g1)
    as (Hn & Hp & Hi & Ht & _).
  rewrite Hn, Hp, Hi, Ht. subst g1. cbn [set_simulatedDataIndex simulatedDataIndex nodesData
    performanceData now]. auto.
Qed.

Lemma shifts_getFilteredData (sel : Selection) : shifts 50 (getFilteredData sel).
Proof.
  unfold getFilteredData. replace 50%Z with (0 + (50 + 0))%Z by lia.
  apply shifts_bind; [apply shifts_rng_only; intros g; apply frame_refl|]. intros g.
  apply shifts_bind; [apply shifts_generate|]. intros perf. apply shifts_ret.
Qed.

Lemma rng_only_trendLoop (m : Q) (i : nat) (v : Q) (data : list Q) :
  rng_only (trendLoop m i v data).
Proof.
  revert v data. induction i as [|i IH]; intros v data; simpl; [apply rng_only_ret|].
  apply rng_only_bind; [apply rng_only_Math_random|]. intros r. apply IH.
Qed.

Lemma rng_only_getRandomTrendData (v m : Q) : rng_only (getRandomTrendData v m).
Proof.
  unfold getRandomTrendData. apply rng_only_bind; [|intros data; apply rng_only_ret].
  apply (rng_only_ext _ (trendLoop m 10 v [])); [|apply rng_only_trendLoop].
  intros g. apply trendFor_trendLoop. reflexivity.
Qed.

Lemma rng_only_updateKeyMetrics (nodes : list Enriched.t) : rng_only (updateKeyMetrics nodes).
Proof.
  unfold updateKeyMetrics. destruct nodes as [|n rest]; [apply rng_only_ret|].
  apply rng_only_bind; [apply rng_only_getRandomTrendData|]. intros t1.
  apply rng_only_bind; [apply rng_only_getRandomTrendData|]. intros t2.
  apply rng_only_bind; [apply rng_only_getRandomTrendData|]. intros t3.
  apply rng_only_ret.
Qed.

Lemma rng_only_updateMaintenanceAlerts (nodes : list Enriched.t) :
  rng_only (updateMaintenanceAlerts nodes).
Proof.
  unfold updateMaintenanceAlerts. apply rng_only_bind; [|intros; apply rng_only_ret].
  unfold generateMaintenanceSchedule. cbv zeta.
  assert (Hu : forall n, rng_only (urgentItem n)).
  { intros n. unfold urgentItem. apply rng_only_bind; [apply rng_only_Math_random|].
    intros r. apply rng_only_bind; [apply rng_only_Date_now|]. intros t. apply rng_only_ret. }
  assert (Hs : forall n, rng_only (scheduledItem n)).
  { intros n. unfold scheduledItem. apply rng_only_bind; [apply rng_only_Math_random|].
    intros r. apply rng_only_bind; [apply rng_only_Date_now|]. intros t. apply rng_only_ret. }
  destruct (nodesWithStatus Critical nodes), (nodesWithStatus Warning nodes);
    try apply rng_only_ret;
    (apply rng_only_bind; [apply rng_only_st_map, Hu|]; intros u;
     apply rng_only_bind; [apply rng_only_st_map, Hs|]; intros v; apply rng_only_ret).
Qed.

Lemma shifts_charts (sel : Selection) (view metric : string) :
  shifts 50 (updateTemperatureChart sel view) /\ shifts 50 (updateUtilizationChart sel metric).
Proof.
  split; [unfold updateTemperatureChart|unfold updateUtilizationChart];
    replace 50%Z with (50 + 0)%Z by lia;
    (apply shifts_bind; [apply shifts_getFilteredData|]); intros r;
    [|destruct (utilizationMetric metric)]; apply shifts_ret.
Qed.

Lemma shifts_updateDashboard (ctl : Controls) : shifts 150 (updateDashboard ctl).
Proof.
  replace 150%Z with (50 + (0 + (50 + (50 + (0 + 0)))))%Z by lia.
  unfold updateDashboard.
  apply shifts_bind; [apply shifts_getFilteredData|]. intros r. cbv zeta.
  apply shifts_bind; [apply shifts_rng_only, rng_only_updateKeyMetrics|]. intros km.
  apply shifts_bind; [apply (proj1 (shifts_charts _ _ (metricType ctl)))|]. intros tc.
  apply shifts_bind; [apply (proj2 (shifts_charts _ (tempViewType ctl) _))|]. intros uc.
  apply shifts_bind; [apply shifts_rng_only, rng_only_updateMaintenanceAlerts|]. intros al.
  apply shifts_ret.
Qed.

(** ** Lemmas: the invariant of a running page *)

(** A page action that advances the cursor by a multiple of 50, keeps the
    loaded rows and leaves something on screen keeps [page_inv]. *)
Lemma page_inv_advance (nodes : list Node.t) (perf : list Perf.t) (p : Page) (g' : Globals)
    (ctl : Controls) (scr : option Render) (k : Z) :
  page_inv nodes perf p -> scr <> None -> (0 <= k)%Z -> (k mod 50 = 0)%Z ->
  simulatedDataIndex g' = (simulatedDataIndex (globals p) + k)%Z ->
  nodesData g' = nodesData (globals p) -> performanceData g' = performanceData (globals p) ->
  page_inv nodes perf (mkPage g' ctl scr).
Proof.
  intros (Hn & Hp & _ & Hlo & Hm) Hs Hk Hkm Hi Hn' Hp'. unfold page_inv; cbn [globals screen].
  rewrite Hn', Hp', Hi. repeat split; auto; [lia|].
  rewrite Z.add_mod, Hm, Hkm by lia. reflexivity.
Qed.

Lemma option_map_not_None {A B} (f : A -> B) (o : option A) :
  o <> None -> option_map f o <> None.
Proof. destruct o; [discriminate|contradiction]. Qed.

Lemma refreshPage_globals (p : Page) :
  shifts_to 150 (globals p) (globals (refreshPage p)) /\ screen (refreshPage p) <> None /\
  controls (refreshPage p) = controls p.
Proof.
  unfold refreshPage. pose proof (shifts_updateDashboard (controls p) (globals p)) as Hs.
  destruct (updateDashboard (controls p) (globals p)) as [r g']. split; [exact Hs|].
  split; [discriminate|reflexivity].
Qed.

Lemma refreshPage_inv (nodes : list Node.t) (perf : list Perf.t) (p : Page) :
  page_inv nodes perf p -> page_inv nodes perf (refreshPage p).
Proof.
  intros H. destruct (refreshPage_globals p) as ((Hi & Hn & Hp & _) & Hs & _).
  destruct (refreshPage p) as [g' ctl scr]. cbn [globals screen] in *.
  eapply page_inv_advance; eauto; [lia|reflexivity].
Qed.

(** The page is the scheduler's client: a refresh keeps [page_inv]. *)
#[export] Instance page_refresher (nodes : list Node.t) (perf : list Perf.t) : Refresher Page := {
  refresh := refreshPage;
  refresh_ok := page_inv nodes perf;
  refresh_preserves := refreshPage_inv nodes perf
}.

Lemma changeTempView_inv (nodes : list Node.t) (perf : list Perf.t) (v : string) (p : Page) :
  page_inv nodes perf p -> page_inv nodes perf (changeTempView v p).
Proof.
  intros H. unfold changeTempView. cbv zeta. cbn [selection tempViewType].
  destruct (proj1 (shifts_charts (selection (controls p)) v "") (globals p)) as (Hi & Hn & Hp & _).
  destruct (updateTemperatureChart _ _ (globals p)) as [tc g']. cbn [snd] in *.
  eapply page_inv_advance; eauto; [apply option_map_not_None, H|lia|reflexivity].
Qed.

Lemma changeMetric_inv (nodes : list Node.t) (perf : list Perf.t) (m : string) (p : Page) :
  page_inv nodes perf p -> page_inv nodes perf (changeMetric m p).
Proof.
  intros H. unfold changeMetric. cbv zeta. cbn [selection metricType].
  destruct (proj2 (shifts_charts (selection (controls p)) "" m) (globals p)) as (Hi & Hn & Hp & _).
  destruct (updateUtilizationChart _ _ (globals p)) as [uc g']. cbn [snd] in *.
  eapply page_inv_advance; eauto; [apply option_map_not_None, H|lia|reflexivity].
Qed.

Lemma editFilters_inv (nodes : list Node.t) (perf : list Perf.t) (sel : Selection) (p : Page) :
  page_inv nodes perf p -> page_inv nodes perf (editFilters sel p).
Proof.
  intros H. apply (page_inv_advance _ _ p (globals p) _ _ 0); auto; try lia. apply H.
Qed.

Lemma pageStep_inv (nodes : list Node.t) (perf : list Perf.t) (sys : System) (e : PageEvent) :
  sched_inv sys -> refreshIntervalId sys <> None -> page_inv nodes perf (app sys) ->
  sched_inv (pageStep sys e) /\ refreshIntervalId (pageStep sys e) <> None /\
  page_inv nodes perf (app (pageStep sys e)).
Proof.
  intros Hs Hid Hp. destruct e as [e| | | | |]; cbn [pageStep].
  - split; [apply step_inv, Hs|]. split; [apply step_keeps_interval, Hid|].
    exact (step_refresh_ok (H := page_refresher nodes perf) sys e Hp).
  - split; [exact Hs|]. split; [exact Hid|]. apply refreshPage_inv, Hp.
  - split; [exact Hs|]. split; [exact Hid|]. apply changeTempView_inv, Hp.
  - split; [exact Hs|]. split; [exact Hid|]. apply changeMetric_inv, Hp.
  - split; [exact Hs|]. split; [exact Hid|]. apply editFilters_inv, Hp.
  - split; [exact Hs|]. split; [exact Hid|]. apply Hp.
Qed.

Lemma refreshPage_now (p : Page) : now (globals (refreshPage p)) = now (globals p).
Proof. apply (proj1 (refreshPage_globals p)). Qed.

(** Only [TimePasses] moves the page's clock. *)
Lemma pageStep_now (sys : System) (e : PageEvent) :
  now (globals (app (pageStep sys e))) =
    match e with TimePasses t => t | _ => now (globals (app sys)) end.
Proof.
  destruct e as [e| |v|m|sel|t]; cbn [pageStep app set_app]; try apply refreshPage_now.
  - destruct (step_app refreshPage sys e) as [-> | ->]; [reflexivity|apply refreshPage_now].
  - unfold changeTempView. cbv zeta. cbn [selection tempViewType].
    destruct (proj1 (shifts_charts (selection (controls (app sys))) v "") (globals (app sys)))
      as (_ & _ & _ & Ht).
    destruct (updateTemperatureChart _ _ _). exact Ht.
  - unfold changeMetric. cbv zeta. cbn [selection metricType].
    destruct (proj2 (shifts_charts (selection (controls (app sys))) "" m) (globals (app sys)))
      as (_ & _ & _ & Ht).
    destruct (updateUtilizationChart _ _ _). exact Ht.
  - reflexivity.
  - reflexivity.
Qed.

Lemma pageStep_ids_from (next : positive) (sys : System) (e : PageEvent) :
  ids_from next sys -> ids_from next (pageStep sys e).
Proof. intros H. destruct e; cbn [pageStep]; [apply step_ids_from, H|exact H..]. Qed.

Lemma loadCSV_nodes (rows : list Node.t) :
  loadCSV nodeIdCell (ParseComplete rows) = Resolved (keepNodeRows rows).
Proof. cbn. f_equal. apply list_filter_iff. intros n. apply truthy_str. Qed.

Lemma loadCSV_perfs (rows : list Perf.t) :
  loadCSV perfIdCell (ParseComplete rows) = Resolved (keepPerfRows rows).
Proof. cbn. f_equal. apply list_filter_iff. intros p. apply truthy_str. Qed.

Lemma startDashboard_complete (next : positive) (nodes : list Node.t) (perf : list Perf.t)
    (ctl : Controls) (rng : Rng) (clock : Z) :
  startDashboard next (ParseComplete nodes) (ParseComplete perf) ctl rng clock =
  Started (initializeFilters (keepNodeRows nodes))
    (startRefreshTimer (initSched next (refreshPage
       (mkPage (mkGlobals (keepNodeRows nodes) (keepPerfRows perf) 0 rng clock) ctl None)))).
Proof. unfold startDashboard. rewrite loadCSV_nodes, loadCSV_perfs. reflexivity. Qed.

Lemma startDashboard_inv (next : positive) (nodes : list Node.t) (perf : list Perf.t)
    (ctl : Controls) (rng : Rng) (clock : Z) (opts : list string * list string) (sys : System) :
  startDashboard next (ParseComplete nodes) (ParseComplete perf) ctl rng clock = Started opts sys ->
  sched_inv sys /\ refreshIntervalId sys <> None /\ page_inv nodes perf (app sys).
Proof.
  rewrite startDashboard_complete. intros E. injection E as _ <-.
  set (p := refreshPage _).
  split; [exact (reachable_inv refreshPage next p _ (reach_step _ _ _ _ Start (reach_init _ _ _)))|].
  split; [discriminate|]. rewrite startRefreshTimer_app. cbn [app initSched].
  destruct (refreshPage_globals (mkPage (mkGlobals (keepNodeRows nodes) (keepPerfRows perf) 0 rng
    clock) ctl None)) as ((Hi & Hn & Hp & _) & Hs & _).
  fold p in Hi, Hn, Hp, Hs. cbn [globals simulatedDataIndex nodesData performanceData] in *.
  unfold page_inv. rewrite Hi, Hn, Hp. repeat split; auto; lia.
Qed.

(** A start-up that succeeds has both files parsed, runs from the browser's
    next interval id, and reads the start-up's clock. *)
Lemma startDashboard_started (next : positive) (nodesRes : ParseResult Node.t)
    (perfRes : ParseResult Perf.t) (ctl : Controls) (rng : Rng) (clock : Z)
    (opts : list string * list string) (sys : System) :
  startDashboard next nodesRes perfRes ctl rng clock = Started opts sys ->
  ids_from next sys /\ now (globals (app sys)) = clock /\
  exists nodes perf, running nodes perf sys.
Proof.
  intros E.
  assert (exists nodes perf, nodesRes = ParseComplete nodes /\ perfRes = ParseComplete perf)
    as (nodes & perf & -> & ->)
    by (destruct nodesRes as [nodes|e], perfRes as [perf|e']; [eauto| | |];
        unfold startDashboard in E; cbn in E; discriminate E).
  split; [|split]; [| |exists nodes, perf; econstructor; exact E].
  all: rewrite startDashboard_complete in E; injection E as _ <-.
  - exact (reachable_ids_from refreshPage next _ _ (reach_step _ _ _ _ Start (reach_init _ _ _))).
  - rewrite startRefreshTimer_app. cbn [app initSched]. rewrite refreshPage_now. reflexivity.
Qed.

Lemma running_inv (nodes : list Node.t) (perf : list Perf.t) (sys : System) :
  running nodes perf sys ->
  sched_inv sys /\ refreshIntervalId sys <> None /\ page_inv nodes perf (app sys).
Proof.
  induction 1 as [next ctl rng clock opts sys E|sys e _ (Hs & Hid & Hp)].
  - eapply startDashboard_inv, E.
  - apply pageStep_inv; assumption.
Qed.

(** A running page has exactly one refresh interval. *)
Lemma running_one_interval (nodes : list Node.t) (perf : list Perf.t) (sys : System) :
  running nodes perf sys -> exists id, intervals sys = [id].
Proof.
  intros Hr. destruct (running_inv nodes perf sys Hr) as ((_ & Hi) & Hid & _).
  destruct (refreshIntervalId sys) as [id|]; [exists id; apply Hi|contradiction].
Qed.

(** The status counters, the map and the alert lists of a cycle all read
    the nodes of its first [getFilteredData]. *)
Lemma updateDashboard_views (ctl : Controls) (g : Globals) :
  let nodes := fst (fst (getFilteredData (selection ctl) g)) in
  let r := fst (updateDashboard ctl g) in
  networkStatus r = updateNetworkStatus nodes /\ networkMap r = updateNetworkMap nodes /\
  criticalIssues (alerts r) = criticalList nodes /\ warningAlerts (alerts r) = warningList nodes.
Proof.
  cbv zeta. unfold updateDashboard, st_bind.
  destruct (getFilteredData (selection ctl) g) as [[nodes perf] g1]. cbn [fst snd].
  destruct (updateKeyMetrics nodes g1) as [km g2].
  destruct (updateTemperatureChart _ _ g2) as [tc g3].
  destruct (updateUtilizationChart _ _ g3) as [uc g4].
  unfold updateMaintenanceAlerts, st_bind. destruct (generateMaintenanceSchedule nodes g4) as [sc g5].
  repeat split.
Qed.

(** ** Properties *)

(** C10: one refresh cycle moves [simulatedDataIndex] by 150, not by the
    50 of one simulation: the counters, the temperature chart and the
    utilization chart each run [generateCurrentPerformanceData]. The
    loaded datasets and the clock are left unchanged. *)
Theorem updateDashboard_advances_150 (ctl : Controls) (g : Globals) :
  simulatedDataIndex (snd (updateDashboard ctl g)) = (simulatedDataIndex g + 150)%Z /\
  nodesData (snd (updateDashboard ctl g)) = nodesData g /\
  performanceData (snd (updateDashboard ctl g)) = performanceData g /\
  now (snd (updateDashboard ctl g)) = now g.
Proof. apply shifts_updateDashboard. Qed.

(** C32: start-up succeeds only when both files parse: when either
    [Papa.parse] reports an error the page ends in the single load-failure
    alert.  When both load, the rows
    without a node id are dropped, the filter options come from the kept
    nodes, a first cycle is on screen and one countdown of 180 runs. *)
Theorem startDashboard_outcome (next : positive) (nodesRes : ParseResult Node.t)
    (perfRes : ParseResult Perf.t) (ctl : Controls) (rng : Rng) (clock : Z) :
  (startDashboard next nodesRes perfRes ctl rng clock = LoadFailed <->
   (exists err, nodesRes = ParseError err) \/ (exists err, perfRes = ParseError err)) /\
  forall nodes perf, exists sys,
    startDashboard next (ParseComplete nodes) (ParseComplete perf) ctl rng clock =
      Started (initializeFilters (keepNodeRows nodes)) sys /\
    countdownTimer sys = 180%Z /\ intervals sys = [next] /\
    screen (app sys) <> None /\
    nodesData (globals (app sys)) = keepNodeRows nodes /\
    performanceData (globals (app sys)) = keepPerfRows perf /\
    Forall (fun n => Node.node_id n <> ""%string) (nodesData (globals (app sys))).
Proof.
  split.
  - destruct nodesRes as [n|e], perfRes as [p|e']; unfold startDashboard; cbn [loadCSV promiseAll];
      split; intros H;
      first [discriminate | reflexivity | (left; eexists; reflexivity)
            | (right; eexists; reflexivity) | destruct H as [[x Hx]|[x Hx]]; discriminate].
  - intros nodes perf. eexists. split; [apply startDashboard_complete|].
    unfold refreshPage.
    destruct (shifts_updateDashboard ctl
      (mkGlobals (keepNodeRows nodes) (keepPerfRows perf) 0 rng clock)) as (_ & Hn & Hp & _).
    simpl.
    destruct (updateDashboard ctl (mkGlobals (keepNodeRows nodes) (keepPerfRows perf) 0 rng clock))
      as [r g'] eqn:E.
    simpl in *.
    split; [reflexivity|]. split; [reflexivity|]. split; [discriminate|].
    rewrite Hn, Hp. split; [reflexivity|]. split; [reflexivity|].
    apply Forall_forall. intros n Hn'. unfold keepNodeRows in Hn'.
    apply list_elem_of_filter in Hn' as [Hid _]. exact Hid.
Qed.

(** C9: the views of a cycle that share its snapshot agree on every
    screen: each status counter equals the number of map markers of its
    colour (green, orange, red), and the alert count equals the number of
    nodes the maintenance panel accounts for: one per listed critical or
    warning node, plus the [N] of the ["+N more warnings"] line. *)
Theorem screen_status_views_agree (ctl : Controls) (g : Globals) :
  let r := fst (updateDashboard ctl g) in
  let colors := markerColors (map_trace (networkMap r)) in
  healthyCounts (networkStatus r) = length (filter (fun c => c = "green"%string) colors) /\
  warningCounts (networkStatus r) = length (filter (fun c => c = "orange"%string) colors) /\
  criticalCounts (networkStatus r) = length (filter (fun c => c = "red"%string) colors) /\
  totalAlerts (networkStatus r) =
    (alertsShown (criticalIssues (alerts r)) + alertsShown (warningAlerts (alerts r)))%nat.
Proof.
  cbv zeta. destruct (updateDashboard_views ctl g) as (E1 & E2 & E3 & E4).
  rewrite E1, E2, E3, E4, alertsShown_criticalList, alertsShown_warningList.
  unfold updateNetworkStatus. cbn [healthyCounts warningCounts criticalCounts totalAlerts
    map_trace markerColors updateNetworkMap].
  split; [symmetry; apply (markers_count Healthy)|].
  split; [symmetry; apply (markers_count Warning)|].
  split; [symmetry; apply (markers_count Critical)|].
  unfold countStatus, nodesWithStatus. lia.
Qed.

(** A history of 300 samples of one node [A]: 60 degrees in rows 0-49,
    20 degrees afterwards; [Math.random] always returns 1/2 (no noise, no
    fault). *)
Definition split_history : list Perf.t :=
  map (fun k => Perf.mk "A" (Z.of_nat k) (if (k <? 50)%nat then 60 else 20) 40 50 50 100 100 99)
      (seq 0 300).

Definition split_globals : Globals :=
  mkGlobals [Node.mk "A" "core-A" "router" "east" 0 0] split_history 0
            (mkRng (fun _ => 1 # 2) 0) 0.

Definition all_controls : Controls :=
  mkControls (mkSelection "all" "all" "all") "all" "cpu".

(** One screen can contradict itself: in the same cycle the status
    counters count node [A] as critical (the snapshot at cursor 0 reads 60
    degrees) while the temperature chart, drawn from the next window,
    shows [A] at 20 degrees in green. *)
Example updateDashboard_inconsistent_screen :
  let r := fst (updateDashboard all_controls split_globals) in
  criticalCounts (networkStatus r) = 1%nat /\
  map Qred (bar_y (plot_trace (temperatureChart r))) = [20%Q] /\
  bar_color (plot_trace (temperatureChart r)) = ["#28a745"%string].
Proof. vm_compute. repeat split. Qed.

(** C13: every page reachable from a successful start-up, by any sequence
    of interval firings, manual refreshes, timer restarts, filter edits,
    filter applications and chart-selector changes, has exactly one active
    refresh interval and a countdown in [[1, 180]], still holds the rows
    loaded at start-up (those with a node id), always has a screen, and
    has advanced the cursor by whole simulations of 50 rows, at least the
    three of the first cycle. *)
Theorem running_invariant (nodes : list Node.t) (perf : list Perf.t) (sys : System) :
  running nodes perf sys ->
  (1 <= countdownTimer sys <= 180)%Z /\
  (exists id, refreshIntervalId sys = Some id /\ intervals sys = [id]) /\
  nodesData (globals (app sys)) = keepNodeRows nodes /\
  performanceData (globals (app sys)) = keepPerfRows perf /\
  screen (app sys) <> None /\
  (150 <= simulatedDataIndex (globals (app sys)))%Z /\
  (simulatedDataIndex (globals (app sys)) mod 50 = 0)%Z.
Proof.
  intros Hr. destruct (running_inv nodes perf sys Hr) as ((Hc & Hi) & Hid & Hp). split; [exact Hc|]. split; [|exact Hp].
  destruct (refreshIntervalId sys) as [id|]; [|contradiction].
  exists id. split; [reflexivity|exact (proj1 Hi)].
Qed.

(** C35: changing the temperature view or the utilization metric does not
    only redraw that chart: its handler simulates a fresh snapshot,
    advancing the cursor by 50, and replaces that chart alone, so the
    chart and the rest of the screen now come from different snapshots;
    the countdown is untouched. *)
Theorem chartSelector_resimulates (sys : System) (v m : string) (r : Render) :
  screen (app sys) = Some r ->
  let p := app sys in
  let sysT := pageStep sys (TempViewChange v) in
  let sysM := pageStep sys (MetricChange m) in
  countdownTimer sysT = countdownTimer sys /\ countdownTimer sysM = countdownTimer sys /\
  simulatedDataIndex (globals (app sysT)) = (simulatedDataIndex (globals p) + 50)%Z /\
  simulatedDataIndex (globals (app sysM)) = (simulatedDataIndex (globals p) + 50)%Z /\
  screen (app sysT) =
    Some (set_temperatureChart (fst (updateTemperatureChart (selection (controls p)) v (globals p))) r) /\
  screen (app sysM) =
    Some (set_utilizationChart (fst (updateUtilizationChart (selection (controls p)) m (globals p))) r).
Proof.
  intros Hs. cbv zeta. cbn [pageStep app countdownTimer set_app].
  unfold changeTempView, changeMetric. cbv zeta. cbn [selection tempViewType metricType].
  destruct (shifts_charts (selection (controls (app sys))) v m) as [HT HM].
  destruct (HT (globals (app sys))) as (HiT & _ & _), (HM (globals (app sys))) as (HiM & _ & _).
  destruct (updateTemperatureChart _ v _) as [tc gT], (updateUtilizationChart _ m _) as [uc gM].
  cbn [fst snd globals screen] in *. rewrite Hs. repeat split; assumption.
Qed.

(** C39: the apply-filters button refreshes the page without resetting
    the countdown, unlike the manual-refresh button.  From a countdown of
    1, applying filters and then the next tick run two refreshes within one
    second.  A manual click instead restarts the countdown at 180, so the
    next tick does not refresh. *)
Theorem applyFilters_double_refresh (sys : System) :
  countdownTimer sys = 1%Z ->
  app (tick refreshPage (pageStep sys ApplyFilters)) = refreshPage (refreshPage (app sys)) /\
  countdownTimer (tick refreshPage (pageStep sys ApplyFilters)) = 180%Z /\
  app (tick refreshPage (pageStep sys (TimerEvent ManualClick))) = refreshPage (app sys) /\
  countdownTimer (tick refreshPage (pageStep sys (TimerEvent ManualClick))) = 179%Z.
Proof.
  intros Hc. rewrite !tick_app, !tick_countdown. cbn [pageStep step manualRefresh].
  cbn [countdownTimer app set_app set_countdown]. rewrite Hc. unfold refreshInterval.
  repeat split; reflexivity.
Qed.

(** The page started on [split_history]. *)
Definition demo_system : System :=
  match startDashboard 2 (ParseComplete (nodesData split_globals)) (ParseComplete split_history)
          all_controls
          (rand split_globals) 0 with
  | Started _ sys => sys
  | LoadFailed => initSched 2 (mkPage split_globals all_controls None)
  end.

Lemma demo_system_running : running (nodesData split_globals) split_history demo_system.
Proof.
  apply (running_start _ _ 2 all_controls (rand split_globals) 0%Z
           (initializeFilters (keepNodeRows (nodesData split_globals)))).
  vm_compute. reflexivity.
Qed.

Lemma running_invariant_witness :
  running (nodesData split_globals) split_history demo_system /\
  (1 <= countdownTimer demo_system <= 180)%Z /\ screen (app demo_system) <> None.
Proof.
  split; [exact demo_system_running|].
  destruct (running_invariant _ _ _ demo_system_running) as (Hc & _ & _ & _ & Hs & _).
  split; assumption.
Defined.

Lemma applyFilters_double_refresh_witness :
  countdownTimer (set_countdown 1 demo_system) = 1%Z /\
  countdownTimer (tick refreshPage (pageStep (set_countdown 1 demo_system) ApplyFilters)) = 180%Z.
Proof.
  split; [reflexivity|].
  exact (proj1 (proj2 (applyFilters_double_refresh (set_countdown 1 demo_system) eq_refl))).
Defined.

(** The screen of [demo_system]: the first cycle on [split_history]. *)
Definition demo_render : Render :=
  fst (updateDashboard all_controls (mkGlobals (keepNodeRows (nodesData split_globals))
                                                (keepPerfRows split_history) 0 (rand split_globals) 0)).

Lemma chartSelector_resimulates_witness :
  screen (app demo_system) = Some demo_render /\
  countdownTimer (pageStep demo_system (TempViewChange "critical")) = 180%Z.
Proof.
  assert (Hs : screen (app demo_system) = Some demo_render) by (vm_compute; reflexivity).
  split; [exact Hs|].
  destruct (chartSelector_resimulates demo_system "critical" "cpu" demo_render Hs) as (Hc & _).
  rewrite Hc. vm_compute. reflexivity.
Defined.
