(* ===== verification/Browser.v ===== *)
(** * Browser: the [DOMContentLoaded] handler, the clock display and
    wall-clock time

    The handler of lines 19-55 as a whole.  It starts the two loads
    ([Promise.all], line 21) and, without waiting for them, draws the
    clock ([updateCurrentTime], lines 134-138) and redraws it every second
    ([setInterval(updateCurrentTime, 1000)], lines 53-54).  Later, when the
    promise settles, the [then] callback starts the dashboard
    ([startDashboard] of [Dashboard]) or the [catch] callback shows the
    alert.  The browser holds the wall-clock time and hands out interval
    ids from one counter: the clock's interval gets its id first, the
    refresh interval of [Scheduler] a later one.  One second of time moves
    the clock by 1000 ms, lets the page see the new time, and fires every
    active interval once. *)

From Stdlib Require Import ZArith String Lia.
From stdpp Require Import base list decidable strings pretty.
From S2P Require Import Prelude Types Loader Session Filter Scheduler Dashboard.

Open Scope Z_scope.

(** [Date.prototype.toLocaleDateString] and [toLocaleTimeString] of the
    user's locale, on a time value in milliseconds. *)
Record Locale := mkLocale {
  toLocaleDateString : Z -> string;
  toLocaleTimeString : Z -> string
}.

(** Where the start-up stands: [Promise.all] still pending, its [catch]
    run (the alert of line 49), or its [then] run. *)
Inductive Phase :=
  | Loading
  | LoadError
  | Loaded (options : list string * list string) (sys : System).

Record Browser := mkBrowser {
  wallclock : Z;                     (** [Date.now()] *)
  currentTime : string;              (** [#current-time] *)
  timeIntervalId : option positive;  (** the id of [setInterval(updateCurrentTime, 1000)] *)
  nextId : positive;                 (** the browser's next interval id; once the page
                                         runs, its scheduler's [nextIntervalId] *)
  phase : Phase
}.

(** The user's actions the handler listens to once the data are loaded
    (lines 43-46) and the filter selectors. *)
Inductive UserEvent :=
  | ManualRefreshClick
  | ApplyFiltersClick
  | TempViewSelect (v : string)
  | MetricSelect (m : string)
  | FilterSelect (sel : Selection).

Definition userPageEvent (u : UserEvent) : PageEvent :=
  match u with
  | ManualRefreshClick => TimerEvent ManualClick
  | ApplyFiltersClick => ApplyFilters
  | TempViewSelect v => TempViewChange v
  | MetricSelect m => MetricChange m
  | FilterSelect sel => FilterEdit sel
  end.

(** What can happen to the page: the promise settles with what
    [Papa.parse] reported for each file, one second passes, or the user
    acts. *)
Inductive BrowserEvent :=
  | Settle (nodesRes : ParseResult Node.t) (perfRes : ParseResult Perf.t)
           (ctl : Controls) (rng : Rng)
  | Elapse
  | User (u : UserEvent).

Section Browser.
Context (loc : Locale).

Definition set_phase (ph : Phase) (b : Browser) : Browser :=
  mkBrowser (wallclock b) (currentTime b) (timeIntervalId b) (nextId b) ph.

(** The text of [#current-time] at time [t]. *)
Definition currentTimeText (t : Z) : string :=
  toLocaleDateString loc t ++ " " ++ toLocaleTimeString loc t.

(** [updateCurrentTime] (lines 134-138). *)
Definition updateCurrentTime (b : Browser) : Browser :=
  mkBrowser (wallclock b) (currentTimeText (wallclock b)) (timeIntervalId b) (nextId b) (phase b).

(** [setInterval(updateCurrentTime, 1000)] (line 54). *)
Definition setTimeInterval (b : Browser) : Browser :=
  mkBrowser (wallclock b) (currentTime b) (Some (nextId b)) (Pos.succ (nextId b)) (phase b).

(** The synchronous part of the handler at time [t0]; [first] is the id
    the browser gives the page's first [setInterval].  The loads are
    pending, then lines 53-54 run. *)
Definition domContentLoaded (t0 : Z) (first : positive) : Browser :=
  setTimeInterval (updateCurrentTime (mkBrowser t0 "" None first Loading)).

(** [Promise.all(...).then(...).catch(...)] settling (lines 21-50), once:
    a settled promise does not settle again. *)
Definition settle (nodesRes : ParseResult Node.t) (perfRes : ParseResult Perf.t)
    (ctl : Controls) (rng : Rng) (b : Browser) : Browser :=
  match phase b with
  | Loading =>
      match startDashboard (nextId b) nodesRes perfRes ctl rng (wallclock b) with
      | Started opts sys => set_phase (Loaded opts sys) b
      | LoadFailed => set_phase LoadError b
      end
  | _ => b
  end.

(** An event of the page; before the [then] callback has run no listener
    and no refresh interval exist, so nothing happens. *)
Definition onPage (e : PageEvent) (b : Browser) : Browser :=
  match phase b with
  | Loaded opts sys => set_phase (Loaded opts (pageStep sys e)) b
  | _ => b
  end.

(** An interval firing runs its callback: the clock's, or the page's
    refresh tick. *)
Definition fire (id : positive) (b : Browser) : Browser :=
  if decide (timeIntervalId b = Some id) then updateCurrentTime b
  else onPage (TimerEvent (Fire id)) b.

(** The active intervals, oldest first. *)
Definition activeIntervals (b : Browser) : list positive :=
  option_list (timeIntervalId b) ++
  match phase b with Loaded _ sys => intervals sys | _ => [] end.

(** The wall clock moves on by a second, and the page sees it. *)
Definition advanceClock (b : Browser) : Browser :=
  let t := wallclock b + 1000 in
  onPage (TimePasses t) (mkBrowser t (currentTime b) (timeIntervalId b) (nextId b) (phase b)).

(** One second: every interval active at its start fires once. *)
Definition elapse (b : Browser) : Browser :=
  let b1 := advanceClock b in
  fold_left (fun b id => fire id b) (activeIntervals b1) b1.

Definition browserStep (b : Browser) (e : BrowserEvent) : Browser :=
  match e with
  | Settle nodesRes perfRes ctl rng => settle nodesRes perfRes ctl rng b
  | Elapse => elapse b
  | User u => onPage (userPageEvent u) b
  end.

Definition browserRun (b : Browser) (es : list BrowserEvent) : Browser :=
  fold_left browserStep es b.

(** The number of seconds a sequence of events lets pass. *)
Fixpoint seconds (es : list BrowserEvent) : nat :=
  match es with
  | [] => 0%nat
  | Elapse :: es' => S (seconds es')
  | _ :: es' => seconds es'
  end.

(** The states of the page from the handler on, by rule induction. *)
Inductive browser_reachable : Browser -> Prop :=
  | br_init t0 first : browser_reachable (domContentLoaded t0 first)
  | br_step b e : browser_reachable b -> browser_reachable (browserStep b e).

(** What every state keeps: the clock interval runs, and once the page
    runs, its refresh intervals were created after it, its clock is the
    wall clock and it is a running page of [Dashboard]. *)
Definition browser_ok (b : Browser) : Prop :=
  exists cid, timeIntervalId b = Some cid /\
  match phase b with
  | Loading => (cid < nextId b)%positive
  | LoadError => True
  | Loaded _ sys =>
      ids_from (Pos.succ cid) sys /\ now (globals (app sys)) = wallclock b /\
      exists nodes perf, running nodes perf sys
  end.

(** [#current-time] shows the current time. *)
Definition display_current (b : Browser) : Prop :=
  currentTime b = currentTimeText (wallclock b).
End Browser.

(** ** Lemmas *)

Lemma onPage_frame (e : PageEvent) (b : Browser) :
  wallclock (onPage e b) = wallclock b /\ currentTime (onPage e b) = currentTime b /\
  timeIntervalId (onPage e b) = timeIntervalId b /\ nextId (onPage e b) = nextId b.
Proof. unfold onPage. destruct (phase b); repeat split. Qed.

Lemma settle_frame (nodesRes : ParseResult Node.t) (perfRes : ParseResult Perf.t)
    (ctl : Controls) (rng : Rng) (b : Browser) :
  wallclock (settle nodesRes perfRes ctl rng b) = wallclock b /\
  currentTime (settle nodesRes perfRes ctl rng b) = currentTime b /\
  timeIntervalId (settle nodesRes perfRes ctl rng b) = timeIntervalId b.
Proof.
  unfold settle. destruct (phase b); [|repeat split..].
  destruct (startDashboard _ _ _ _ _ _); repeat split.
Qed.

(** A page event other than the clock moving keeps [browser_ok]. *)
Lemma onPage_ok (e : PageEvent) (b : Browser) :
  (forall t, e <> TimePasses t) -> browser_ok b -> browser_ok (onPage e b).
Proof.
  intros He (cid & Hc & Hph). exists cid. unfold onPage. revert Hph.
  destruct (phase b) as [| |opts sys] eqn:E; intros Hph; [rewrite E; auto..|].
  cbn [phase set_phase wallclock timeIntervalId]. split; [exact Hc|].
  destruct Hph as (Hids & Hnow & nodes & perf & Hr). split; [apply pageStep_ids_from, Hids|].
  split; [|exists nodes, perf; apply running_step, Hr].
  rewrite pageStep_now. destruct e; [exact Hnow..|]. exfalso. eapply He. reflexivity.
Qed.

Lemma advanceClock_frame (b : Browser) :
  wallclock (advanceClock b) = wallclock b + 1000 /\
  currentTime (advanceClock b) = currentTime b /\
  timeIntervalId (advanceClock b) = timeIntervalId b.
Proof.
  unfold advanceClock.
  destruct (onPage_frame (TimePasses (wallclock b + 1000))
    (mkBrowser (wallclock b + 1000) (currentTime b) (timeIntervalId b) (nextId b) (phase b)))
    as (-> & -> & -> & _).
  auto.
Qed.

(** The clock moving on is seen by the page. *)
Lemma advanceClock_ok (b : Browser) : browser_ok b -> browser_ok (advanceClock b).
Proof.
  intros (cid & Hc & Hph). exists cid. unfold advanceClock, onPage. cbn [phase]. revert Hph.
  destruct (phase b) as [| |opts sys]; intros Hph; [auto..|].
  cbn [phase set_phase wallclock timeIntervalId]. split; [exact Hc|].
  destruct Hph as (Hids & _ & nodes & perf & Hr). split; [apply pageStep_ids_from, Hids|].
  split; [apply pageStep_now|exists nodes, perf; apply running_step, Hr].
Qed.

Lemma settle_ok (nodesRes : ParseResult Node.t) (perfRes : ParseResult Perf.t)
    (ctl : Controls) (rng : Rng) (b : Browser) :
  browser_ok b -> browser_ok (settle nodesRes perfRes ctl rng b).
Proof.
  intros (cid & Hc & Hph). exists cid. unfold settle. revert Hph.
  destruct (phase b) as [| |opts sys] eqn:E; intros Hph; [|rewrite E; auto..].
  destruct (startDashboard _ _ _ _ _ _) as [|opts sys] eqn:Es;
    cbn [phase set_phase timeIntervalId wallclock]; (split; [exact Hc|]); [exact I|].
  destruct (startDashboard_started _ _ _ _ _ _ _ _ Es) as (Hids & Hnow & Hr).
  split; [|split; assumption]. eapply ids_from_mono; [|exact Hids]. lia.
Qed.

Section BrowserFacts.
Context (loc : Locale).

Lemma updateCurrentTime_ok (b : Browser) : browser_ok b -> browser_ok (updateCurrentTime loc b).
Proof. intros H. exact H. Qed.

Lemma fire_ok (id : positive) (b : Browser) : browser_ok b -> browser_ok (fire loc id b).
Proof.
  intros H. unfold fire. case_decide; [apply updateCurrentTime_ok, H|].
  apply onPage_ok; [congruence|exact H].
Qed.

(** Firing an interval never moves the clock nor stales the display. *)
Lemma fire_display (id : positive) (b : Browser) :
  display_current loc b ->
  display_current loc (fire loc id b) /\ wallclock (fire loc id b) = wallclock b.
Proof.
  unfold display_current, fire. intros H. case_decide; [split; reflexivity|].
  destruct (onPage_frame (TimerEvent (Fire id)) b) as (-> & -> & _). auto.
Qed.

Lemma fold_fire_ok (ids : list positive) (b : Browser) :
  browser_ok b -> display_current loc b ->
  let b' := fold_left (fun b id => fire loc id b) ids b in
  browser_ok b' /\ display_current loc b' /\ wallclock b' = wallclock b.
Proof.
  revert b. induction ids as [|id ids IH]; intros b Hok Hd; [auto|]. cbn [fold_left].
  destruct (fire_display id b Hd) as [Hd' Hw].
  destruct (IH _ (fire_ok id b Hok) Hd') as (? & ? & ->). auto.
Qed.

(** One second: the clock's interval fires first and redraws the time
    the clock now reads. *)
Lemma elapse_ok (b : Browser) :
  browser_ok b ->
  browser_ok (elapse loc b) /\ display_current loc (elapse loc b) /\
  wallclock (elapse loc b) = wallclock b + 1000.
Proof.
  intros Hok. pose proof Hok as (cid & Hcid & _).
  destruct (advanceClock_frame b) as (Hw & _ & Hi).
  assert (Ha : activeIntervals (advanceClock b) =
    cid :: match phase (advanceClock b) with Loaded _ sys => intervals sys | _ => [] end)
    by (unfold activeIntervals; rewrite Hi, Hcid; reflexivity).
  assert (Hf : fire loc cid (advanceClock b) = updateCurrentTime loc (advanceClock b))
    by (unfold fire; rewrite decide_True by (rewrite Hi; exact Hcid); reflexivity).
  unfold elapse. cbv zeta. rewrite Ha. cbn [fold_left]. rewrite Hf.
  destruct (fold_fire_ok (match phase (advanceClock b) with Loaded _ sys => intervals sys
                          | _ => [] end) (updateCurrentTime loc (advanceClock b))
    (updateCurrentTime_ok _ (advanceClock_ok b Hok)) eq_refl) as (? & ? & ->).
  cbn [wallclock updateCurrentTime]. rewrite Hw. auto.
Qed.
End BrowserFacts.

(** The user's actions are page events other than the clock moving. *)
Lemma userPageEvent_not_time (u : UserEvent) (t : Z) : userPageEvent u <> TimePasses t.
Proof. destruct u; discriminate. Qed.

Section BrowserSteps.
Context (loc : Locale).

Lemma domContentLoaded_ok (t0 : Z) (first : positive) :
  browser_ok (domContentLoaded loc t0 first) /\ display_current loc (domContentLoaded loc t0 first).
Proof. split; [exists first; split; [reflexivity|cbn; lia]|reflexivity]. Qed.

Lemma browserStep_ok (b : Browser) (e : BrowserEvent) :
  browser_ok b -> display_current loc b ->
  browser_ok (browserStep loc b e) /\ display_current loc (browserStep loc b e).
Proof.
  intros Hok Hd. unfold display_current in *. destruct e as [n p ctl rng| |u]; cbn [browserStep].
  - destruct (settle_frame n p ctl rng b) as (-> & -> & _). split; [apply settle_ok, Hok|exact Hd].
  - destruct (elapse_ok loc b Hok) as (? & ? & _). auto.
  - destruct (onPage_frame (userPageEvent u) b) as (-> & -> & _).
    split; [apply onPage_ok; [apply userPageEvent_not_time|exact Hok]|exact Hd].
Qed.

Lemma browser_reachable_ok (b : Browser) :
  browser_reachable loc b -> browser_ok b /\ display_current loc b.
Proof.
  induction 1 as [|b e _ [Hok Hd]]; [apply domContentLoaded_ok|apply browserStep_ok; assumption].
Qed.

Lemma browser_reachable_run (b : Browser) (es : list BrowserEvent) :
  browser_reachable loc b -> browser_reachable loc (browserRun loc b es).
Proof.
  revert b. induction es as [|e es IH]; intros b Hb; [exact Hb|].
  change (browserRun loc b (e :: es)) with (browserRun loc (browserStep loc b e) es). apply IH. constructor. exact Hb.
Qed.
End BrowserSteps.

Section BrowserTime.
Context (loc : Locale).

Lemma fire_frame (id : positive) (b : Browser) :
  wallclock (fire loc id b) = wallclock b /\ timeIntervalId (fire loc id b) = timeIntervalId b.
Proof.
  unfold fire. case_decide; [auto|]. destruct (onPage_frame (TimerEvent (Fire id)) b) as (? & _ & ? & _).
  auto.
Qed.

Lemma fold_fire_frame (ids : list positive) (b : Browser) :
  let b' := fold_left (fun b id => fire loc id b) ids b in
  wallclock b' = wallclock b /\ timeIntervalId b' = timeIntervalId b.
Proof.
  revert b. induction ids as [|id ids IH]; intros b; [auto|]. cbn [fold_left].
  destruct (IH (fire loc id b)) as [-> ->]. apply fire_frame.
Qed.

(** Time moves only with [Elapse], a second at a time, and the clock's
    interval is never cleared nor replaced. *)
Lemma browserRun_clock (b : Browser) (es : list BrowserEvent) :
  wallclock (browserRun loc b es) = wallclock b + 1000 * Z.of_nat (seconds es) /\
  timeIntervalId (browserRun loc b es) = timeIntervalId b.
Proof.
  revert b. induction es as [|e es IH]; intros b; [cbn; split; [lia|reflexivity]|].
  change (browserRun loc b (e :: es)) with (browserRun loc (browserStep loc b e) es).
  destruct (IH (browserStep loc b e)) as [-> ->].
  destruct e as [n p ctl rng| |u]; cbn [browserStep seconds].
  - destruct (settle_frame n p ctl rng b) as (-> & _ & ->). auto.
  - unfold elapse. cbv zeta.
    destruct (fold_fire_frame (activeIntervals (advanceClock b)) (advanceClock b)) as [-> ->].
    destruct (advanceClock_frame b) as (-> & _ & ->). split; [lia|reflexivity].
  - destruct (onPage_frame (userPageEvent u) b) as (-> & _ & -> & _). auto.
Qed.

(** After the [catch] callback nothing changes the phase: no retry, and
    no listener was registered. *)
Lemma browserRun_LoadError (b : Browser) (es : list BrowserEvent) :
  phase b = LoadError -> phase (browserRun loc b es) = LoadError.
Proof.
  revert b. induction es as [|e es IH]; intros b Hb; [exact Hb|].
  change (browserRun loc b (e :: es)) with (browserRun loc (browserStep loc b e) es). apply IH.
  destruct e as [n p ctl rng| |u]; cbn [browserStep].
  - unfold settle. rewrite Hb. exact Hb.
  - unfold elapse. cbv zeta.
    assert (Hph : forall ids b, phase b = LoadError ->
              phase (fold_left (fun b id => fire loc id b) ids b) = LoadError).
    { induction ids as [|id ids IHi]; intros b' Hb'; [exact Hb'|]. apply IHi.
      unfold fire. case_decide; [exact Hb'|]. unfold onPage. rewrite Hb'. exact Hb'. }
    apply Hph. unfold advanceClock, onPage. cbn [phase]. rewrite Hb. reflexivity.
  - unfold onPage. rewrite Hb. exact Hb.
Qed.

(** The clock's callback and a page event touch disjoint parts of the
    state. *)
Lemma updateCurrentTime_onPage (e : PageEvent) (b : Browser) :
  updateCurrentTime loc (onPage e b) = onPage e (updateCurrentTime loc b).
Proof. unfold onPage. cbn [phase updateCurrentTime]. destruct (phase b); reflexivity. Qed.

Lemma updateCurrentTime_settle (nodesRes : ParseResult Node.t) (perfRes : ParseResult Perf.t)
    (ctl : Controls) (rng : Rng) (b : Browser) :
  updateCurrentTime loc (settle nodesRes perfRes ctl rng b) =
  settle nodesRes perfRes ctl rng (updateCurrentTime loc b).
Proof.
  unfold settle. cbn [phase nextId wallclock updateCurrentTime].
  destruct (phase b); [destruct (startDashboard _ _ _ _ _ _)|..]; reflexivity.
Qed.
End BrowserTime.

(** One second of a loaded page: the page sees the new time, then its
    refresh interval, distinct from the clock's, runs the tick once. *)
Section LoadedSecond.
Context (loc : Locale).

Lemma elapse_wallclock (b : Browser) : wallclock (elapse loc b) = wallclock b + 1000.
Proof.
  unfold elapse. cbv zeta.
  destruct (fold_fire_frame loc (activeIntervals (advanceClock b)) (advanceClock b)) as [-> _].
  apply advanceClock_frame.
Qed.

Lemma reach_iter_elapse (b : Browser) (k : nat) :
  browser_reachable loc b -> browser_reachable loc (Nat.iter k (elapse loc) b).
Proof.
  intros Hr. induction k as [|k IH]; [exact Hr|]. rewrite Nat.iter_succ.
  exact (br_step loc _ Elapse IH).
Qed.

Lemma elapse_loaded (b : Browser) (opts : list string * list string) (sys : System) :
  browser_ok b -> phase b = Loaded opts sys ->
  phase (elapse loc b) =
    Loaded opts (tick refreshPage (set_app (setPageNow (wallclock b + 1000) (app sys)) sys)).
Proof.
  intros Hok Hph. pose proof Hok as (cid & Hc & Hinv). rewrite Hph in Hinv.
  destruct Hinv as ([_ Hids] & _ & nodes & perf & Hrun).
  destruct (running_one_interval nodes perf sys Hrun) as [rid Hrid].
  assert (Hne : rid <> cid) by (rewrite Hrid in Hids; inversion Hids; lia).
  set (sys1 := set_app (setPageNow (wallclock b + 1000) (app sys)) sys).
  set (b1 := mkBrowser (wallclock b + 1000) (currentTime b) (timeIntervalId b) (nextId b)
                       (Loaded opts sys1)).
  assert (Ha : advanceClock b = b1)
    by (unfold advanceClock, onPage; cbn [phase]; rewrite Hph; reflexivity).
  assert (Hi : activeIntervals b1 = [cid; rid])
    by (unfold activeIntervals; cbn [timeIntervalId phase b1]; rewrite Hc;
        change (intervals sys1) with (intervals sys); rewrite Hrid; reflexivity).
  unfold elapse. cbv zeta. rewrite Ha, Hi. cbn [fold_left].
  unfold fire. cbn [timeIntervalId updateCurrentTime b1]. rewrite Hc.
  rewrite (decide_True (P := Some cid = Some cid)) by reflexivity.
  rewrite decide_False by (unfold b1; cbn [timeIntervalId updateCurrentTime]; congruence).
  unfold onPage, b1. cbn [phase updateCurrentTime set_phase pageStep step].
  rewrite decide_True; [reflexivity|].
  change (intervals sys1) with (intervals sys). rewrite Hrid. left.
Qed.
End LoadedSecond.

(** ** Properties *)

(** C14: from the [DOMContentLoaded] handler on, whatever the loads report
    and whatever the user does, [#current-time] shows the current
    wall-clock time and the clock's interval stays active.  It is never
    one of the refresh intervals, because the browser hands out ids from
    one counter: the refresh timer's [clearInterval] never stops the
    clock, and the clock's firing never runs a refresh tick.  Once the
    data are loaded, the page reads the wall clock and is a running page
    of [Dashboard]. *)
Theorem browser_invariant (loc : Locale) (b : Browser) :
  browser_reachable loc b ->
  currentTime b = currentTimeText loc (wallclock b) /\
  exists cid, timeIntervalId b = Some cid /\
    forall opts sys, phase b = Loaded opts sys ->
      (cid ∉ intervals sys) /\ now (globals (app sys)) = wallclock b /\
      exists nodes perf, running nodes perf sys.
Proof.
  intros Hr. destruct (browser_reachable_ok loc b Hr) as [(cid & Hc & Hph) Hd].
  split; [exact Hd|]. exists cid. split; [exact Hc|]. intros opts sys E. rewrite E in Hph.
  destruct Hph as ([_ Hids] & Hnow & Hrun). split; [|auto].
  intros Hin. rewrite Forall_forall in Hids. specialize (Hids cid Hin). lia.
Qed.

(** C33: when a file fails to load, the alert is final and only the clock
    lives on: the [catch] callback leaves no refresh interval and no
    listener, so nothing the user does and no later second changes the
    phase or starts a retry.  The clock's interval remains the only
    active one, and [#current-time] keeps moving by one second per
    second. *)
Theorem load_failure_clock_only (loc : Locale) (b : Browser) (nodesRes : ParseResult Node.t)
    (perfRes : ParseResult Perf.t) (ctl : Controls) (rng : Rng) (es : list BrowserEvent) :
  browser_reachable loc b -> phase b = Loading ->
  (exists err, nodesRes = ParseError err) \/ (exists err, perfRes = ParseError err) ->
  let b' := browserRun loc (settle nodesRes perfRes ctl rng b) es in
  phase b' = LoadError /\ timeIntervalId b <> None /\
  activeIntervals b' = option_list (timeIntervalId b) /\
  wallclock b' = wallclock b + 1000 * Z.of_nat (seconds es) /\
  currentTime b' = currentTimeText loc (wallclock b').
Proof.
  intros Hr Hl Herr. cbv zeta.
  assert (Hs : phase (settle nodesRes perfRes ctl rng b) = LoadError).
  { unfold settle. rewrite Hl.
    destruct Herr as [[err ->]|[err ->]]; [|destruct nodesRes]; reflexivity. }
  pose proof (browserRun_LoadError loc _ es Hs) as Hph.
  destruct (browserRun_clock loc (settle nodesRes perfRes ctl rng b) es) as [Hw Hi].
  destruct (settle_frame nodesRes perfRes ctl rng b) as (Hw0 & _ & Hi0).
  destruct (browser_reachable_ok loc b Hr) as [(cid & Hc & _) _].
  split; [exact Hph|]. split; [congruence|].
  split; [unfold activeIntervals; rewrite Hph, Hi, Hi0; apply app_nil_r|].
  split; [rewrite Hw, Hw0; reflexivity|].
  apply browser_reachable_ok. apply browser_reachable_run. apply (br_step loc b (Settle nodesRes perfRes ctl rng) Hr).
Qed.

(** C36: the clock and the page are independent, as the two timers share
    no state.  Redrawing the clock commutes with the promise settling and
    with every user action.  Within a second, firing the refresh tick
    before the clock gives the same page as the reverse order, so the
    order in which the browser runs the two intervals does not matter. *)
Theorem clock_independent (loc : Locale) (b : Browser) :
  browser_reachable loc b ->
  (forall nodesRes perfRes ctl rng,
     updateCurrentTime loc (browserStep loc b (Settle nodesRes perfRes ctl rng)) =
     browserStep loc (updateCurrentTime loc b) (Settle nodesRes perfRes ctl rng)) /\
  (forall u, updateCurrentTime loc (browserStep loc b (User u)) =
             browserStep loc (updateCurrentTime loc b) (User u)) /\
  fold_left (fun b id => fire loc id b) (rev (activeIntervals (advanceClock b))) (advanceClock b) =
    elapse loc b.
Proof.
  intros Hr. split; [intros; apply updateCurrentTime_settle|].
  split; [intros; apply updateCurrentTime_onPage|].
  destruct (browser_reachable_ok loc b Hr) as [Hok _].
  destruct (advanceClock_ok b Hok) as (cid & Hc & Hph).
  unfold elapse. cbv zeta. unfold activeIntervals. rewrite Hc.
  destruct (phase (advanceClock b)) as [| |opts sys]; [reflexivity..|].
  destruct Hph as ([_ Hids] & _ & nodes & perf & Hrun).
  destruct (running_one_interval nodes perf sys Hrun) as [rid Hrid]. rewrite Hrid in *.
  assert (Hne : rid <> cid) by (inversion Hids; lia).
  change (option_list (Some cid)) with [cid]. cbn [Datatypes.app rev fold_left].
  assert (Hfc : forall x, timeIntervalId x = Some cid -> fire loc cid x = updateCurrentTime loc x)
    by (intros x Hx; unfold fire; rewrite decide_True by exact Hx; reflexivity).
  assert (Hfr : forall x, timeIntervalId x = Some cid ->
                  fire loc rid x = onPage (TimerEvent (Fire rid)) x)
    by (intros x Hx; unfold fire; rewrite decide_False by congruence; reflexivity).
  rewrite (Hfr (advanceClock b) Hc), (Hfc (advanceClock b) Hc).
  rewrite Hfc by (destruct (onPage_frame (TimerEvent (Fire rid)) (advanceClock b))
                    as (_ & _ & -> & _); exact Hc).
  rewrite Hfr by exact Hc.
  apply updateCurrentTime_onPage.
Qed.

(** C15: through the browser, a loaded page refreshes every 180 seconds of
    wall-clock time.  After [k] seconds it is still loaded, its countdown
    reads [180 - N mod 180] with [N = k + 180 - c], its cursor has advanced
    by 150 for each of the [N / 180] refreshes, and its clock reads the
    wall clock [k] seconds on.  The clock's interval never takes the
    refresh tick's turn, since their ids differ. *)
Theorem browser_refresh_every_180 (loc : Locale) (b : Browser)
    (opts : list string * list string) (sys : System) (k : nat) :
  browser_reachable loc b -> phase b = Loaded opts sys ->
  let N := Z.of_nat k + 180 - countdownTimer sys in
  exists sys', phase (Nat.iter k (elapse loc) b) = Loaded opts sys' /\
    countdownTimer sys' = 180 - N mod 180 /\
    simulatedDataIndex (globals (app sys')) =
      simulatedDataIndex (globals (app sys)) + 150 * (N / 180) /\
    now (globals (app sys')) = wallclock b + 1000 * Z.of_nat k.
Proof.
  intros Hr Hph N. subst N.
  destruct (browser_reachable_ok loc b Hr) as [(cid & _ & Hinv) _]. rewrite Hph in Hinv.
  destruct Hinv as (_ & Hnow & nodes & perf & Hrun).
  destruct (running_inv nodes perf sys Hrun) as ((Hc & _) & _ & _).
  unfold refreshInterval in Hc.
  induction k as [|k (sys' & Hph' & Hc' & Hi' & Hn')].
  - exists sys. split; [exact Hph|].
    rewrite Z.mod_small, Z.div_small by lia. split; [lia|]. split; [lia|]. rewrite Hnow. lia.
  - pose proof (reach_iter_elapse loc b k Hr) as Hr'.
    destruct (browser_reachable_ok loc _ Hr') as [Hok' _].
    rewrite Nat.iter_succ. eexists. split; [exact (elapse_loaded loc _ opts sys' Hok' Hph')|].
    rewrite tick_countdown, tick_app. cbn [countdownTimer set_app app].
    replace (Z.of_nat (S k) + 180 - countdownTimer sys)
      with (Z.of_nat k + 180 - countdownTimer sys + 1) by lia.
    destruct (countdown_step (Z.of_nat k + 180 - countdownTimer sys)) as [Ec Ed]; [lia|].
    unfold refreshInterval in *. rewrite Hc' in *. rewrite <- Ec, Ed.
    assert (Hw : wallclock (Nat.iter k (elapse loc) b) = wallclock b + 1000 * Z.of_nat k).
    { clear -k. induction k as [|k IHk]; [cbn; lia|].
      rewrite Nat.iter_succ, elapse_wallclock, IHk. lia. }
    rewrite Hw.
    destruct (_ <=? 0).
    + destruct (refreshPage_globals (setPageNow (wallclock b + 1000 * Z.of_nat k + 1000) (app sys')))
        as ((Hi & _ & _ & Ht) & _ & _).
      cbn [globals setPageNow set_now simulatedDataIndex now] in Hi, Ht.
      split; [reflexivity|]. rewrite Hi, Ht, Hi'. split; lia.
    + cbn [globals setPageNow set_now simulatedDataIndex now].
      split; [reflexivity|]. rewrite Hi'. split; lia.
Qed.

(** ** Witnesses: the page of [Dashboard.demo_system] in a browser

    A stand-in locale that writes the day number and the second of the
    day. *)
Definition demo_locale : Locale :=
  mkLocale (fun t => pretty (t / 86400000)) (fun t => pretty ((t mod 86400000) / 1000)).

Definition demo_settle : BrowserEvent :=
  Settle (ParseComplete (nodesData split_globals)) (ParseComplete split_history) all_controls
         (rand split_globals).

(** Opened at time 0; the data load; a second; a manual refresh; a second. *)
Definition demo_browser : Browser :=
  browserRun demo_locale (domContentLoaded demo_locale 0 1)
    [demo_settle; Elapse; User ManualRefreshClick; Elapse].

Definition demo_loaded : Browser :=
  browserRun demo_locale (domContentLoaded demo_locale 0 1) [demo_settle].

Lemma browser_invariant_witness :
  browser_reachable demo_locale demo_browser /\ currentTime demo_browser = "0 2"%string.
Proof.
  assert (Hr : browser_reachable demo_locale demo_browser)
    by (apply browser_reachable_run; constructor).
  split; [exact Hr|]. destruct (browser_invariant demo_locale demo_browser Hr) as [-> _].
  vm_compute. reflexivity.
Defined.

Lemma load_failure_clock_only_witness :
  browser_reachable demo_locale (domContentLoaded demo_locale 0 1) /\
  phase (domContentLoaded demo_locale 0 1) = Loading /\
  currentTime (browserRun demo_locale
    (settle (ParseError "404") (ParseComplete split_history) all_controls (rand split_globals)
            (domContentLoaded demo_locale 0 1))
    [Elapse; User ManualRefreshClick; Elapse]) = "0 2"%string.
Proof.
  split; [constructor|]. split; [reflexivity|].
  destruct (load_failure_clock_only demo_locale _ (ParseError "404") (ParseComplete split_history)
    all_controls (rand split_globals) [Elapse; User ManualRefreshClick; Elapse] (br_init _ 0 1)
    eq_refl (or_introl (ex_intro _ _ eq_refl))) as (_ & _ & _ & Hw & ->).
  rewrite Hw. vm_compute. reflexivity.
Defined.

Lemma clock_independent_witness :
  browser_reachable demo_locale demo_loaded /\
  currentTime (fold_left (fun b id => fire demo_locale id b)
    (rev (activeIntervals (advanceClock demo_loaded))) (advanceClock demo_loaded)) = "0 1"%string.
Proof.
  assert (Hr : browser_reachable demo_locale demo_loaded)
    by (apply browser_reachable_run; constructor).
  split; [exact Hr|]. destruct (clock_independent demo_locale demo_loaded Hr) as (_ & _ & ->).
  destruct (browser_invariant demo_locale _ (br_step _ _ Elapse Hr)) as [Hd _].
  cbn [browserStep] in Hd. rewrite Hd. vm_compute. reflexivity.
Defined.

Lemma browser_refresh_every_180_witness :
  browser_reachable demo_locale demo_loaded /\
  exists opts sys, phase demo_loaded = Loaded opts sys /\ countdownTimer sys = 180 /\
  exists sys', phase (Nat.iter 200 (elapse demo_locale) demo_loaded) = Loaded opts sys' /\
               countdownTimer sys' = 160.
Proof.
  assert (Hr : browser_reachable demo_locale demo_loaded)
    by (apply browser_reachable_run; constructor).
  split; [exact Hr|].
  assert (E : exists opts sys, phase demo_loaded = Loaded opts sys) by (vm_compute; eauto).
  destruct E as (opts & sys & E). exists opts, sys. split; [exact E|].
  assert (Hc : countdownTimer sys = 180)
    by (vm_compute in E; injection E as _ <-; vm_compute; reflexivity).
  split; [exact Hc|].
  destruct (browser_refresh_every_180 demo_locale demo_loaded opts sys 200 Hr E)
    as (sys' & Hp & Hc' & _).
  exists sys'. split; [exact Hp|]. rewrite Hc', Hc. reflexivity.
Defined.
